(** * FitTrack: dashboard statistics, progress deltas and the workout page

    A shallow embedding of the client-side logic of the fitness tracker
    (Next.js pages [src/app/page.tsx], [src/app/progress/page.tsx] and the
    workout detail page), together with the parts of the JavaScript
    platform that this logic calls: IEEE 754 numbers and
    [Number.prototype.toFixed], [Math.round], [Date], arrays and the
    query client of the remote store. *)

From Stdlib Require Import ZArith List String Ascii Bool Lia Floats.
From Stdlib Require Import DecimalString.
From Stdlib Require Import Sorting.Sorted Sorting.Permutation Zpower.
Import ListNotations.

Local Open Scope string_scope.
Local Open Scope list_scope.
Local Open Scope Z_scope.

(** ** JavaScript numbers *)

Module Js.

(** A JavaScript [number] is an IEEE 754 binary64 value. *)
Definition number := float.

(** [ToBoolean] on a number: [+0], [-0] and [NaN] are falsy. *)
Definition ToBoolean (x : number) : bool :=
  negb ((x =? 0)%float || is_nan x).

(** A value of TypeScript type [number | null]. *)
Definition nullable := option number.

(** [ToBoolean] on [number | null]: [null] is falsy. *)
Definition truthy (v : nullable) : bool :=
  match v with
  | None => false
  | Some x => ToBoolean x
  end.

(** [ToNumber] on [number | null]: [null] converts to [+0]. *)
Definition ToNumber (v : nullable) : number :=
  match v with
  | None => 0%float
  | Some x => x
  end.

(** [x || 0] on a number. *)
Definition or_zero (x : number) : number :=
  if ToBoolean x then x else 0%float.

(** The number that an integer denotes, as a row decoded from JSON carries
    it and as [length] gives it: the binary64 value nearest to the integer,
    the one with an even mantissa on a tie. *)
Definition of_integer (n : Z) : number :=
  SF2Prim (binary_normalize prec emax n 0 false).

(** The integer that a number is equal to, if there is one. *)
Definition integer_value (x : number) : option Z :=
  match Prim2SF x with
  | S754_zero _ => Some 0
  | S754_finite s m e =>
      let v := if s then Z.neg m else Z.pos m in
      if 0 <=? e then Some (v * 2 ^ e)
      else if Z.pos m mod 2 ^ (- e) =? 0 then Some (v / 2 ^ (- e))
      else None
  | _ => None
  end.

(** [Math.floor]: the largest integer at or below [x], computed exactly
    from the mantissa and the exponent of [x]; [NaN], the infinities and
    the zeros are returned as they are. *)
Definition Math_floor (x : number) : number :=
  match Prim2SF x with
  | S754_finite s m e =>
      let v := if s then Z.neg m else Z.pos m in
      let n := if 0 <=? e then v * 2 ^ e else v / 2 ^ (- e) in
      if n =? 0 then zero else of_integer n
  | _ => x
  end.

(** [x % y]: what is left of [x] after the multiple of [y] nearest to [x]
    towards zero is taken away, with the sign of [x]; the result is exact. *)
Definition remainder (x y : number) : number :=
  match Prim2SF x, Prim2SF y with
  | S754_nan, _ | _, S754_nan => nan
  | S754_infinity _, _ => nan
  | _, S754_zero _ => nan
  | _, S754_infinity _ => x
  | S754_zero _, _ => x
  | S754_finite sx mx ex, S754_finite _ my ey =>
      let e := Z.min ex ey in
      let r := (Z.pos mx * 2 ^ (ex - e)) mod (Z.pos my * 2 ^ (ey - e)) in
      if r =? 0 then (if sx then neg_zero else zero)
      else SF2Prim (binary_normalize prec emax (if sx then - r else r) e false)
  end.

(** A property read from a row decoded from JSON: its value, [null], or
    [undefined] when the row has no such key. *)
Inductive Property (A : Type) : Type :=
  | present (a : A)
  | null
  | undefined.

Arguments present {A} a.
Arguments null {A}.
Arguments undefined {A}.

(** *** Decimal strings *)

Definition digits_of (n : Z) : string :=
  NilZero.string_of_uint (N.to_uint (Z.to_N n)).

Fixpoint zeros (k : nat) : string :=
  match k with
  | O => ""
  | S k' => String "0" (zeros k')
  end.

(** *** [Number::toString] above 10^21

    For a finite double [x = m * 2^e >= 10^21] the platform prints the
    shortest decimal [s * 10^(n-k)] (k digits) that reads back as [x], in
    exponent form.  [x] is an integer here, and the reals that round to it
    form an interval around it whose end points are included exactly when
    the mantissa is even. *)

Definition reads_back (m : positive) (e : Z) (v : Z) : bool :=
  let x := Z.pos m * 2 ^ e in
  let below := if (Z.pos m =? 2 ^ 52) then 2 ^ (e - 1) else 2 ^ e in
  let lo2 := 2 * x - below in
  let hi2 := 2 * x + 2 ^ e in
  if Z.even (Z.pos m)
  then (lo2 <=? 2 * v) && (2 * v <=? hi2)
  else (lo2 <? 2 * v) && (2 * v <? hi2).

(** Candidates with [k] digits: [(s, j)] stands for [s * 10^j]. *)
Definition candidates (m : positive) (e : Z) (k : Z) : list (Z * Z) :=
  let x := Z.pos m * 2 ^ e in
  let d := Z.of_nat (String.length (digits_of x)) in
  filter
    (fun sj : Z * Z =>
       let (s, j) := sj in
       (0 <=? j) && (10 ^ (k - 1) <=? s) && (s <? 10 ^ k)
       && reads_back m e (s * 10 ^ j))
    (flat_map
       (fun j => [(x / 10 ^ j, j); (x / 10 ^ j + 1, j)])
       [d - k; d - k + 1]).

Definition closest (x : Z) (c : list (Z * Z)) : option (Z * Z) :=
  fold_left
    (fun (best : option (Z * Z)) (sj : Z * Z) =>
       match best with
       | None => Some sj
       | Some (s0, j0) =>
           let (s, j) := sj in
           if Z.abs (s * 10 ^ j - x) <? Z.abs (s0 * 10 ^ j0 - x)
           then Some sj else best
       end)
    c None.

(** The shortest candidate, trying 1, 2, ... digits; 17 digits always
    read back. *)
Fixpoint shortest (fuel : nat) (k : Z) (m : positive) (e : Z) : option (Z * Z) :=
  match fuel with
  | O => None
  | S fuel' =>
      match closest (Z.pos m * 2 ^ e) (candidates m e k) with
      | Some sj => Some sj
      | None => shortest fuel' (k + 1) m e
      end
  end.

Definition toString_large (m : positive) (e : Z) : string :=
  match shortest 17 1 m e with
  | None => ""
  | Some (s, j) =>
      let ds := digits_of s in
      let k := String.length ds in
      let n := Z.of_nat k + j in
      let mant :=
        if (k =? 1)%nat then ds
        else (substring 0 1 ds ++ "." ++ substring 1 (k - 1) ds)%string in
      (mant ++ "e+" ++ digits_of (n - 1))%string
  end.

(** *** [Number.prototype.toFixed] *)

(** The integer [n] for which [n / 10^f - m * 2^e] is as close to zero as
    possible, the larger one when there are two. *)
Definition nearest_scaled (m : positive) (e : Z) (f : nat) : Z :=
  let v := Z.pos m * 10 ^ Z.of_nat f in
  if 0 <=? e then v * 2 ^ e
  else (2 * v + 2 ^ (- e)) / 2 ^ (- e + 1).

(** The digits of [n] with a decimal point before the last [f] of them. *)
Definition place_point (n : Z) (f : nat) : string :=
  let m := if n =? 0 then "0" else digits_of n in
  match f with
  | O => m
  | _ =>
      let m' :=
        if (String.length m <=? f)%nat
        then (zeros (f + 1 - String.length m) ++ m)%string else m in
      let k := String.length m' in
      (substring 0 (k - f) m' ++ "." ++ substring (k - f) f m')%string
  end.

Definition toFixed (x : number) (fractionDigits : nat) : string :=
  match Prim2SF x with
  | S754_nan => "NaN"
  | S754_infinity s => if s then "-Infinity" else "Infinity"
  | S754_zero _ => place_point 0 fractionDigits
  | S754_finite s m e =>
      let sign := if s then "-" else "" in
      if (0 <=? e) && (10 ^ 21 <=? Z.pos m * 2 ^ e)
      then (sign ++ toString_large m e)%string
      else (sign ++ place_point (nearest_scaled m e fractionDigits) fractionDigits)%string
  end.

End Js.

(** ** Outcomes of running a handler *)

(** Reading a property of [undefined] throws a [TypeError].  JavaScript's
    [/] does not throw on a zero divisor (it yields an infinity or [NaN]);
    the embedding reports that event as an outcome of its own, so that
    reaching a division with a zero divisor can be observed. *)
Inductive Fault : Type :=
  | TypeError
  | DivisionByZero.

Inductive Exec (A : Type) : Type :=
  | Done (a : A)
  | Raise (e : Fault).

Arguments Done {A} a.
Arguments Raise {A} e.

Definition bind {A B : Type} (c : Exec A) (k : A -> Exec B) : Exec B :=
  match c with
  | Done a => k a
  | Raise e => Raise e
  end.

Notation "x <- c ;; k" := (bind c (fun x => k))
  (at level 61, c at next level, right associativity).

(** [a[i]]: [undefined] outside [0 .. a.length - 1]. *)
Definition index {A : Type} (a : list A) (i : Z) : option A :=
  if i <? 0 then None else nth_error a (Z.to_nat i).

(** [o[field]] for an array element [o] that may be [undefined]. *)
Definition property {A B : Type} (o : option A) (get : A -> B) : Exec B :=
  match o with
  | Some a => Done (get a)
  | None => Raise TypeError
  end.

Definition divide (a b : Js.number) : Exec Js.number :=
  if (b =? 0)%float then Raise DivisionByZero else Done (a / b)%float.

(** ** Rows of the remote store ([src/lib/supabase.ts]) *)

Module ProgressMetric.
Record t : Type := mk {
  id : string;
  user_id : option string;
  date : string;
  weight : Js.nullable;
  body_fat_percentage : Js.nullable;
  measurements : list (string * Js.number);
  notes : option string;
  created_at : string
}.
End ProgressMetric.

Module Workout.
Record t : Type := mk {
  id : string;
  user_id : option string;
  name : string;
  date : string;
  duration_minutes : Z;
  notes : option string;
  created_at : string
}.
End Workout.

Module Exercise.
Record t : Type := mk {
  id : string;
  name : string;
  description : option string;
  category_id : option string;
  muscle_groups : list string;
  difficulty : string;
  instructions : option string;
  created_at : string
}.
End Exercise.

Module WorkoutExercise.
Record t : Type := mk {
  id : string;
  workout_id : string;
  exercise_id : string;
  sets : Z;
  reps : Z;
  weight : Js.number;
  duration_seconds : Z;
  order_index : Z;
  notes : option string
}.
End WorkoutExercise.

(** ** The progress page ([src/app/progress/page.tsx]) *)

Module Progress.

(** The selector ['weight' | 'body_fat_percentage']. *)
Inductive Field : Type :=
  | weight
  | body_fat_percentage.

Definition get (field : Field) (m : ProgressMetric.t) : Js.nullable :=
  match field with
  | weight => ProgressMetric.weight m
  | body_fat_percentage => ProgressMetric.body_fat_percentage m
  end.

Record Change : Type := mkChange {
  value : string;
  percent : string;
  isPositive : bool
}.

Definition getLatestMetric (metrics : list ProgressMetric.t)
  : option ProgressMetric.t :=
  if (List.length metrics =? 0)%nat then None
  else index metrics (Z.of_nat (List.length metrics) - 1).

Definition getChange (metrics : list ProgressMetric.t) (field : Field)
  : Exec (option Change) :=
  if Z.of_nat (List.length metrics) <? 2 then Done None
  else
    let latest := index metrics (Z.of_nat (List.length metrics) - 1) in
    let previous := index metrics (Z.of_nat (List.length metrics) - 2) in
    latestValue <- property latest (get field) ;;
    previousValue <- property previous (get field) ;;
    if negb (Js.truthy latestValue) || negb (Js.truthy previousValue)
    then Done None
    else
      let change := (Js.ToNumber latestValue - Js.ToNumber previousValue)%float in
      quotient <- divide change (Js.ToNumber previousValue) ;;
      let percentChange := Js.toFixed (quotient * 100)%float 1 in
      Done (Some {| value := Js.toFixed change 1;
                    percent := percentChange;
                    isPositive := (0 <? change)%float |}).

(** The two most recent entries of a list in ascending order. *)
Definition latest_of (metrics : list ProgressMetric.t) : option ProgressMetric.t :=
  nth_error (rev metrics) 0.

Definition previous_of (metrics : list ProgressMetric.t) : option ProgressMetric.t :=
  nth_error (rev metrics) 1.

(** A field is missing when it is [null] or compares equal to zero. *)
Definition null_or_zero (v : Js.nullable) : Prop :=
  match v with
  | None => True
  | Some x => (x =? 0)%float = true
  end.

(** Rows arrive as JSON, which has no literal for [NaN]. *)
Definition json_value (v : Js.nullable) : Prop :=
  match v with
  | None => True
  | Some x => is_nan x = false
  end.

Definition json_row (m : ProgressMetric.t) : Prop :=
  json_value (ProgressMetric.weight m)
  /\ json_value (ProgressMetric.body_fat_percentage m).

Definition entry (d : string) (w bf : Js.nullable) : ProgressMetric.t :=
  ProgressMetric.mk "" None d w bf [] None "".

(** What [getChange] computes from the selected field of the latest and of
    the previous entry. *)
Definition delta (latestValue previousValue : Js.nullable) : Exec (option Change) :=
  if negb (Js.truthy latestValue) || negb (Js.truthy previousValue)
  then Done None
  else
    let change := (Js.ToNumber latestValue - Js.ToNumber previousValue)%float in
    quotient <- divide change (Js.ToNumber previousValue) ;;
    Done (Some {| value := Js.toFixed change 1;
                  percent := Js.toFixed (quotient * 100)%float 1;
                  isPositive := (0 <? change)%float |}).

(** The entries of the example of the specification. *)
Definition jan_1 : ProgressMetric.t := entry "2024-01-01" (Some 180%float) None.
Definition jan_8 : ProgressMetric.t := entry "2024-01-08" (Some 178%float) None.

End Progress.

(** ** JavaScript dates (ECMAScript time values, in milliseconds) *)

Module JsDate.

Definition msPerDay : Z := 86400000.

Definition Day (t : Z) : Z := t / msPerDay.
Definition TimeWithinDay (t : Z) : Z := t mod msPerDay.

Definition DaysInYear (y : Z) : Z :=
  if negb (y mod 4 =? 0) then 365
  else if negb (y mod 100 =? 0) then 366
  else if negb (y mod 400 =? 0) then 365
  else 366.

Definition DayFromYear (y : Z) : Z :=
  365 * (y - 1970) + (y - 1969) / 4 - (y - 1901) / 100 + (y - 1601) / 400.

Definition TimeFromYear (y : Z) : Z := msPerDay * DayFromYear y.

(** The largest [y] with [TimeFromYear y <= t]: an estimate from the
    400-year cycle of 146097 days, moved by one year where needed. *)
Definition YearFromTime (t : Z) : Z :=
  let d := Day t in
  let y := 1970 + (d * 400) / 146097 in
  if d <? DayFromYear y then y - 1
  else if DayFromYear (y + 1) <=? d then y + 1
  else y.

Definition InLeapYear (t : Z) : Z :=
  if DaysInYear (YearFromTime t) =? 366 then 1 else 0.

Definition DayWithinYear (t : Z) : Z := Day t - DayFromYear (YearFromTime t).

(** Day within the year on which month [m] (0 to 11) starts. *)
Definition month_start (m leap : Z) : Z :=
  match m with
  | 0 => 0
  | 1 => 31
  | 2 => 59 + leap
  | 3 => 90 + leap
  | 4 => 120 + leap
  | 5 => 151 + leap
  | 6 => 181 + leap
  | 7 => 212 + leap
  | 8 => 243 + leap
  | 9 => 273 + leap
  | 10 => 304 + leap
  | _ => 334 + leap
  end.

Definition MonthFromTime (t : Z) : Z :=
  let d := DayWithinYear t in
  let leap := InLeapYear t in
  if d <? 31 then 0
  else if d <? 59 + leap then 1
  else if d <? 90 + leap then 2
  else if d <? 120 + leap then 3
  else if d <? 151 + leap then 4
  else if d <? 181 + leap then 5
  else if d <? 212 + leap then 6
  else if d <? 243 + leap then 7
  else if d <? 273 + leap then 8
  else if d <? 304 + leap then 9
  else if d <? 334 + leap then 10
  else 11.

Definition DateFromTime (t : Z) : Z :=
  DayWithinYear t - month_start (MonthFromTime t) (InLeapYear t) + 1.

(** [MakeDay]: the day number of the first of the month, plus [date - 1]. *)
Definition MakeDay (year month date : Z) : Z :=
  let ym := year + month / 12 in
  let mn := month mod 12 in
  let leap := if DaysInYear ym =? 366 then 1 else 0 in
  DayFromYear ym + month_start mn leap + date - 1.

Definition MakeDate (day time : Z) : Z := day * msPerDay + time.

(** A time value, or [NaN] for an invalid date. *)
Definition TimeValue := option Z.

Definition TimeClip (t : Z) : TimeValue :=
  if 8640000000000000 <? Z.abs t then None else Some t.

(** [a >= b] on two [Date] objects: the time values are compared, and a
    comparison with [NaN] is false. *)
Definition ge (a b : TimeValue) : bool :=
  match a, b with
  | Some x, Some y => y <=? x
  | _, _ => false
  end.

(** *** Date-only strings [YYYY-MM-DD] *)

Definition digit (c : ascii) : option Z :=
  let n := Z.of_nat (nat_of_ascii c) in
  if (48 <=? n) && (n <=? 57) then Some (n - 48) else None.

Definition number2 (a b : ascii) : option Z :=
  match digit a, digit b with
  | Some x, Some y => Some (10 * x + y)
  | _, _ => None
  end.

Definition number4 (a b c d : ascii) : option Z :=
  match number2 a b, number2 c d with
  | Some x, Some y => Some (100 * x + y)
  | _, _ => None
  end.

Definition DaysInMonth (year month : Z) : Z :=
  MakeDay year (month + 1) 1 - MakeDay year month 1.

(** The time value of a calendar date written [YYYY-MM-DD]: midnight UTC
    at the start of that day. *)
Definition parse_date_only (s : string) : option Z :=
  match s with
  | String y1 (String y2 (String y3 (String y4 (String "-"
      (String m1 (String m2 (String "-" (String d1 (String d2 ""))))))))) =>
      match number4 y1 y2 y3 y4, number2 m1 m2, number2 d1 d2 with
      | Some y, Some m, Some d =>
          if (1 <=? m) && (m <=? 12) && (1 <=? d) && (d <=? DaysInMonth y (m - 1))
          then Some (MakeDate (MakeDay y (m - 1) d) 0)
          else None
      | _, _, _ => None
      end
  | _ => None
  end.

Section Host.

(** The host's time zone: [LocalTZA t isUTC] is the offset of local time
    from UTC in milliseconds.  Strings that are not calendar dates of the
    form above go to the host's own parser. *)
Variable LocalTZA : Z -> bool -> Z.
Variable parse_other : string -> TimeValue.

Definition LocalTime (t : Z) : Z := t + LocalTZA t true.
Definition UTC (t : Z) : Z := t - LocalTZA t false.

(** [Date.parse]. *)
Definition parse (s : string) : TimeValue :=
  match parse_date_only s with
  | Some t => TimeClip t
  | None => parse_other s
  end.

(** [new Date(v)] for a property [v] holding a string: [null] converts
    to 0, [undefined] to [NaN]. *)
Definition of_value (v : Js.Property string) : TimeValue :=
  match v with
  | Js.present s => parse s
  | Js.null => TimeClip 0
  | Js.undefined => None
  end.

(** [d.getDate()]. *)
Definition getDate (d : TimeValue) : option Z :=
  match d with
  | Some t => Some (DateFromTime (LocalTime t))
  | None => None
  end.

(** [d.setDate(dt)], returning the new time value of [d]. *)
Definition setDate (d : TimeValue) (dt : option Z) : TimeValue :=
  match d, dt with
  | Some t0, Some dt =>
      let t := LocalTime t0 in
      let newDate :=
        MakeDate (MakeDay (YearFromTime t) (MonthFromTime t) dt) (TimeWithinDay t) in
      TimeClip (UTC newDate)
  | _, _ => None
  end.

End Host.

End JsDate.

(** ** The remote store, as the pages' queries observe it *)

Module Supabase.

Record Database : Type := mkDatabase {
  workouts : list Workout.t;
  exercises : list Exercise.t;
  workout_exercises : list WorkoutExercise.t
}.

(** A row of [select("duration_minutes, date")] as the page reads it. *)
Record StatsRow : Type := mkStatsRow {
  duration_minutes : Js.Property Z;
  date : Js.Property string
}.

(** A row of [select("*, exercise:exercises(*)")]. *)
Record Joined : Type := mkJoined {
  row : WorkoutExercise.t;
  exercise : option Exercise.t
}.

(** The object passed to [insert] by the workout page. *)
Record NewWorkoutExercise : Type := mkNew {
  new_workout_id : string;
  new_exercise_id : string;
  new_sets : Z;
  new_reps : Z;
  new_weight : Js.number;
  new_order_index : Z
}.

Inductive Request : Type :=
  | select_recent_workouts (limit : nat)
  | select_workout_stats
  | select_workout (id : string)
  | select_workout_exercises (workout_id : string)
  | select_exercise_ids (workout_id : string)
  | insert_workout_exercise (r : NewWorkoutExercise)
  | delete_workout_exercise (id : string).

(** [{ data, error }]: exactly one of the two is set. *)
Inductive Response (A : Type) : Type :=
  | Success (data : A)
  | Failure (error : string).

Arguments Success {A} data.
Arguments Failure {A} error.

(** The store with the requests it has received.  [faults] tells, request
    by request, which of the coming requests fail (network or store);
    [uuid] names the identifiers the store gives to new rows. *)
Record Remote : Type := mkRemote {
  db : Database;
  faults : list bool;
  uuid : nat -> string;
  issued : nat;
  log : list Request
}.

Definition send {A : Type} (rq : Request) (answer : Database -> Response A)
    (change : Database -> Database) (r : Remote) : Response A * Remote :=
  let failed := match faults r with true :: _ => true | _ => false end in
  let r' := {| db := if failed then db r else change (db r);
               faults := tl (faults r);
               uuid := uuid r;
               issued := issued r;
               log := log r ++ [rq] |} in
  (if failed then Failure "request failed" else answer (db r), r').

Fixpoint insert_sorted {A : Type} (le : A -> A -> bool) (x : A) (l : list A) : list A :=
  match l with
  | [] => [x]
  | y :: l' => if le x y then x :: l else y :: insert_sorted le x l'
  end.

(** [order(...)]: a stable sort. *)
Definition order_by {A : Type} (le : A -> A -> bool) (l : list A) : list A :=
  fold_right (insert_sorted le) [] l.

(** [maybeSingle()]: no row is [null], several rows are an error. *)
Definition maybeSingle {A : Type} (rows : list A) : Response (option A) :=
  match rows with
  | [] => Success None
  | [x] => Success (Some x)
  | _ => Failure "multiple rows returned"
  end.

(** The store keeps [date] as a calendar date and writes it as
    [Y...Y-MM-DD], with four or more digits of year and [ BC] after a date
    before year 1.  [date_number] reads such a text back as a number that
    grows with the calendar date, which is the order of the column. *)
Fixpoint leading_number (acc : Z) (s : string) : Z * string :=
  match s with
  | String c s' =>
      match JsDate.digit c with
      | Some d => leading_number (10 * acc + d) s'
      | None => (acc, s)
      end
  | EmptyString => (acc, s)
  end.

Definition date_number (s : string) : Z :=
  let (year, rest) := leading_number 0 s in
  match rest with
  | String "-" (String m1 (String m2 (String "-" (String d1 (String d2 era))))) =>
      match JsDate.number2 m1 m2, JsDate.number2 d1 d2 with
      | Some month, Some day =>
          let y := if String.eqb era " BC" then 1 - year else year in
          10000 * y + 100 * month + day
      | _, _ => 0
      end
  | _ => 0
  end.

(** [order("date", { ascending: false }).limit(6)]. *)
Definition recent_workouts (limit : nat) (d : Database) : list Workout.t :=
  firstn limit
    (order_by (fun a b => date_number (Workout.date b) <=? date_number (Workout.date a))
              (workouts d)).

Definition workout_stats (d : Database) : list StatsRow :=
  map (fun w => {| duration_minutes := Js.present (Workout.duration_minutes w);
                   date := Js.present (Workout.date w) |})
      (workouts d).

Definition workouts_with_id (id : string) (d : Database) : list Workout.t :=
  filter (fun w => String.eqb (Workout.id w) id) (workouts d).

Definition rows_of_workout (workout_id : string) (d : Database)
  : list WorkoutExercise.t :=
  filter (fun we => String.eqb (WorkoutExercise.workout_id we) workout_id)
         (workout_exercises d).

Definition join_exercise (d : Database) (we : WorkoutExercise.t) : Joined :=
  {| row := we;
     exercise := find (fun e => String.eqb (Exercise.id e) (WorkoutExercise.exercise_id we))
                      (exercises d) |}.

Definition exercises_of_workout (workout_id : string) (d : Database) : list Joined :=
  map (join_exercise d)
      (order_by (fun a b => WorkoutExercise.order_index a <=? WorkoutExercise.order_index b)
                (rows_of_workout workout_id d)).

Definition fetch_recent_workouts (limit : nat) : Remote -> Response (list Workout.t) * Remote :=
  send (select_recent_workouts limit) (fun d => Success (recent_workouts limit d)) (fun d => d).

Definition fetch_workout_stats : Remote -> Response (list StatsRow) * Remote :=
  send select_workout_stats (fun d => Success (workout_stats d)) (fun d => d).

Definition fetch_workout (id : string) : Remote -> Response (option Workout.t) * Remote :=
  send (select_workout id) (fun d => maybeSingle (workouts_with_id id d)) (fun d => d).

Definition fetch_workout_exercises (workout_id : string)
  : Remote -> Response (list Joined) * Remote :=
  send (select_workout_exercises workout_id)
       (fun d => Success (exercises_of_workout workout_id d)) (fun d => d).

Definition fetch_exercise_ids (workout_id : string)
  : Remote -> Response (list string) * Remote :=
  send (select_exercise_ids workout_id)
       (fun d => Success (map WorkoutExercise.id (rows_of_workout workout_id d)))
       (fun d => d).

(** The row the store keeps for an insert: its own identifier, and the
    column defaults for what the client left out. *)
Definition stored (id : string) (n : NewWorkoutExercise) : WorkoutExercise.t :=
  {| WorkoutExercise.id := id;
     WorkoutExercise.workout_id := new_workout_id n;
     WorkoutExercise.exercise_id := new_exercise_id n;
     WorkoutExercise.sets := new_sets n;
     WorkoutExercise.reps := new_reps n;
     WorkoutExercise.weight := new_weight n;
     WorkoutExercise.duration_seconds := 0;
     WorkoutExercise.order_index := new_order_index n;
     WorkoutExercise.notes := None |}.

Definition insert_exercise (n : NewWorkoutExercise) (r : Remote) : Response unit * Remote :=
  let (resp, r') :=
    send (insert_workout_exercise n) (fun _ => Success tt)
         (fun d => {| workouts := workouts d;
                      exercises := exercises d;
                      workout_exercises := workout_exercises d ++ [stored (uuid r (issued r)) n] |})
         r in
  (resp, {| db := db r'; faults := faults r'; uuid := uuid r';
            issued := S (issued r'); log := log r' |}).

Definition delete_exercise (id : string) : Remote -> Response unit * Remote :=
  send (delete_workout_exercise id) (fun _ => Success tt)
       (fun d => {| workouts := workouts d;
                    exercises := exercises d;
                    workout_exercises :=
                      filter (fun we => negb (String.eqb (WorkoutExercise.id we) id))
                             (workout_exercises d) |}).

End Supabase.

(** What a handler leaves behind besides the component state: the store,
    the notifications shown and the lines written to the console. *)
Inductive Toast : Type :=
  | toast_success (message : string)
  | toast_error (message : string).

Record World : Type := mkWorld {
  remote : Supabase.Remote;
  toasts : list Toast;
  console : list string
}.

Definition with_remote (r : Supabase.Remote) (w : World) : World :=
  {| remote := r; toasts := toasts w; console := console w |}.

Definition toast (t : Toast) (w : World) : World :=
  {| remote := remote w; toasts := toasts w ++ [t]; console := console w |}.

Definition console_error (message : string) (w : World) : World :=
  {| remote := remote w; toasts := toasts w; console := console w ++ [message] |}.

(** The same world with other rows in [workout_exercises]. *)
Definition with_workout_exercises (rows : list WorkoutExercise.t) (w : World) : World :=
  let r := remote w in
  let d := Supabase.db r in
  with_remote
    {| Supabase.db :=
         {| Supabase.workouts := Supabase.workouts d;
            Supabase.exercises := Supabase.exercises d;
            Supabase.workout_exercises := rows |};
       Supabase.faults := Supabase.faults r;
       Supabase.uuid := Supabase.uuid r;
       Supabase.issued := Supabase.issued r;
       Supabase.log := Supabase.log r |}
    w.

(** ** The dashboard ([src/app/page.tsx]) *)

Module Home.
Import Supabase JsDate.

Record Stats : Type := mkStats {
  totalWorkouts : Z;
  thisWeekWorkouts : Z;
  totalMinutes : Js.number;
  avgDuration : Js.number
}.

Record State : Type := mkState {
  workouts : list Workout.t;
  stats : Stats;
  loading : bool
}.

Definition initial : State :=
  {| workouts := [];
     stats := {| totalWorkouts := 0; thisWeekWorkouts := 0;
                 totalMinutes := 0%float; avgDuration := 0%float |};
     loading := true |}.

(** The two counts are lengths of arrays and are kept as integers.  The
    minutes are binary64 numbers: a row carries its duration as an integer
    of the [integer] column, which [+] converts, and the sum and the
    quotient are rounded as JavaScript rounds them. *)

(** [Math.round]: the integer nearest to [x], the one towards +infinity on a
    tie.  [NaN], the infinities and the zeros are returned as they are, and
    a result of zero has the sign of [x].  The integer is computed exactly
    from the mantissa and the exponent of [x]; it has at most 53 bits. *)
Definition Math_round (x : Js.number) : Js.number :=
  match Prim2SF x with
  | S754_finite s m e =>
      let v := if s then Z.neg m else Z.pos m in
      let n :=
        if 0 <=? e then v * 2 ^ e
        else (2 * v + 2 ^ (- e)) / 2 ^ (1 - e) in
      if n =? 0 then (if s then neg_zero else zero) else Js.of_integer n
  | _ => x
  end.

(** [v || 0] on a length: 0 for [undefined]. *)
Definition or_zero (v : option Z) : Z :=
  match v with
  | Some n => if n =? 0 then 0 else n
  | None => 0
  end.

(** [ToNumber], as [+] applies it to a duration: [null] gives 0 and
    [undefined] gives [NaN]. *)
Definition number_of (v : Js.Property Z) : Js.number :=
  match v with
  | Js.present n => Js.of_integer n
  | Js.null => 0%float
  | Js.undefined => nan
  end.

(** [a + b] on numbers. *)
Definition plus (a b : Js.number) : Js.number := (a + b)%float.

(** The sum of the durations as integers, a [null] duration counting
    as 0. *)
Fixpoint sum_durations (rows : list StatsRow) : Z :=
  match rows with
  | [] => 0
  | w :: rows' =>
      match duration_minutes w with
      | Js.present minutes => minutes + sum_durations rows'
      | _ => sum_durations rows'
      end
  end.

(** The sum of the absolute values of the durations. *)
Fixpoint magnitude (rows : list StatsRow) : Z :=
  match rows with
  | [] => 0
  | w :: rows' =>
      match duration_minutes w with
      | Js.present minutes => Z.abs minutes + magnitude rows'
      | _ => magnitude rows'
      end
  end.

(** A row that has the key [duration_minutes], as every row of
    [select("duration_minutes, date")] has. *)
Definition defined_duration (w : StatsRow) : Prop :=
  duration_minutes w <> Js.undefined.

Section Host.

Variable LocalTZA : Z -> bool -> Z.
Variable parse_other : string -> TimeValue.

(** [new Date()] moved back by [setDate(getDate() - 7)]. *)
Definition oneWeekAgo (now : Z) : TimeValue :=
  let d : TimeValue := Some now in
  setDate LocalTZA d (option_map (fun date => date - 7) (getDate LocalTZA d)).

(** [new Date(w.date) >= oneWeekAgo]. *)
Definition in_window (cutoff : TimeValue) (w : StatsRow) : bool :=
  JsDate.ge (of_value parse_other (date w)) cutoff.

(** [allWorkouts?.filter(w => new Date(w.date) >= cutoff).length || 0]. *)
Definition countSince (cutoff : TimeValue) (allWorkouts : option (list StatsRow)) : Z :=
  or_zero
    (option_map (fun l => Z.of_nat (List.length (filter (in_window cutoff) l)))
                allWorkouts).

(** The number of rows with a valid date at or after the cutoff. *)
Fixpoint count_on_or_after (cutoff : TimeValue) (rows : list StatsRow) : Z :=
  match rows with
  | [] => 0
  | w :: rows' =>
      match of_value parse_other (date w), cutoff with
      | Some t, Some c =>
          if c <=? t then 1 + count_on_or_after cutoff rows'
          else count_on_or_after cutoff rows'
      | _, _ => count_on_or_after cutoff rows'
      end
  end.

(** Lines 48 to 54 of [loadDashboardData]; [undefined || 0] is 0. *)
Definition stats_of (now : Z) (allWorkouts : option (list StatsRow)) : Stats :=
  let totalWorkouts :=
    or_zero (option_map (fun l => Z.of_nat (List.length l)) allWorkouts) in
  let totalMinutes :=
    match allWorkouts with
    | Some l =>
        Js.or_zero
          (fold_left (fun sum w => plus sum (number_of (duration_minutes w))) l 0%float)
    | None => 0%float
    end in
  let avgDuration :=
    if 0 <? totalWorkouts
    then Math_round (totalMinutes / Js.of_integer totalWorkouts)%float
    else 0%float in
  let oneWeekAgo := oneWeekAgo now in
  let thisWeekWorkouts := countSince oneWeekAgo allWorkouts in
  {| totalWorkouts := totalWorkouts;
     thisWeekWorkouts := thisWeekWorkouts;
     totalMinutes := totalMinutes;
     avgDuration := avgDuration |}.

Definition finish (st : State) : State :=
  {| workouts := workouts st; stats := stats st; loading := false |}.

(** [now] is the time value of the [new Date()] of line 52.  A successful
    response carries an array, so [workoutsData || []] is [workoutsData]. *)
Definition loadDashboardData (now : Z) (st : State) (w : World) : State * World :=
  let st := {| workouts := workouts st; stats := stats st; loading := true |} in
  let (workoutsResponse, r) := fetch_recent_workouts 6 (remote w) in
  let w := with_remote r w in
  match workoutsResponse with
  | Failure workoutsError =>
      (finish st, console_error ("Error loading dashboard data: " ++ workoutsError) w)
  | Success workoutsData =>
      let st := {| workouts := workoutsData; stats := stats st; loading := loading st |} in
      let (statsResponse, r) := fetch_workout_stats (remote w) in
      let w := with_remote r w in
      match statsResponse with
      | Failure statsError =>
          (finish st, console_error ("Error loading dashboard data: " ++ statsError) w)
      | Success allWorkouts =>
          let st := {| workouts := workouts st;
                       stats := stats_of now (Some allWorkouts);
                       loading := loading st |} in
          (finish st, w)
      end
  end.

End Host.

Definition getExerciseCount (workoutId : string) (w : World) : Z * World :=
  let (response, r) := fetch_exercise_ids workoutId (remote w) in
  let data := match response with Success d => Some d | Failure _ => None end in
  (or_zero (option_map (fun l => Z.of_nat (List.length l)) data), with_remote r w).

(** The properties given to a [WorkoutCard]; [onClick] is the route it
    pushes. *)
Record WorkoutCardProps : Type := mkCard {
  name : string;
  date : string;
  duration : Z;
  exerciseCount : Z;
  onClick : string
}.

(** The content of the "Recent Workouts" card. *)
Inductive RecentWorkouts : Type :=
  | LoadingWorkouts
  | NoWorkoutsYet
  | WorkoutCards (cards : list WorkoutCardProps).

Definition recent (st : State) : RecentWorkouts :=
  if loading st then LoadingWorkouts
  else if (List.length (workouts st) =? 0)%nat then NoWorkoutsYet
  else WorkoutCards
         (map (fun workout =>
                 {| name := Workout.name workout;
                    date := Workout.date workout;
                    duration := Workout.duration_minutes workout;
                    exerciseCount := 0;
                    onClick := "/workouts/" ++ Workout.id workout |})
              (workouts st)).

Definition cards_of (v : RecentWorkouts) : list WorkoutCardProps :=
  match v with
  | WorkoutCards cards => cards
  | _ => []
  end.

End Home.

(** ** The workout page ([WorkoutDetailPage]) *)

Module WorkoutDetail.
Import Supabase.

Record State : Type := mkState {
  workoutId : string;
  workout : option Workout.t;
  workoutExercises : list Joined;
  showExerciseSelector : bool;
  loading : bool
}.

Definition initial (id : string) : State :=
  {| workoutId := id;
     workout := None;
     workoutExercises := [];
     showExerciseSelector := false;
     loading := true |}.

Definition setWorkout (v : option Workout.t) (st : State) : State :=
  {| workoutId := workoutId st;
     workout := v;
     workoutExercises := workoutExercises st;
     showExerciseSelector := showExerciseSelector st;
     loading := loading st |}.

Definition setWorkoutExercises (v : list Joined) (st : State) : State :=
  {| workoutId := workoutId st;
     workout := workout st;
     workoutExercises := v;
     showExerciseSelector := showExerciseSelector st;
     loading := loading st |}.

Definition setLoading (v : bool) (st : State) : State :=
  {| workoutId := workoutId st;
     workout := workout st;
     workoutExercises := workoutExercises st;
     showExerciseSelector := showExerciseSelector st;
     loading := v |}.

(** A [catch] block: [console.error(label, error)], then [toast.error]. *)
Definition caught (label error message : string) (w : World) : World :=
  toast (toast_error message) (console_error (label ++ " " ++ error) w).

Definition loadWorkoutData (st : State) (w : World) : State * World :=
  let st := setLoading true st in
  let (workoutResponse, r) := fetch_workout (workoutId st) (remote w) in
  let w := with_remote r w in
  match workoutResponse with
  | Failure workoutError =>
      (setLoading false st,
       caught "Error loading workout:" workoutError "Failed to load workout" w)
  | Success workoutData =>
      let st := setWorkout workoutData st in
      let (exercisesResponse, r) := fetch_workout_exercises (workoutId st) (remote w) in
      let w := with_remote r w in
      match exercisesResponse with
      | Failure exercisesError =>
          (setLoading false st,
           caught "Error loading workout:" exercisesError "Failed to load workout" w)
      | Success exercisesData =>
          (setLoading false (setWorkoutExercises exercisesData st), w)
      end
  end.

Record Details : Type := mkDetails {
  sets : Z;
  reps : Z;
  weight : Js.number
}.

Definition handleAddExercise (exercise : Exercise.t) (details : Details)
    (st : State) (w : World) : State * World :=
  let (response, r) :=
    insert_exercise
      {| new_workout_id := workoutId st;
         new_exercise_id := Exercise.id exercise;
         new_sets := sets details;
         new_reps := reps details;
         new_weight := weight details;
         new_order_index := Z.of_nat (List.length (workoutExercises st)) |}
      (remote w) in
  let w := with_remote r w in
  match response with
  | Failure error =>
      (st, caught "Error adding exercise:" error "Failed to add exercise" w)
  | Success _ =>
      loadWorkoutData st (toast (toast_success "Exercise added!") w)
  end.

Definition handleDeleteExercise (exerciseId : string) (st : State) (w : World)
  : State * World :=
  let (response, r) := delete_exercise exerciseId (remote w) in
  let w := with_remote r w in
  match response with
  | Failure error =>
      (st, caught "Error deleting exercise:" error "Failed to remove exercise" w)
  | Success _ =>
      loadWorkoutData st (toast (toast_success "Exercise removed") w)
  end.

(** What the page shows: one of the two placeholder texts, or the workout
    with its exercises. *)
Inductive View : Type :=
  | Placeholder (text : string)
  | Detail (workout : Workout.t) (exercises : list Joined).

Definition render (st : State) : View :=
  if loading st then Placeholder "Loading workout..."
  else
    match workout st with
    | None => Placeholder "Workout not found"
    | Some workout => Detail workout (workoutExercises st)
    end.

End WorkoutDetail.

(** ** ISO date strings ([toISOString]) *)

Module JsDateString.
Import JsDate.

Definition msPerSecond : Z := 1000.
Definition msPerMinute : Z := 60000.
Definition msPerHour : Z := 3600000.

Definition HourFromTime (t : Z) : Z := (t / msPerHour) mod 24.
Definition MinFromTime (t : Z) : Z := (t / msPerMinute) mod 60.
Definition SecFromTime (t : Z) : Z := (t / msPerSecond) mod 60.
Definition msFromTime (t : Z) : Z := t mod msPerSecond.

(** The character of a decimal digit. *)
Definition digit_char (d : Z) : ascii := ascii_of_nat (Z.to_nat (48 + d)).

(** The last 2, 3, 4 or 6 decimal digits of [n], with leading zeros. *)
Definition pad2 (n : Z) : string :=
  String (digit_char (n / 10 mod 10)) (String (digit_char (n mod 10)) "").

Definition pad3 (n : Z) : string := String (digit_char (n / 100 mod 10)) (pad2 n).

Definition pad4 (n : Z) : string := String (digit_char (n / 1000 mod 10)) (pad3 n).

Definition pad6 (n : Z) : string :=
  String (digit_char (n / 100000 mod 10))
         (String (digit_char (n / 10000 mod 10)) (pad4 n)).

(** [d.toISOString()] for a valid time value: [YYYY-MM-DDTHH:mm:ss.sssZ],
    with a sign and six digits for a year outside 0 to 9999. *)
Definition toISOString (t : Z) : string :=
  let y := YearFromTime t in
  let sign := if y <? 0 then "-" else "+" in
  let year :=
    if (0 <=? y) && (y <=? 9999) then pad4 y
    else (sign ++ pad6 (Z.abs y))%string in
  (year ++ "-" ++ pad2 (MonthFromTime t + 1) ++ "-" ++ pad2 (DateFromTime t)
   ++ "T" ++ pad2 (HourFromTime t) ++ ":" ++ pad2 (MinFromTime t) ++ ":"
   ++ pad2 (SecFromTime t) ++ "." ++ pad3 (msFromTime t) ++ "Z")%string.

(** [s.split(sep)[0]]: the text before the first [sep]. *)
Fixpoint before (sep : ascii) (s : string) : string :=
  match s with
  | "" => ""
  | String c s' => if Ascii.eqb c sep then "" else String c (before sep s')
  end.

(** [new Date().toISOString().split('T')[0]], the default of the date
    fields. *)
Definition today (now : Z) : string := before "T" (toISOString now).

(** Day of the year on which the month after [m] starts. *)
Definition month_end (m leap : Z) : Z :=
  if m =? 11 then 365 + leap else month_start (m + 1) leap.

End JsDateString.

(** ** Date labels ([toLocaleDateString]) *)

Module JsIntl.
Import JsDate.

Definition month_short (m : Z) : string :=
  match m with
  | 0 => "Jan" | 1 => "Feb" | 2 => "Mar" | 3 => "Apr" | 4 => "May" | 5 => "Jun"
  | 6 => "Jul" | 7 => "Aug" | 8 => "Sep" | 9 => "Oct" | 10 => "Nov" | _ => "Dec"
  end.

Section Host.

Variable LocalTZA : Z -> bool -> Z.

(** [d.toLocaleDateString('en-US', { month: 'short', day: 'numeric' })] in
    the host's time zone. *)
Definition month_and_day (d : TimeValue) : string :=
  match d with
  | None => "Invalid Date"
  | Some t =>
      let local := LocalTime LocalTZA t in
      (month_short (MonthFromTime local) ++ " " ++ Js.digits_of (DateFromTime local))%string
  end.

End Host.

(** The label of the UTC day [day]. *)
Definition day_label (day : Z) : string :=
  (month_short (MonthFromTime (day * msPerDay)) ++ " "
   ++ Js.digits_of (DateFromTime (day * msPerDay)))%string.

End JsIntl.

(** ** The charts of the progress page *)

Module ProgressChart.
Import Progress.

Record Point : Type := mkPoint {
  date : string;
  weight : Js.number;
  bodyFat : Js.number
}.

(** [v || 0] for [v] of type [number | null]. *)
Definition or_zero (v : Js.nullable) : Js.number :=
  if Js.truthy v then Js.ToNumber v else 0%float.

Section Host.

Variable LocalTZA : Z -> bool -> Z.
Variable parse_other : string -> JsDate.TimeValue.

Definition chartData (metrics : list ProgressMetric.t) : list Point :=
  map (fun m =>
         {| date := JsIntl.month_and_day LocalTZA
                      (JsDate.parse parse_other (ProgressMetric.date m));
            weight := or_zero (ProgressMetric.weight m);
            bodyFat := or_zero (ProgressMetric.body_fat_percentage m) |})
      metrics.

End Host.

(** The value a chart line draws for a point: [dataKey="weight"] for the
    weight chart and [dataKey="bodyFat"] for the body fat chart. *)
Definition plotted (field : Field) (p : Point) : Js.number :=
  match field with
  | Progress.weight => weight p
  | body_fat_percentage => bodyFat p
  end.

End ProgressChart.

(** ** The statistics cards of the dashboard *)

Module HomeCards.
Import Home.

(** [Math.floor(stats.totalMinutes / 60)] and [stats.totalMinutes % 60],
    the two numbers of the "Total Time" card. *)
Definition hours (s : Stats) : Js.number :=
  Js.Math_floor (totalMinutes s / 60)%float.

Definition minutes (s : Stats) : Js.number :=
  Js.remainder (totalMinutes s) 60%float.

(** A row whose duration is a number between [lo] and [hi]. *)
Definition duration_between (lo hi : Z) (w : Supabase.StatsRow) : Prop :=
  exists n, Supabase.duration_minutes w = Js.present n /\ lo <= n <= hi.

End HomeCards.

(** ** The minutes held by the store *)

Module WorkoutTotals.

(** The minutes stored for a list of workouts, and the sum of their
    absolute values. *)
Fixpoint stored_minutes (ws : list Workout.t) : Z :=
  match ws with
  | [] => 0
  | w :: ws' => Workout.duration_minutes w + stored_minutes ws'
  end.

Fixpoint stored_magnitude (ws : list Workout.t) : Z :=
  match ws with
  | [] => 0
  | w :: ws' => Z.abs (Workout.duration_minutes w) + stored_magnitude ws'
  end.

End WorkoutTotals.

(** ** The store around a change made by the workout page *)

Module WorkoutRows.
Import Supabase WorkoutDetail.

(** The store after the insert of [n]. *)
Definition with_new_row (n : NewWorkoutExercise) (r : Remote) : Database :=
  {| Supabase.workouts := Supabase.workouts (db r);
     exercises := exercises (db r);
     workout_exercises := workout_exercises (db r) ++ [stored (uuid r (issued r)) n] |}.

(** The store after the delete of the row [id]. *)
Definition without_row (id : string) (d : Database) : Database :=
  {| Supabase.workouts := Supabase.workouts d;
     exercises := exercises d;
     workout_exercises :=
       filter (fun we => negb (String.eqb (WorkoutExercise.id we) id))
              (workout_exercises d) |}.

(** The object that [handleAddExercise] passes to [insert]. *)
Definition new_row (exercise : Exercise.t) (details : Details) (st : State)
  : NewWorkoutExercise :=
  {| new_workout_id := workoutId st;
     new_exercise_id := Exercise.id exercise;
     new_sets := sets details;
     new_reps := reps details;
     new_weight := weight details;
     new_order_index := Z.of_nat (List.length (workoutExercises st)) |}.

(** The displayed list is the one a successful load of the store gives. *)
Definition in_sync (st : State) (w : World) : Prop :=
  workoutExercises st = exercises_of_workout (workoutId st) (db (remote w)).

End WorkoutRows.

(** ** The exercise selector of the workout page *)

Module ExerciseSelector.
Import Supabase.

Record State : Type := mkState {
  selectedExercise : option Exercise.t;
  details : WorkoutDetail.Details
}.

Definition initial : State :=
  {| selectedExercise := None;
     details := {| WorkoutDetail.sets := 3;
                   WorkoutDetail.reps := 10;
                   WorkoutDetail.weight := 0%float |} |}.

(** [onOpenChange], which the workout page binds to its
    [setShowExerciseSelector]. *)
Definition setShowExerciseSelector (v : bool) (st : WorkoutDetail.State)
  : WorkoutDetail.State :=
  {| WorkoutDetail.workoutId := WorkoutDetail.workoutId st;
     WorkoutDetail.workout := WorkoutDetail.workout st;
     WorkoutDetail.workoutExercises := WorkoutDetail.workoutExercises st;
     WorkoutDetail.showExerciseSelector := v;
     WorkoutDetail.loading := WorkoutDetail.loading st |}.

(** The click on "Add Exercise", with [onSelectExercise] bound to the
    page's [handleAddExercise].  The page's handler writes other state
    cells than the ones set here, so the order of the writes is free. *)
Definition handleAddExercise (sel : State) (st : WorkoutDetail.State) (w : World)
  : State * WorkoutDetail.State * World :=
  match selectedExercise sel with
  | Some exercise =>
      let (st, w) := WorkoutDetail.handleAddExercise exercise (details sel) st w in
      (initial, setShowExerciseSelector false st, w)
  | None => (sel, st, w)
  end.

End ExerciseSelector.

(** ** The exercise library of the dashboard *)

Module ExerciseLibrary.

(** [selectedCategory ? exercises.filter(...) : exercises]; the empty string
    is falsy like [null]. *)
Definition filteredExercises (selectedCategory : option string)
    (exercises : list Exercise.t) : list Exercise.t :=
  match selectedCategory with
  | None => exercises
  | Some c =>
      if String.eqb c "" then exercises
      else filter (fun ex => match Exercise.category_id ex with
                             | Some k => String.eqb k c
                             | None => false
                             end) exercises
  end.

End ExerciseLibrary.

(** ** Sample data *)

Module Samples.
Import Supabase.

(** A host on UTC whose parser accepts calendar dates only. *)
Definition utc : Z -> bool -> Z := fun _ _ => 0.
Definition dates_only : string -> JsDate.TimeValue := fun _ => None.

(** 2024-01-08T00:00:00.000Z. *)
Definition monday : Z := 1704672000000.

Definition stats_row (minutes : Js.Property Z) (day : string) : StatsRow :=
  {| duration_minutes := minutes; date := Js.present day |}.

Definition push_day : Workout.t :=
  Workout.mk "w1" None "Push day" "2024-01-05" 45 None "2024-01-05T10:00:00Z".

Definition bench_press : Exercise.t :=
  Exercise.mk "e1" "Bench press" None None ["chest"] "intermediate" None
              "2024-01-01T00:00:00Z".

Definition logged (id : string) (position : Z) : WorkoutExercise.t :=
  WorkoutExercise.mk id "w1" "e1" 3 10 135%float 0 position None.

Definition gym : Database :=
  {| workouts := [push_day];
     exercises := [bench_press];
     workout_exercises := [logged "x1" 0; logged "x2" 1] |}.

(** A world in which no request fails. *)
Definition online (d : Database) : World :=
  {| remote := {| db := d;
                  faults := [];
                  uuid := fun n => ("new-" ++ Js.digits_of (Z.of_nat n))%string;
                  issued := 0;
                  log := [] |};
     toasts := [];
     console := [] |}.

Definition three_by_ten : WorkoutDetail.Details :=
  {| WorkoutDetail.sets := 3; WorkoutDetail.reps := 10; WorkoutDetail.weight := 135%float |}.


(** A store with seven workouts, one of them dated in the year 10000. *)
Definition seven_workouts : Database :=
  {| workouts :=
       [ Workout.mk "w1" None "Push day" "2024-01-05" 45 None "2024-01-05T10:00:00Z";
         Workout.mk "w2" None "Pull day" "2024-01-03" 50 None "2024-01-03T10:00:00Z";
         Workout.mk "w3" None "Far ahead" "10000-01-01" 30 None "2024-01-03T11:00:00Z";
         Workout.mk "w4" None "Leg day" "2024-01-07" 60 None "2024-01-07T10:00:00Z";
         Workout.mk "w5" None "Run" "2023-12-31" 25 None "2023-12-31T10:00:00Z";
         Workout.mk "w6" None "Swim" "2024-01-06" 40 None "2024-01-06T10:00:00Z";
         Workout.mk "w7" None "Row" "2024-01-04" 35 None "2024-01-04T10:00:00Z" ];
     exercises := [bench_press];
     workout_exercises := [] |}.

(** A host five hours west of UTC. *)
Definition new_york_winter : Z -> bool -> Z := fun _ _ => -18000000.

(** A world in which the next request fails. *)
Definition offline (d : Database) : World :=
  {| remote := {| db := d;
                  faults := [true];
                  uuid := fun n => ("new-" ++ Js.digits_of (Z.of_nat n))%string;
                  issued := 0;
                  log := [] |};
     toasts := [];
     console := [] |}.

End Samples.

(** * Properties *)

(** ** Properties of [toFixed] *)

Module JsFacts.

Example toFixed_tie_goes_up : Js.toFixed 0.25%float 1 = "0.3".
Proof. reflexivity. Qed.

Example toFixed_negative_small : Js.toFixed (-0.03125)%float 1 = "-0.0".
Proof. reflexivity. Qed.

Example toFixed_integer : Js.toFixed 2.5%float 0 = "3".
Proof. reflexivity. Qed.

Example toFixed_pads : Js.toFixed 0.0009765625%float 7 = "0.0009766".
Proof. reflexivity. Qed.

Example toFixed_large : Js.toFixed 0x1p+70%float 1 = "1.1805916207174113e+21".
Proof. vm_compute. reflexivity. Qed.

Example toFixed_not_finite :
  Js.toFixed nan 1 = "NaN" /\ Js.toFixed neg_infinity 1 = "-Infinity".
Proof. split; reflexivity. Qed.

(** The integer chosen by [toFixed] is within one half of the scaled
    value, and is the larger one on a tie. *)
Lemma nearest_scaled_nearest (m : positive) (e : Z) (f : nat) :
  e < 0 ->
  let n := Js.nearest_scaled m e f in
  let v := Z.pos m * 10 ^ Z.of_nat f in
  2 ^ (- e) * (2 * n - 1) <= 2 * v < 2 ^ (- e) * (2 * n + 1).
Proof.
  intros He n v. subst n. unfold Js.nearest_scaled. fold v.
  destruct (Z.leb_spec 0 e); [lia|].
  replace (- e + 1) with (Z.succ (- e)) by lia.
  rewrite Z.pow_succ_r by lia.
  assert (Hpos : 0 < 2 ^ (- e)) by (apply Z.pow_pos_nonneg; lia).
  set (p := 2 ^ (- e)) in *.
  pose proof (Z.mul_div_le (2 * v + p) (2 * p) ltac:(lia)).
  pose proof (Z.mul_succ_div_gt (2 * v + p) (2 * p) ltac:(lia)).
  nia.
Qed.

Lemma length_append (a b : string) :
  String.length (a ++ b) = (String.length a + String.length b)%nat.
Proof. induction a as [|c a IH]; simpl; [reflexivity | now rewrite IH]. Qed.

Lemma length_zeros (k : nat) : String.length (Js.zeros k) = k.
Proof. induction k as [|k IH]; simpl; [reflexivity | now rewrite IH]. Qed.

Lemma length_substring (s : string) (n m : nat) :
  (n + m <= String.length s)%nat -> String.length (substring n m s) = m.
Proof.
  revert n m. induction s as [|c s IH]; intros n m H; simpl in H.
  - destruct n, m; simpl; lia.
  - destruct n as [|n]; simpl.
    + destruct m as [|m]; simpl; [reflexivity|]. rewrite IH; lia.
    + apply IH. lia.
Qed.

(** With one fraction digit the text ends in a point and one digit. *)
Lemma place_point_one_decimal (n : Z) :
  exists a b, Js.place_point n 1 = (a ++ "." ++ b)%string /\ String.length b = 1%nat.
Proof.
  unfold Js.place_point.
  set (m := if n =? 0 then "0" else Js.digits_of n).
  set (m' := if (String.length m <=? 1)%nat
             then (Js.zeros (1 + 1 - String.length m) ++ m)%string else m).
  assert (Hlen : (2 <= String.length m')%nat).
  { subst m'. destruct (Nat.leb_spec (String.length m) 1).
    - rewrite length_append, length_zeros. lia.
    - lia. }
  eexists. eexists. split; [reflexivity|].
  apply length_substring. lia.
Qed.

(** [toFixed(1)] of a finite number below 10^21 in magnitude has exactly
    one digit after the point. *)
Lemma toFixed_one_decimal (x : Js.number) (s : bool) (m : positive) (e : Z) :
  Prim2SF x = S754_finite s m e ->
  (0 <=? e) && (10 ^ 21 <=? Z.pos m * 2 ^ e) = false ->
  exists a b, Js.toFixed x 1 = (a ++ "." ++ b)%string /\ String.length b = 1%nat.
Proof.
  intros Hx Hsmall. unfold Js.toFixed. rewrite Hx, Hsmall.
  destruct (place_point_one_decimal (Js.nearest_scaled m e 1)) as (a & b & -> & Hb).
  destruct s.
  - exists ("-" ++ a)%string, b. split; [reflexivity | exact Hb].
  - exists a, b. split; [reflexivity | exact Hb].
Qed.

End JsFacts.

(** ** Integers as binary64 numbers *)

Module JsIntegerFacts.

Lemma digits2_pos_size (p : positive) : digits2_pos p = Pos.size p.
Proof. induction p; cbn; congruence. Qed.

Lemma digits2_pos_log2 (p : positive) : Z.pos (digits2_pos p) = Z.log2 (Z.pos p) + 1.
Proof.
  rewrite digits2_pos_size. destruct p; cbn [Pos.size Z.log2]; lia.
Qed.

Lemma pos_iter_xO (m p : positive) : Z.pos (Pos.iter xO m p) = Z.pos m * 2 ^ Z.pos p.
Proof.
  pose proof (shift_pos_correct p m) as H. unfold shift_pos in H. rewrite H.
  rewrite Z.mul_comm. reflexivity.
Qed.

Lemma iter_shr_1 (p m : positive) :
  iter_pos shr_1 p {| shr_m := Z.pos (Pos.iter xO m p); shr_r := false; shr_s := false |}
  = {| shr_m := Z.pos m; shr_r := false; shr_s := false |}.
Proof.
  revert m. induction p as [p IH|p IH|]; intros m; cbn [iter_pos Pos.iter].
  - cbn [shr_1 orb]. now rewrite !IH.
  - now rewrite !IH.
  - reflexivity.
Qed.

(** A mantissa of 53 bits with an exponent in range is left as it is. *)
Lemma binary_round_aux_canonical (s : bool) (m : positive) (e : Z) :
  Z.log2 (Z.pos m) = 52 -> -1074 <= e <= 971 ->
  binary_round_aux prec emax s (Z.pos m) e loc_Exact = S754_finite s m e.
Proof.
  intros Hm He. unfold binary_round_aux, shr_fexp.
  cbn [Zdigits2 shr_record_of_loc]. rewrite digits2_pos_log2, Hm.
  replace (fexp prec emax (52 + 1 + e) - e) with 0
    by (unfold fexp, SpecFloat.emin, prec, emax; lia).
  cbn [shr shr_m loc_of_shr_record round_nearest_even Zdigits2].
  rewrite digits2_pos_log2, Hm.
  replace (fexp prec emax (52 + 1 + e) - e) with 0
    by (unfold fexp, SpecFloat.emin, prec, emax; lia).
  cbn [shr shr_m].
  destruct (Z.leb_spec e (emax - prec)); [reflexivity|].
  unfold emax, prec in *. lia.
Qed.

(** The value [c * 2 ^ k * 2 ^ (- k)], for [c] of at most 53 bits, rounds
    to the 53-bit form of [c]. *)
Lemma binary_round_integer (s : bool) (c : positive) (k : Z) :
  0 <= k -> Z.log2 (Z.pos c) < 53 ->
  binary_round prec emax s (Z.to_pos (Z.pos c * 2 ^ k)) (- k)
  = S754_finite s (Z.to_pos (Z.pos c * 2 ^ (52 - Z.log2 (Z.pos c))))
                (Z.log2 (Z.pos c) - 52).
Proof.
  intros Hk Hc.
  pose proof (Z.log2_nonneg (Z.pos c)) as Hl.
  set (l := Z.log2 (Z.pos c)) in *.
  assert (HM : 0 < Z.pos c * 2 ^ k) by (apply Z.mul_pos_pos; [lia | apply Z.pow_pos_nonneg; lia]).
  assert (Hm' : 0 < Z.pos c * 2 ^ (52 - l))
    by (apply Z.mul_pos_pos; [lia | apply Z.pow_pos_nonneg; lia]).
  set (M := Z.to_pos (Z.pos c * 2 ^ k)).
  set (m' := Z.to_pos (Z.pos c * 2 ^ (52 - l))).
  assert (EM : Z.pos M = Z.pos c * 2 ^ k) by (subst M; rewrite Z2Pos.id; lia).
  assert (Em' : Z.pos m' = Z.pos c * 2 ^ (52 - l)) by (subst m'; rewrite Z2Pos.id; lia).
  assert (HlM : Z.log2 (Z.pos M) = k + l)
    by (rewrite EM; apply Z.log2_mul_pow2; lia).
  assert (Hlm' : Z.log2 (Z.pos m') = 52)
    by (rewrite Em', Z.log2_mul_pow2 by lia; subst l; lia).
  unfold binary_round. rewrite digits2_pos_log2, HlM.
  replace (fexp prec emax (k + l + 1 + - k)) with (l - 52)
    by (unfold fexp, SpecFloat.emin, prec, emax; lia).
  unfold shl_align.
  destruct (l - 52 - - k) as [|q|q] eqn:Eq.
  - assert (M = m') as ->.
    { apply Pos2Z.inj. rewrite EM, Em'. f_equal. f_equal. lia. }
    replace (- k) with (l - 52) by lia.
    apply binary_round_aux_canonical; [exact Hlm' | lia].
  - assert (M = Pos.iter xO m' q) as ->.
    { apply Pos2Z.inj. rewrite pos_iter_xO, EM, Em', <- Z.mul_assoc, <- Z.pow_add_r by lia.
      f_equal. f_equal. lia. }
    unfold binary_round_aux, shr_fexp. cbn [Zdigits2 shr_record_of_loc].
    rewrite digits2_pos_log2.
    replace (Z.log2 (Z.pos (Pos.iter xO m' q))) with (k + l)
      by (rewrite pos_iter_xO, Z.log2_mul_pow2, Hlm' by lia; lia).
    replace (fexp prec emax (k + l + 1 + - k) - - k) with (Z.pos q)
      by (unfold fexp, SpecFloat.emin, prec, emax; lia).
    cbn [shr]. rewrite iter_shr_1.
    cbn [shr_m loc_of_shr_record round_nearest_even Zdigits2].
    rewrite digits2_pos_log2, Hlm'.
    replace (fexp prec emax (52 + 1 + (- k + Z.pos q)) - (- k + Z.pos q)) with 0
      by (unfold fexp, SpecFloat.emin, prec, emax; lia).
    cbn [shr shr_m].
    replace (- k + Z.pos q) with (l - 52) by lia.
    destruct (Z.leb_spec (l - 52) (emax - prec)); [reflexivity|].
    unfold emax, prec in *. lia.
  - replace (Pos.iter xO M q) with m'.
    { apply binary_round_aux_canonical; [exact Hlm' | lia]. }
    apply Pos2Z.inj. rewrite pos_iter_xO, EM, Em', <- Z.mul_assoc, <- Z.pow_add_r by lia.
    f_equal. f_equal. lia.
Qed.

(** The binary64 form of a non-zero integer below 2^53. *)
Lemma binary_normalize_integer (n k : Z) :
  n <> 0 -> Z.abs n < 2 ^ 53 -> 0 <= k ->
  binary_normalize prec emax (n * 2 ^ k) (- k) false
  = S754_finite (n <? 0) (Z.to_pos (Z.abs n * 2 ^ (52 - Z.log2 (Z.abs n))))
                (Z.log2 (Z.abs n) - 52).
Proof.
  intros Hn Hb Hk.
  assert (Hp : 0 < 2 ^ k) by (apply Z.pow_pos_nonneg; lia).
  destruct n as [|c|c]; [congruence| |].
  - assert (Hl : Z.log2 (Z.pos c) < 53) by (apply Z.log2_lt_pow2; lia).
    pose proof (binary_round_integer false c k Hk Hl) as H.
    cbn [Z.abs]. change (Z.pos c <? 0) with false. rewrite <- H.
    destruct (Z.pos c * 2 ^ k) as [|M|M] eqn:EM; try lia. reflexivity.
  - assert (Hl : Z.log2 (Z.pos c) < 53) by (apply Z.log2_lt_pow2; [lia|]; cbn in Hb; lia).
    pose proof (binary_round_integer true c k Hk Hl) as H.
    cbn [Z.abs]. change (Z.neg c <? 0) with true. rewrite <- H.
    destruct (Z.neg c * 2 ^ k) as [|M|M] eqn:EM; try lia.
    cbn [binary_normalize]. f_equal.
    assert (E : Z.pos c * 2 ^ k = Z.pos M) by lia.
    rewrite E. reflexivity.
Qed.

Lemma Prim2SF_of_integer (n : Z) :
  n <> 0 -> Z.abs n < 2 ^ 53 ->
  Prim2SF (Js.of_integer n)
  = S754_finite (n <? 0) (Z.to_pos (Z.abs n * 2 ^ (52 - Z.log2 (Z.abs n))))
                (Z.log2 (Z.abs n) - 52).
Proof.
  intros Hn Hb. unfold Js.of_integer.
  pose proof (binary_normalize_integer n 0 Hn Hb ltac:(lia)) as H.
  rewrite Z.mul_1_r in H. cbn [Z.opp] in H. rewrite H.
  apply Prim2SF_SF2Prim.
  assert (Ha : 0 < Z.abs n) by lia.
  pose proof (Z.log2_nonneg (Z.abs n)) as Hl.
  assert (Hl2 : Z.log2 (Z.abs n) < 53) by (apply Z.log2_lt_pow2; lia).
  assert (Hm : 0 < Z.abs n * 2 ^ (52 - Z.log2 (Z.abs n)))
    by (apply Z.mul_pos_pos; [lia | apply Z.pow_pos_nonneg; lia]).
  unfold SpecFloat.valid_binary, bounded, canonical_mantissa.
  rewrite digits2_pos_log2, Z2Pos.id, Z.log2_mul_pow2 by lia.
  apply andb_true_iff. split.
  - apply Z.eqb_eq. unfold fexp, SpecFloat.emin, prec, emax. lia.
  - apply Z.leb_le. unfold prec, emax. lia.
Qed.

Lemma of_integer_zero : Js.of_integer 0 = 0%float.
Proof. reflexivity. Qed.

Lemma shl_align_value (m : positive) (e e' : Z) :
  e' <= e -> Z.pos (fst (shl_align m e e')) = Z.pos m * 2 ^ (e - e').
Proof.
  intros H. unfold shl_align. destruct (e' - e) as [|q|q] eqn:E; cbn [fst].
  - replace (e - e') with 0 by lia. lia.
  - lia.
  - rewrite pos_iter_xO. f_equal. f_equal. lia.
Qed.

(** Integers below 2^53 add without rounding. *)
Lemma of_integer_add (a b : Z) :
  Z.abs a < 2 ^ 53 -> Z.abs b < 2 ^ 53 -> Z.abs (a + b) < 2 ^ 53 ->
  (Js.of_integer a + Js.of_integer b)%float = Js.of_integer (a + b).
Proof.
  intros Ha Hb Hab. apply Prim2SF_inj. rewrite add_spec.
  destruct (Z.eq_dec a 0) as [->|Ha0].
  { rewrite of_integer_zero. change (Prim2SF 0) with (S754_zero false).
    cbn [Z.add]. destruct (Z.eq_dec b 0) as [->|Hb0]; [reflexivity|].
    rewrite Prim2SF_of_integer by assumption. reflexivity. }
  destruct (Z.eq_dec b 0) as [->|Hb0].
  { rewrite of_integer_zero. change (Prim2SF 0) with (S754_zero false).
    rewrite Z.add_0_r. rewrite Prim2SF_of_integer by assumption. reflexivity. }
  rewrite (Prim2SF_of_integer a), (Prim2SF_of_integer b) by assumption.
  unfold SF64add, SFadd.
  set (la := Z.log2 (Z.abs a)). set (lb := Z.log2 (Z.abs b)).
  assert (Hla : 0 <= la < 53)
    by (split; [apply Z.log2_nonneg | apply Z.log2_lt_pow2; lia]).
  assert (Hlb : 0 <= lb < 53)
    by (split; [apply Z.log2_nonneg | apply Z.log2_lt_pow2; lia]).
  set (ez := Z.min (la - 52) (lb - 52)).
  assert (Hpa : 0 < 2 ^ (52 - la)) by (apply Z.pow_pos_nonneg; lia).
  assert (Hpb : 0 < 2 ^ (52 - lb)) by (apply Z.pow_pos_nonneg; lia).
  rewrite !shl_align_value by (subst ez; lia).
  rewrite !Z2Pos.id by (apply Z.mul_pos_pos; lia).
  rewrite <- !Z.mul_assoc, <- !Z.pow_add_r by (subst ez; lia).
  replace (52 - la + (la - 52 - ez)) with (- ez) by lia.
  replace (52 - lb + (lb - 52 - ez)) with (- ez) by lia.
  assert (Hsum : cond_Zopp (a <? 0) (Z.abs a * 2 ^ (- ez))
                 + cond_Zopp (b <? 0) (Z.abs b * 2 ^ (- ez))
                 = (a + b) * 2 ^ (- ez)).
  { unfold cond_Zopp. destruct (Z.ltb_spec a 0), (Z.ltb_spec b 0); lia. }
  cbv zeta. rewrite Hsum.
  destruct (Z.eq_dec (a + b) 0) as [E|E].
  - rewrite E. reflexivity.
  - rewrite Prim2SF_of_integer by assumption.
    replace ez with (- - ez) at 2 by lia.
    apply binary_normalize_integer; [assumption | assumption | subst ez; lia].
Qed.

Lemma ToBoolean_of_integer (n : Z) :
  Z.abs n < 2 ^ 53 -> Js.ToBoolean (Js.of_integer n) = negb (n =? 0).
Proof.
  intros Hb. unfold Js.ToBoolean, is_nan. rewrite !eqb_spec.
  destruct (Z.eqb_spec n 0) as [->|Hn]; [reflexivity|].
  rewrite Prim2SF_of_integer by assumption.
  change (Prim2SF 0) with (S754_zero false).
  unfold SFeqb, SFcompare. rewrite Z.compare_refl, Pos.compare_cont_refl.
  destruct (n <? 0); reflexivity.
Qed.

Lemma integer_value_of_integer (n : Z) :
  Z.abs n < 2 ^ 53 -> Js.integer_value (Js.of_integer n) = Some n.
Proof.
  intros Hb. unfold Js.integer_value.
  destruct (Z.eq_dec n 0) as [->|Hn]; [reflexivity|].
  rewrite Prim2SF_of_integer by assumption.
  set (l := Z.log2 (Z.abs n)).
  assert (Hl : 0 <= l < 53)
    by (split; [apply Z.log2_nonneg | apply Z.log2_lt_pow2; lia]).
  assert (Hp : 0 < 2 ^ (52 - l)) by (apply Z.pow_pos_nonneg; lia).
  assert (Em : Z.pos (Z.to_pos (Z.abs n * 2 ^ (52 - l))) = Z.abs n * 2 ^ (52 - l))
    by (rewrite Z2Pos.id; [reflexivity | apply Z.mul_pos_pos; lia]).
  destruct (Z.leb_spec 0 (l - 52)).
  - assert (El : 52 - l = 0) by lia. rewrite El in Em.
    replace (l - 52) with 0 by lia.
    f_equal. destruct (Z.ltb_spec n 0).
    + change (Z.neg ?p) with (- Z.pos p). rewrite El, Em. lia.
    + rewrite El, Em. lia.
  - replace (- (l - 52)) with (52 - l) by lia.
    rewrite Em, Z.mod_mul by lia. cbn [Z.eqb]. f_equal.
    destruct (Z.ltb_spec n 0).
    + change (Z.neg ?p) with (- Z.pos p). rewrite Em.
      replace (- (Z.abs n * 2 ^ (52 - l))) with (n * 2 ^ (52 - l)) by lia.
      apply Z.div_mul. lia.
    + replace (Z.abs n) with n by lia. apply Z.div_mul. lia.
Qed.

Lemma loc_of_record_of_loc (m : Z) (l : location) :
  loc_of_shr_record (shr_record_of_loc m l) = l.
Proof. destruct l as [|[]]; reflexivity. Qed.

Lemma shr_m_record_of_loc (m : Z) (l : location) :
  shr_m (shr_record_of_loc m l) = m.
Proof. destruct l as [|[]]; reflexivity. Qed.

Lemma log2_53 (q : Z) : 2 ^ 52 <= q < 2 ^ 53 -> Z.log2 q = 52.
Proof. intros H. apply Z.log2_unique; [lia|]. exact H. Qed.

Lemma log2_54 (q : Z) : 2 ^ 53 <= q < 2 ^ 54 -> Z.log2 q = 53.
Proof. intros H. apply Z.log2_unique; [lia|]. exact H. Qed.

(** The last step of a rounding: a mantissa of 53 bits stays, and 2^53 is
    written with 52 bits and the next exponent. *)
Lemma finish_round (s : bool) (q : positive) (e : Z) :
  2 ^ 52 <= Z.pos q <= 2 ^ 53 -> -1074 <= e <= 970 ->
  (let '(mrs, e') := shr_fexp prec emax (Z.pos q) e loc_Exact in
   match shr_m mrs with
   | Z0 => S754_zero s
   | Zpos m => if e' <=? emax - prec then S754_finite s m e' else S754_infinity s
   | Zneg _ => S754_nan
   end)
  = if Z.pos q <? 2 ^ 53 then S754_finite s q e
    else S754_finite s (Z.to_pos (2 ^ 52)) (e + 1).
Proof.
  intros Hq He. unfold shr_fexp. cbn [Zdigits2 shr_record_of_loc].
  rewrite digits2_pos_log2.
  destruct (Z.ltb_spec (Z.pos q) (2 ^ 53)) as [Hlt|Hge].
  - rewrite log2_53 by lia.
    replace (fexp prec emax (52 + 1 + e) - e) with 0
      by (unfold fexp, SpecFloat.emin, prec, emax; lia).
    cbn [shr shr_m].
    destruct (Z.leb_spec e (emax - prec)); [reflexivity|]. unfold emax, prec in *. lia.
  - assert (Eq : Z.pos q = 2 ^ 53) by lia.
    assert (q = Z.to_pos (2 ^ 53)) as -> by (apply Pos2Z.inj; rewrite Eq; reflexivity).
    change (Z.log2 (Z.pos (Z.to_pos (2 ^ 53)))) with 53.
    replace (fexp prec emax (53 + 1 + e) - e) with 1
      by (unfold fexp, SpecFloat.emin, prec, emax; lia).
    cbn [shr iter_pos]. 
    change (shr_1 {| shr_m := Z.pos (Z.to_pos (2 ^ 53)); shr_r := false; shr_s := false |})
      with {| shr_m := Z.pos (Z.to_pos (2 ^ 52)); shr_r := false; shr_s := false |}.
    cbn [shr_m].
    destruct (Z.leb_spec (e + 1) (emax - prec)); [reflexivity|]. unfold emax, prec in *. lia.
Qed.

Lemma round_nearest_even_range (m : Z) (l : location) :
  m <= round_nearest_even m l <= m + 1.
Proof.
  destruct l as [|[]]; cbn [round_nearest_even]; try lia.
  destruct (Z.even m); lia.
Qed.

(** Rounding a mantissa of 53 bits. *)
Lemma binary_round_aux_53 (s : bool) (q : positive) (e : Z) (l : location) :
  2 ^ 52 <= Z.pos q < 2 ^ 53 -> -1074 <= e <= 970 ->
  let q' := round_nearest_even (Z.pos q) l in
  binary_round_aux prec emax s (Z.pos q) e l
  = if q' <? 2 ^ 53 then S754_finite s (Z.to_pos q') e
    else S754_finite s (Z.to_pos (2 ^ 52)) (e + 1).
Proof.
  intros Hq He q'. unfold binary_round_aux.
  assert (Hs : shr_fexp prec emax (Z.pos q) e l = (shr_record_of_loc (Z.pos q) l, e)).
  { unfold shr_fexp. cbn [Zdigits2]. rewrite digits2_pos_log2, log2_53 by lia.
    replace (fexp prec emax (52 + 1 + e) - e) with 0
      by (unfold fexp, SpecFloat.emin, prec, emax; lia).
    reflexivity. }
  rewrite Hs, loc_of_record_of_loc, shr_m_record_of_loc. fold q'.
  pose proof (round_nearest_even_range (Z.pos q) l) as Hr. fold q' in Hr.
  destruct q' as [|p|p] eqn:Ep; try lia.
  rewrite finish_round by lia. reflexivity.
Qed.

(** Rounding a mantissa of 54 bits: the last bit joins the location. *)
Lemma binary_round_aux_54 (s : bool) (q : positive) (e : Z) (l : location) :
  2 ^ 53 <= Z.pos q < 2 ^ 54 -> -1074 <= e <= 969 ->
  let l' := loc_of_shr_record (shr_1 (shr_record_of_loc (Z.pos q) l)) in
  let q' := round_nearest_even (Z.pos q / 2) l' in
  binary_round_aux prec emax s (Z.pos q) e l
  = if q' <? 2 ^ 53 then S754_finite s (Z.to_pos q') (e + 1)
    else S754_finite s (Z.to_pos (2 ^ 52)) (e + 2).
Proof.
  intros Hq He l' q'. unfold binary_round_aux.
  assert (Hs : shr_fexp prec emax (Z.pos q) e l
               = (shr_1 (shr_record_of_loc (Z.pos q) l), e + 1)).
  { unfold shr_fexp. cbn [Zdigits2]. rewrite digits2_pos_log2, log2_54 by lia.
    replace (fexp prec emax (53 + 1 + e) - e) with 1
      by (unfold fexp, SpecFloat.emin, prec, emax; lia).
    reflexivity. }
  rewrite Hs. fold l'.
  assert (Hm : shr_m (shr_1 (shr_record_of_loc (Z.pos q) l)) = Z.pos q / 2).
  { destruct l as [|[]]; destruct q as [p|p|]; cbn [shr_record_of_loc shr_1 shr_m];
      try (rewrite Pos2Z.inj_xI, Z.mul_comm, Z.div_add_l by lia; reflexivity);
      try (rewrite Pos2Z.inj_xO, Z.mul_comm, Z.div_mul by lia; reflexivity);
      reflexivity. }
  rewrite Hm. fold q'.
  pose proof (round_nearest_even_range (Z.pos q / 2) l') as Hr. fold q' in Hr.
  assert (Hh : 2 ^ 52 <= Z.pos q / 2 < 2 ^ 53).
  { change (2 ^ 53) with (2 * 2 ^ 52) in Hq. change (2 ^ 54) with (2 * 2 ^ 53) in Hq.
    split; [apply Z.div_le_lower_bound | apply Z.div_lt_upper_bound]; lia. }
  destruct q' as [|p|p] eqn:Ep; try lia.
  rewrite finish_round by lia.
  replace (e + 1 + 1) with (e + 2) by lia. reflexivity.
Qed.

Lemma new_location_spec (nb r : Z) :
  0 < nb -> 0 <= r < nb ->
  match new_location nb r with
  | loc_Exact => r = 0
  | loc_Inexact Lt => 0 < 2 * r < nb
  | loc_Inexact Eq => 2 * r = nb
  | loc_Inexact Gt => nb < 2 * r
  end.
Proof.
  intros Hnb Hr. unfold new_location, new_location_even, new_location_odd.
  destruct (Z.even nb) eqn:Ev; destruct (Z.eqb_spec r 0) as [E0|E0]; try assumption.
  - destruct (Z.compare_spec (2 * r) nb); lia.
  - assert (Ho : Z.odd nb = true) by (rewrite <- Z.negb_even, Ev; reflexivity).
    apply Z.odd_spec in Ho. destruct Ho as [k Hk].
    destruct (Z.compare_spec (2 * r + 1) nb); lia.
Qed.

(** The location after one more shift, by the last bit of the mantissa. *)
Lemma shifted_location_spec (q : positive) (l : location) :
  match loc_of_shr_record (shr_1 (shr_record_of_loc (Z.pos q) l)) with
  | loc_Exact => Z.pos q mod 2 = 0 /\ l = loc_Exact
  | loc_Inexact Lt => Z.pos q mod 2 = 0 /\ l <> loc_Exact
  | loc_Inexact Eq => Z.pos q mod 2 = 1 /\ l = loc_Exact
  | loc_Inexact Gt => Z.pos q mod 2 = 1 /\ l <> loc_Exact
  end.
Proof.
  assert (H1 : forall p, Z.pos p~1 mod 2 = 1)
    by (intros p; rewrite Pos2Z.inj_xI, Z.add_comm, Z.mul_comm, Z.mod_add by lia; reflexivity).
  assert (H0 : forall p, Z.pos p~0 mod 2 = 0)
    by (intros p; rewrite Pos2Z.inj_xO, Z.mul_comm, Z.mod_mul by lia; reflexivity).
  destruct l as [|[]]; destruct q as [p|p|];
    cbn [shr_record_of_loc shr_1 loc_of_shr_record orb];
    rewrite ?H1, ?H0; split; try reflexivity; discriminate.
Qed.

(** The rounded quotient of two mantissas of 53 bits is within half a unit
    of its last place of the quotient. *)
Lemma rounded_quotient (ma mb : positive) (e : Z) :
  2 ^ 52 <= Z.pos ma < 2 ^ 53 -> 2 ^ 52 <= Z.pos mb < 2 ^ 53 ->
  -1074 <= e <= 969 ->
  let m' := Z.pos ma * 2 ^ 53 in
  exists (m : positive) (d : Z),
    binary_round_aux prec emax false (m' / Z.pos mb) e
                     (new_location (Z.pos mb) (m' mod Z.pos mb))
    = S754_finite false m (e + d)
    /\ 0 <= d <= 2
    /\ 2 ^ 52 <= Z.pos m < 2 ^ 53
    /\ Z.abs (2 * (Z.pos m * 2 ^ d) * Z.pos mb - 2 * m') <= Z.pos mb * 2 ^ d.
Proof.
  intros Ha Hb He m'.
  pose proof (Z.div_mod m' (Z.pos mb) ltac:(lia)) as Hdm.
  pose proof (Z.mod_pos_bound m' (Z.pos mb) ltac:(lia)) as Hr.
  set (q := m' / Z.pos mb) in *. set (r := m' mod Z.pos mb) in *.
  pose proof (new_location_spec (Z.pos mb) r ltac:(lia) Hr) as Hl.
  set (l := new_location (Z.pos mb) r) in *.
  assert (Hq : 2 ^ 52 <= q < 2 ^ 54).
  { subst q m'. split.
    - apply Z.div_le_lower_bound; [lia|].
      change (2 ^ 53) with 9007199254740992 in *.
      change (2 ^ 52) with 4503599627370496 in *. nia.
    - apply Z.div_lt_upper_bound; [lia|].
      change (2 ^ 54) with 18014398509481984.
      change (2 ^ 53) with 9007199254740992 in *.
      change (2 ^ 52) with 4503599627370496 in *. nia. }
  destruct q as [|qp|qp] eqn:Eq; try lia.
  destruct (Z.ltb_spec (Z.pos qp) (2 ^ 53)) as [H53|H54].
  - rewrite binary_round_aux_53 by lia. cbv zeta.
    pose proof (round_nearest_even_range (Z.pos qp) l) as Hrange.
    assert (Herr : Z.abs (2 * round_nearest_even (Z.pos qp) l * Z.pos mb - 2 * m')
                   <= Z.pos mb).
    { rewrite Hdm. destruct l as [|[]]; cbn [round_nearest_even] in *;
        try (destruct (Z.even (Z.pos qp))); lia. }
    set (q' := round_nearest_even (Z.pos qp) l) in *.
    destruct (Z.ltb_spec q' (2 ^ 53)) as [Hlt|Hge].
    + exists (Z.to_pos q'), 0. rewrite Z.add_0_r, Z2Pos.id by lia.
      repeat split; try lia.
      all: rewrite Z.pow_0_r, !Z.mul_1_r; exact Herr.
    + exists (Z.to_pos (2 ^ 52)), 1. repeat split; try lia; try reflexivity.
      all: rewrite Z2Pos.id by reflexivity;
        replace (2 ^ 52 * 2 ^ 1) with q' by (change (2 ^ 52 * 2 ^ 1) with (2 ^ 53); lia);
        change (2 ^ 1) with 2; lia.
  - rewrite binary_round_aux_54 by lia. cbv zeta.
    pose proof (shifted_location_spec qp l) as Hl'.
    set (l' := loc_of_shr_record (shr_1 (shr_record_of_loc (Z.pos qp) l))) in *.
    pose proof (Z.div_mod (Z.pos qp) 2 ltac:(lia)) as Hq2.
    pose proof (round_nearest_even_range (Z.pos qp / 2) l') as Hrange.
    assert (Herr : Z.abs (2 * (round_nearest_even (Z.pos qp / 2) l' * 2) * Z.pos mb
                          - 2 * m') <= Z.pos mb * 2).
    { rewrite Hdm. set (h := Z.pos qp / 2) in *.
      destruct l' as [|[]]; cbn [round_nearest_even] in *;
        destruct Hl' as [Hbit Hloc]; rewrite Hbit in Hq2; rewrite Hq2;
        try (destruct (Z.even h));
        destruct l as [|[]]; try congruence; lia. }
    set (q' := round_nearest_even (Z.pos qp / 2) l') in *.
    assert (Hh : 2 ^ 52 <= Z.pos qp / 2 < 2 ^ 53).
    { change (2 ^ 53) with (2 * 2 ^ 52) in H54. change (2 ^ 54) with (2 * 2 ^ 53) in Hq.
      split; [apply Z.div_le_lower_bound | apply Z.div_lt_upper_bound]; lia. }
    destruct (Z.ltb_spec q' (2 ^ 53)) as [Hlt|Hge].
    + exists (Z.to_pos q'), 1. rewrite Z2Pos.id by lia.
      repeat split; try lia.
      all: change (2 ^ 1) with 2; exact Herr.
    + exists (Z.to_pos (2 ^ 52)), 2. repeat split; try lia; try reflexivity.
      all: rewrite Z2Pos.id by reflexivity;
        replace (2 ^ 52 * 2 ^ 2) with (q' * 2)
          by (change (2 ^ 52 * 2 ^ 2) with (2 ^ 53 * 2); lia);
        change (2 ^ 2) with 4; lia.
Qed.

Lemma SFdiv_core_binary_53 (ma mb : positive) (ea eb : Z) :
  Z.log2 (Z.pos ma) = 52 -> Z.log2 (Z.pos mb) = 52 ->
  -52 <= ea <= 0 -> -52 <= eb <= 0 ->
  SFdiv_core_binary prec emax (Z.pos ma) ea (Z.pos mb) eb
  = (Z.pos ma * 2 ^ 53 / Z.pos mb, ea - eb - 53,
     new_location (Z.pos mb) (Z.pos ma * 2 ^ 53 mod Z.pos mb)).
Proof.
  intros Ha Hb Hea Heb. unfold SFdiv_core_binary. cbn [Zdigits2].
  rewrite !digits2_pos_log2, Ha, Hb.
  replace (Z.min (fexp prec emax (52 + 1 + ea - (52 + 1 + eb))) (ea - eb))
    with (ea - eb - 53) by (unfold fexp, SpecFloat.emin, prec, emax; lia).
  replace (ea - eb - (ea - eb - 53)) with 53 by lia.
  rewrite Z.shiftl_mul_pow2 by lia.
  unfold Z.div, Z.modulo.
  destruct (Z.div_eucl (Z.pos ma * 2 ^ 53) (Z.pos mb)) as [q r]. reflexivity.
Qed.

Lemma cancel_abs (x y p : Z) : 0 < p -> Z.abs (x * p) <= y * p -> Z.abs x <= y.
Proof.
  intros Hp H. rewrite Z.abs_mul, (Z.abs_eq p) in H by lia.
  apply Z.mul_le_mono_pos_r in H; assumption.
Qed.

(** The quotient of two positive integers below 2^53, as binary64 gives
    it: a mantissa of 53 bits and an exponent, within half a unit of the
    last place of the quotient. *)
Lemma quotient_of_integers (a b : Z) :
  0 < a < 2 ^ 53 -> 0 < b < 2 ^ 53 ->
  exists (m : positive) (E : Z),
    Prim2SF (Js.of_integer a / Js.of_integer b) = S754_finite false m E
    /\ 2 ^ 52 <= Z.pos m < 2 ^ 53
    /\ -106 <= E <= 1
    /\ (E <= 0 -> Z.abs (2 * Z.pos m * b - 2 ^ (1 - E) * a) <= b)
    /\ (0 <= E -> Z.abs (2 * Z.pos m * 2 ^ E * b - 2 * a) <= b * 2 ^ E).
Proof.
  intros Ha Hb. rewrite div_spec.
  rewrite (Prim2SF_of_integer a), (Prim2SF_of_integer b) by lia.
  replace (Z.abs a) with a by lia. replace (Z.abs b) with b by lia.
  replace (a <? 0) with false by (symmetry; apply Z.ltb_ge; lia).
  replace (b <? 0) with false by (symmetry; apply Z.ltb_ge; lia).
  set (la := Z.log2 a). set (lb := Z.log2 b).
  assert (Hla : 0 <= la < 53)
    by (split; [apply Z.log2_nonneg | apply Z.log2_lt_pow2; lia]).
  assert (Hlb : 0 <= lb < 53)
    by (split; [apply Z.log2_nonneg | apply Z.log2_lt_pow2; lia]).
  assert (Hpa : 0 < 2 ^ (52 - la)) by (apply Z.pow_pos_nonneg; lia).
  assert (Hpb : 0 < 2 ^ (52 - lb)) by (apply Z.pow_pos_nonneg; lia).
  set (ma := Z.to_pos (a * 2 ^ (52 - la))). set (mb := Z.to_pos (b * 2 ^ (52 - lb))).
  assert (Ema : Z.pos ma = a * 2 ^ (52 - la))
    by (subst ma; rewrite Z2Pos.id; [reflexivity | apply Z.mul_pos_pos; lia]).
  assert (Emb : Z.pos mb = b * 2 ^ (52 - lb))
    by (subst mb; rewrite Z2Pos.id; [reflexivity | apply Z.mul_pos_pos; lia]).
  assert (Lma : Z.log2 (Z.pos ma) = 52)
    by (rewrite Ema, Z.log2_mul_pow2 by lia; subst la; lia).
  assert (Lmb : Z.log2 (Z.pos mb) = 52)
    by (rewrite Emb, Z.log2_mul_pow2 by lia; subst lb; lia).
  assert (Rma : 2 ^ 52 <= Z.pos ma < 2 ^ 53).
  { pose proof (Z.log2_spec (Z.pos ma) ltac:(lia)) as H. rewrite Lma in H. exact H. }
  assert (Rmb : 2 ^ 52 <= Z.pos mb < 2 ^ 53).
  { pose proof (Z.log2_spec (Z.pos mb) ltac:(lia)) as H. rewrite Lmb in H. exact H. }
  unfold SF64div, SFdiv.
  rewrite SFdiv_core_binary_53 by (assumption || lia).
  cbn [xorb].
  destruct (rounded_quotient ma mb (la - 52 - (lb - 52) - 53) Rma Rmb ltac:(lia))
    as (m & d & Hround & Hd & Hm & Herr).
  cbv zeta in Hround. exists m, (la - 52 - (lb - 52) - 53 + d).
  split; [exact Hround|]. split; [exact Hm|]. split; [lia|].
  rewrite Ema, Emb in Herr.
  set (u := 52 - lb) in *. set (v := 52 - la) in *.
  replace (la - 52 - (lb - 52) - 53 + d) with (u + d - v - 53) by lia.
  assert (Hpu : 0 < 2 ^ (u + d)) by (apply Z.pow_pos_nonneg; lia).
  assert (Hpv : 0 < 2 ^ (v + 53)) by (apply Z.pow_pos_nonneg; lia).
  assert (Eu : 2 ^ u * 2 ^ d = 2 ^ (u + d)) by (rewrite Z.pow_add_r; lia).
  assert (Ev : 2 ^ v * 2 ^ 53 = 2 ^ (v + 53)) by (rewrite Z.pow_add_r; lia).
  assert (Herr' : Z.abs (2 * Z.pos m * b * 2 ^ (u + d) - 2 * a * 2 ^ (v + 53))
                  <= b * 2 ^ (u + d)).
  { rewrite <- Eu, <- Ev.
    replace (2 * Z.pos m * b * (2 ^ u * 2 ^ d) - 2 * a * (2 ^ v * 2 ^ 53))
      with (2 * (Z.pos m * 2 ^ d) * (b * 2 ^ u) - 2 * (a * 2 ^ v * 2 ^ 53)) by ring.
    replace (b * (2 ^ u * 2 ^ d)) with (b * 2 ^ u * 2 ^ d) by ring. exact Herr. }
  set (E := u + d - v - 53) in *.
  split.
  - intros HE.
    assert (Es : 2 ^ (v + 53) = 2 ^ (- E) * 2 ^ (u + d))
      by (rewrite <- Z.pow_add_r by lia; f_equal; lia).
    rewrite Es in Herr'.
    apply cancel_abs with (p := 2 ^ (u + d)); [exact Hpu|].
    replace (1 - E) with (1 + - E) by lia.
    rewrite Z.pow_add_r by lia. change (2 ^ 1) with 2.
    replace ((2 * Z.pos m * b - 2 * 2 ^ (- E) * a) * 2 ^ (u + d))
      with (2 * Z.pos m * b * 2 ^ (u + d) - 2 * a * (2 ^ (- E) * 2 ^ (u + d))) by ring.
    exact Herr'.
  - intros HE.
    assert (Es : 2 ^ (u + d) = 2 ^ E * 2 ^ (v + 53))
      by (rewrite <- Z.pow_add_r by lia; f_equal; lia).
    rewrite Es in Herr'.
    apply cancel_abs with (p := 2 ^ (v + 53)); [exact Hpv|].
    replace ((2 * Z.pos m * 2 ^ E * b - 2 * a) * 2 ^ (v + 53))
      with (2 * Z.pos m * b * (2 ^ E * 2 ^ (v + 53)) - 2 * a * 2 ^ (v + 53)) by ring.
    replace (b * 2 ^ E * 2 ^ (v + 53)) with (b * (2 ^ E * 2 ^ (v + 53))) by ring.
    exact Herr'.
Qed.


(** Arithmetic of the last step: a mantissa within half a unit of its last
    place of [a / b] rounds to the integer nearest to [a / b], when [a] is
    below 2^52. *)
Lemma nearest_of_rounded (a b m P : Z) :
  0 < a < 2 ^ 52 -> 0 < b -> 2 ^ 52 <= m -> 0 < P ->
  Z.abs (2 * m * b - 2 * (2 * P) * a) <= b ->
  (2 * m + 2 * P) / (2 * (2 * P)) = (2 * a + b) / (2 * b).
Proof.
  intros Ha Hb Hm HP Herr.
  set (N := (2 * a + b) / (2 * b)).
  pose proof (Z.mul_div_le (2 * a + b) (2 * b) ltac:(lia)) as H1.
  pose proof (Z.mul_succ_div_gt (2 * a + b) (2 * b) ltac:(lia)) as H2.
  fold N in H1, H2.
  change (2 ^ 52) with 4503599627370496 in *.
  assert (HbP : b < 2 * P) by nia.
  symmetry. apply Z.div_unique with (r := 2 * m + 2 * P - 2 * (2 * P) * N).
  - left. split.
    + assert (H : (2 * m + 2 * P - 4 * P * N + 1) * b >= 0) by nia.
      assert (H' : 2 * m + 2 * P - 4 * P * N + 1 >= 0) by nia. lia.
    + assert (H : (4 * P * N + 4 * P - 2 * m - 2 * P) * b > 0) by nia.
      nia.
  - ring.
Qed.

(** [Math.round(a / b)] for integers: the integer nearest to the exact
    quotient, the one towards +infinity on a tie. *)
Lemma Math_round_quotient (a b : Z) :
  0 <= a < 2 ^ 52 -> 0 < b < 2 ^ 53 ->
  Home.Math_round (Js.of_integer a / Js.of_integer b)%float
  = Js.of_integer ((2 * a + b) / (2 * b)).
Proof.
  intros Ha Hb.
  destruct (Z.eq_dec a 0) as [->|Ha0].
  { rewrite Z.mul_0_r, Z.add_0_l, (Z.div_small b (2 * b)) by lia.
    assert (E : Prim2SF (Js.of_integer 0 / Js.of_integer b) = S754_zero false).
    { rewrite div_spec, (Prim2SF_of_integer b) by lia.
      replace (b <? 0) with false by (symmetry; apply Z.ltb_ge; lia).
      reflexivity. }
    unfold Home.Math_round. rewrite E. apply Prim2SF_inj. now rewrite E. }
  assert (Ha53 : 0 < a < 2 ^ 53)
    by (change (2 ^ 53) with (2 * 2 ^ 52); lia).
  destruct (quotient_of_integers a b Ha53 Hb) as (m & E & HQ & Hm & HE & Hneg & Hpos).
  assert (HEneg : E < 0).
  { destruct (Z.lt_ge_cases E 0) as [|HE0]; [assumption | exfalso].
    specialize (Hpos HE0).
    assert (Hp : 1 <= 2 ^ E)
      by (pose proof (Z.pow_pos_nonneg 2 E ltac:(lia) HE0); lia).
    change (2 ^ 52) with 4503599627370496 in *. nia. }
  unfold Home.Math_round. rewrite HQ. cbv zeta.
  destruct (Z.leb_spec 0 E); [lia|].
  assert (Hn : (2 * Z.pos m + 2 ^ (- E)) / 2 ^ (1 - E) = (2 * a + b) / (2 * b)).
  { specialize (Hneg ltac:(lia)).
    assert (EP : 2 ^ (- E) = 2 * 2 ^ (- E - 1)).
    { replace (- E) with (1 + (- E - 1)) at 1 by lia. rewrite Z.pow_add_r by lia.
      reflexivity. }
    assert (EQ : 2 ^ (1 - E) = 2 * (2 * 2 ^ (- E - 1))).
    { replace (1 - E) with (1 + - E) by lia. rewrite Z.pow_add_r, EP by lia.
      reflexivity. }
    rewrite EP, EQ. rewrite EQ in Hneg.
    apply nearest_of_rounded; try lia.
    all: apply Z.pow_pos_nonneg; lia. }
  rewrite Hn.
  destruct (Z.eqb_spec ((2 * a + b) / (2 * b)) 0) as [->|]; reflexivity.
Qed.

Example Math_round_examples :
  Home.Math_round 2.5%float = 3%float /\ Home.Math_round (-2.5)%float = (-2)%float
  /\ Home.Math_round (-0.25)%float = neg_zero /\ Home.Math_round 0.25%float = 0%float
  /\ Home.Math_round 1125899906842624.5%float = 1125899906842625%float
  /\ Home.Math_round infinity = infinity.
Proof. repeat split. Qed.



Example floor_and_remainder_examples :
  Js.Math_floor 2.75%float = 2%float /\ Js.Math_floor (-2.25)%float = (-3)%float
  /\ Js.Math_floor 0.5%float = 0%float /\ Js.Math_floor (-0.5)%float = (-1)%float
  /\ Js.remainder 105%float 60%float = 45%float
  /\ Js.remainder (-30)%float 60%float = (-30)%float
  /\ Js.remainder 5.5%float 2%float = 1.5%float
  /\ Js.remainder 120%float 60%float = 0%float
  /\ Js.remainder 7%float infinity = 7%float
  /\ is_nan (Js.remainder 7%float 0%float) = true.
Proof. repeat split. Qed.

(** [Math.floor(a / 60)] for an integer below 2^53. *)
Lemma Math_floor_sixtieth (a : Z) :
  0 <= a < 2 ^ 53 -> Js.Math_floor (Js.of_integer a / Js.of_integer 60)%float = Js.of_integer (a / 60).
Proof.
  intros Ha.
  destruct (Z.eq_dec a 0) as [->|Ha0]; [reflexivity|].
  destruct (quotient_of_integers a 60 ltac:(lia) ltac:(change (2 ^ 53) with 9007199254740992; lia))
    as (m & E & HQ & Hm & HE & Hneg & Hpos).
  change (2 ^ 52) with 4503599627370496 in *.
  change (2 ^ 53) with 9007199254740992 in *.
  assert (HEneg : E < 0).
  { destruct (Z.lt_ge_cases E 0) as [|HE0]; [assumption | exfalso].
    specialize (Hpos HE0).
    assert (Hp : 1 <= 2 ^ E)
      by (pose proof (Z.pow_pos_nonneg 2 E ltac:(lia) HE0); lia).
    nia. }
  specialize (Hneg ltac:(lia)).
  assert (EQ : 2 ^ (1 - E) = 2 * 2 ^ (- E))
    by (replace (1 - E) with (1 + - E) by lia; rewrite Z.pow_add_r by lia; reflexivity).
  rewrite EQ in Hneg.
  assert (HP : 32 <= 2 ^ (- E)).
  { destruct (Z.le_gt_cases 5 (- E)) as [H5|H5].
    - change 32 with (2 ^ 5). apply Z.pow_le_mono_r; lia.
    - exfalso.
      assert (Hc : 2 ^ (- E) <= 2 ^ 4) by (apply Z.pow_le_mono_r; lia).
      change (2 ^ 4) with 16 in Hc.
      pose proof (Z.pow_pos_nonneg 2 (- E) ltac:(lia) ltac:(lia)). nia. }
  unfold Js.Math_floor. rewrite HQ. cbv zeta.
  destruct (Z.leb_spec 0 E); [lia|].
  assert (Hn : Z.pos m / 2 ^ (- E) = a / 60).
  { set (P := 2 ^ (- E)) in *.
    pose proof (Z.mul_div_le a 60 ltac:(lia)) as H1.
    pose proof (Z.mul_succ_div_gt a 60 ltac:(lia)) as H2.
    set (h := a / 60) in *.
    symmetry. apply Z.div_unique with (r := Z.pos m - P * h); [|ring].
    left. split; nia. }
  rewrite Hn.
  destruct (Z.eqb_spec (a / 60) 0) as [->|]; reflexivity.
Qed.

(** [a % b] for integers below 2^53. *)
Lemma remainder_of_integers (a b : Z) :
  0 <= a < 2 ^ 53 -> 0 < b < 2 ^ 53 ->
  Js.remainder (Js.of_integer a) (Js.of_integer b) = Js.of_integer (a mod b).
Proof.
  intros Ha Hb. unfold Js.remainder.
  rewrite (Prim2SF_of_integer b) by lia.
  destruct (Z.eq_dec a 0) as [->|Ha0]; [reflexivity|].
  rewrite (Prim2SF_of_integer a) by lia.
  replace (Z.abs a) with a by lia. replace (Z.abs b) with b by lia.
  replace (a <? 0) with false by (symmetry; apply Z.ltb_ge; lia).
  set (la := Z.log2 a). set (lb := Z.log2 b).
  assert (Hla : 0 <= la < 53)
    by (split; [apply Z.log2_nonneg | apply Z.log2_lt_pow2; lia]).
  assert (Hlb : 0 <= lb < 53)
    by (split; [apply Z.log2_nonneg | apply Z.log2_lt_pow2; lia]).
  assert (Hpa : 0 < 2 ^ (52 - la)) by (apply Z.pow_pos_nonneg; lia).
  assert (Hpb : 0 < 2 ^ (52 - lb)) by (apply Z.pow_pos_nonneg; lia).
  rewrite !Z2Pos.id by (apply Z.mul_pos_pos; lia).
  cbv zeta. set (e := Z.min (la - 52) (lb - 52)).
  rewrite <- !Z.mul_assoc, <- !Z.pow_add_r by (subst e; lia).
  replace (52 - la + (la - 52 - e)) with (- e) by lia.
  replace (52 - lb + (lb - 52 - e)) with (- e) by lia.
  assert (Hpe : 0 < 2 ^ (- e)) by (apply Z.pow_pos_nonneg; subst e; lia).
  rewrite Z.mul_mod_distr_r by lia.
  pose proof (Z.mod_pos_bound a b ltac:(lia)) as Hr.
  destruct (Z.eqb_spec (a mod b * 2 ^ (- e)) 0) as [E0|E0].
  - assert (a mod b = 0) as -> by nia. reflexivity.
  - assert (Hr0 : a mod b <> 0) by (intros H; rewrite H in E0; lia).
    unfold Js.of_integer. f_equal.
    replace e with (- - e) at 2 by lia.
    rewrite binary_normalize_integer by (subst e; lia).
    pose proof (binary_normalize_integer (a mod b) 0 Hr0 ltac:(lia) ltac:(lia)) as H0.
    rewrite Z.mul_1_r in H0. cbn [Z.opp] in H0. now rewrite H0.
Qed.

Lemma or_zero_of_integer (n : Z) :
  Z.abs n < 2 ^ 53 -> Js.or_zero (Js.of_integer n) = Js.of_integer n.
Proof.
  intros Hb. unfold Js.or_zero. rewrite ToBoolean_of_integer by assumption.
  destruct (Z.eqb_spec n 0) as [->|_]; reflexivity.
Qed.

Example integers_from_2_53_on_are_rounded :
  Js.of_integer (2 ^ 53 + 1) = Js.of_integer (2 ^ 53)
  /\ (Js.of_integer (2 ^ 53) + Js.of_integer 1)%float = Js.of_integer (2 ^ 53).
Proof. split; reflexivity. Qed.

End JsIntegerFacts.

(** ** The calendar functions *)

Module JsDateFacts.
Import JsDate.

Ltac split_ifs :=
  repeat match goal with
         | |- context [if ?a <? ?b then _ else _] =>
             destruct (Z.ltb_spec a b); try lia
         end.

Lemma DayFromYear_next (y : Z) : DayFromYear (y + 1) = DayFromYear y + DaysInYear y.
Proof.
  unfold DayFromYear, DaysInYear.
  destruct (Z.eqb_spec (y mod 4) 0), (Z.eqb_spec (y mod 100) 0),
    (Z.eqb_spec (y mod 400) 0); cbn [negb]; Z.div_mod_to_equations; lia.
Qed.

Lemma DayFromYear_mono (y z : Z) : y <= z -> DayFromYear y <= DayFromYear z.
Proof. unfold DayFromYear. intros. Z.div_mod_to_equations. lia. Qed.

Lemma DaysInYear_range (y : Z) : 365 <= DaysInYear y <= 366.
Proof.
  unfold DaysInYear.
  repeat match goal with
         | |- context [if ?c then _ else _] => destruct c
         end; lia.
Qed.

(** [YearFromTime t] is the year whose days contain [t]. *)
Lemma YearFromTime_days (t : Z) :
  DayFromYear (YearFromTime t) <= Day t < DayFromYear (YearFromTime t + 1).
Proof.
  unfold YearFromTime. set (d := Day t).
  destruct (Z.ltb_spec d (DayFromYear (1970 + d * 400 / 146097))) as [H|H].
  - replace (1970 + d * 400 / 146097 - 1 + 1) with (1970 + d * 400 / 146097) by lia.
    split; [|lia]. clear H. unfold DayFromYear. Z.div_mod_to_equations. lia.
  - destruct (Z.leb_spec (DayFromYear (1970 + d * 400 / 146097 + 1)) d) as [H'|H'].
    + split; [lia|]. clear H H'. unfold DayFromYear. Z.div_mod_to_equations. lia.
    + lia.
Qed.

Lemma YearFromTime_largest (t : Z) :
  TimeFromYear (YearFromTime t) <= t < TimeFromYear (YearFromTime t + 1).
Proof.
  pose proof (YearFromTime_days t) as H.
  unfold TimeFromYear, Day, msPerDay in *. Z.div_mod_to_equations. lia.
Qed.

Lemma YearFromTime_unique (t y : Z) :
  DayFromYear y <= Day t < DayFromYear (y + 1) -> YearFromTime t = y.
Proof.
  intros H. pose proof (YearFromTime_days t) as H'.
  destruct (Z.lt_trichotomy (YearFromTime t) y) as [Hlt|[Heq|Hgt]]; [|exact Heq|].
  - pose proof (DayFromYear_mono (YearFromTime t + 1) y ltac:(lia)). lia.
  - pose proof (DayFromYear_mono (y + 1) (YearFromTime t) ltac:(lia)). lia.
Qed.

Lemma Day_MakeDate (d : Z) : Day (MakeDate d 0) = d.
Proof. unfold Day, MakeDate. rewrite Z.add_0_r. apply Z.div_mul. discriminate. Qed.

(** [MakeDay y m 1] is the day on which month [m] of year [y] starts. *)
Lemma MakeDay_first (y m : Z) :
  0 <= m <= 11 ->
  let t := MakeDate (MakeDay y m 1) 0 in
  YearFromTime t = y /\ MonthFromTime t = m /\ DateFromTime t = 1.
Proof.
  intros Hm t.
  assert (Hd : Day t = DayFromYear y
                       + month_start m (if DaysInYear y =? 366 then 1 else 0)).
  { subst t. rewrite Day_MakeDate. unfold MakeDay.
    rewrite Z.div_small, Z.mod_small, Z.add_0_r by lia. lia. }
  clearbody t.
  pose proof (DaysInYear_range y) as Hy.
  assert (Hc : m = 0 \/ m = 1 \/ m = 2 \/ m = 3 \/ m = 4 \/ m = 5 \/ m = 6
               \/ m = 7 \/ m = 8 \/ m = 9 \/ m = 10 \/ m = 11) by lia.
  assert (HY : YearFromTime t = y).
  { apply YearFromTime_unique. rewrite DayFromYear_next, Hd.
    destruct (Z.eqb_spec (DaysInYear y) 366);
      repeat (destruct Hc as [Hc|Hc]); subst m; cbn [month_start]; lia. }
  assert (HM : MonthFromTime t = m).
  { unfold MonthFromTime, DayWithinYear, InLeapYear. rewrite HY, Hd.
    destruct (Z.eqb_spec (DaysInYear y) 366);
      repeat (destruct Hc as [Hc|Hc]); subst m; cbn [month_start]; split_ifs. }
  split; [exact HY|]. split; [exact HM|].
  unfold DateFromTime, DayWithinYear, InLeapYear. rewrite HM, HY, Hd. lia.
Qed.

Lemma MonthFromTime_range (t : Z) : 0 <= MonthFromTime t <= 11.
Proof.
  unfold MonthFromTime.
  repeat match goal with
         | |- context [if ?c then _ else _] => destruct c
         end; lia.
Qed.

(** Setting the day of the month to seven less moves a time value back by
    seven days and keeps its time within the day. *)
Lemma seven_days_back (t : Z) :
  MakeDate (MakeDay (YearFromTime t) (MonthFromTime t) (DateFromTime t - 7))
           (TimeWithinDay t)
  = t - 7 * msPerDay.
Proof.
  pose proof (MonthFromTime_range t) as Hm.
  unfold MakeDay, MakeDate.
  rewrite (Z.div_small (MonthFromTime t) 12), (Z.mod_small (MonthFromTime t) 12) by lia.
  rewrite Z.add_0_r.
  unfold DateFromTime, DayWithinYear, InLeapYear, TimeWithinDay, Day.
  generalize (month_start (MonthFromTime t)
                (if DaysInYear (YearFromTime t) =? 366 then 1 else 0)).
  intros start.
  pose proof (Z.div_mod t msPerDay ltac:(discriminate)).
  lia.
Qed.


Example new_year_2024 :
  parse_date_only "2024-01-01" = Some 1704067200000
  /\ (YearFromTime 1704067200000, MonthFromTime 1704067200000,
      DateFromTime 1704067200000) = (2024, 0, 1).
Proof. split; reflexivity. Qed.

Example leap_day :
  parse_date_only "2024-02-29" = Some 1709164800000
  /\ parse_date_only "2023-02-29" = None.
Proof. split; reflexivity. Qed.

Example before_the_epoch :
  (YearFromTime (-1), MonthFromTime (-1), DateFromTime (-1)) = (1969, 11, 31).
Proof. reflexivity. Qed.

End JsDateFacts.

(** ** Properties of the progress delta *)

Module ProgressFacts.
Import Progress.

Lemma ends_with_two (A : Type) (l : list A) :
  (2 <= List.length l)%nat -> exists pre p x, l = pre ++ [p; x].
Proof.
  intros Hlen.
  rewrite <- (rev_involutive l) in *.
  rewrite length_rev in Hlen.
  destruct (rev l) as [|x [|p r]]; simpl in Hlen; try lia.
  exists (rev r), p, x. simpl. now rewrite <- app_assoc.
Qed.

Lemma index_latest (A : Type) (pre : list A) (p x : A) :
  index (pre ++ [p; x]) (Z.of_nat (List.length (pre ++ [p; x])) - 1) = Some x.
Proof.
  unfold index. rewrite length_app. simpl List.length.
  replace (Z.of_nat (List.length pre + 2) - 1)
    with (Z.of_nat (List.length pre + 1)) by lia.
  destruct (Z.ltb_spec (Z.of_nat (List.length pre + 1)) 0); [lia|].
  rewrite Nat2Z.id, nth_error_app2 by lia.
  replace (List.length pre + 1 - List.length pre)%nat with 1%nat by lia.
  reflexivity.
Qed.

Lemma index_previous (A : Type) (pre : list A) (p x : A) :
  index (pre ++ [p; x]) (Z.of_nat (List.length (pre ++ [p; x])) - 2) = Some p.
Proof.
  unfold index. rewrite length_app. simpl List.length.
  replace (Z.of_nat (List.length pre + 2) - 2)
    with (Z.of_nat (List.length pre)) by lia.
  destruct (Z.ltb_spec (Z.of_nat (List.length pre)) 0); [lia|].
  rewrite Nat2Z.id, nth_error_app2 by lia.
  rewrite Nat.sub_diag. reflexivity.
Qed.

Lemma latest_of_app pre p x : latest_of (pre ++ [p; x]) = Some x.
Proof. unfold latest_of. now rewrite rev_app_distr. Qed.

Lemma previous_of_app pre p x : previous_of (pre ++ [p; x]) = Some p.
Proof. unfold previous_of. now rewrite rev_app_distr. Qed.

Lemma getChange_short metrics field :
  (List.length metrics < 2)%nat -> getChange metrics field = Done None.
Proof.
  intros H. unfold getChange.
  destruct (Z.ltb_spec (Z.of_nat (List.length metrics)) 2); [reflexivity | lia].
Qed.

Lemma getChange_delta pre p x field :
  getChange (pre ++ [p; x]) field = delta (get field x) (get field p).
Proof.
  unfold getChange.
  destruct (Z.ltb_spec (Z.of_nat (List.length (pre ++ [p; x]))) 2) as [H|_].
  - rewrite length_app in H. simpl in H. lia.
  - rewrite index_latest, index_previous. reflexivity.
Qed.

Lemma truthy_nonzero v :
  Js.truthy v = true -> exists x, v = Some x /\ (x =? 0)%float = false.
Proof.
  destruct v as [x|]; simpl; [|discriminate].
  unfold Js.ToBoolean. intros H. exists x. split; [reflexivity|].
  apply negb_true_iff, orb_false_iff in H. tauto.
Qed.

Lemma falsy_null_or_zero v :
  json_value v -> (Js.truthy v = false <-> null_or_zero v).
Proof.
  destruct v as [x|]; simpl; [|tauto].
  unfold Js.ToBoolean. intros Hnan. rewrite Hnan, orb_false_r.
  rewrite negb_false_iff. tauto.
Qed.

Lemma delta_cases lv pv :
  (Js.truthy lv = false \/ Js.truthy pv = false) /\ delta lv pv = Done None
  \/ exists a b,
       lv = Some a /\ pv = Some b /\ (b =? 0)%float = false /\
       delta lv pv =
         Done (Some {| value := Js.toFixed (a - b)%float 1;
                       percent := Js.toFixed ((a - b) / b * 100)%float 1;
                       isPositive := (0 <? a - b)%float |}).
Proof.
  unfold delta.
  destruct (Js.truthy lv) eqn:Hl; [|left; auto].
  destruct (Js.truthy pv) eqn:Hp; [|left; auto].
  right.
  destruct (truthy_nonzero _ Hl) as (a & -> & _).
  destruct (truthy_nonzero _ Hp) as (b & -> & Hb).
  exists a, b. simpl. unfold divide. rewrite Hb. auto.
Qed.

(** A float that compares equal to zero is not greater than zero. *)
Lemma zero_not_positive (c : float) :
  (c =? 0)%float = true -> (0 <? c)%float = false.
Proof.
  rewrite eqb_spec, ltb_spec.
  replace (Prim2SF 0) with (S754_zero false) by reflexivity.
  destruct (Prim2SF c) as [s|s| |s m e]; simpl; try discriminate; try reflexivity.
  all: destruct s; try discriminate; reflexivity.
Qed.

(** C3. On rows decoded from JSON, [getChange] returns [null] exactly when
    there are fewer than two entries, or the selected field of the latest
    entry is [null] or zero, or that of the entry before it is [null] or
    zero. *)
Theorem getChange_null_iff metrics field (Hjson : Forall json_row metrics) :
  getChange metrics field = Done None <->
  (List.length metrics < 2)%nat
  \/ (exists m, latest_of metrics = Some m /\ null_or_zero (get field m))
  \/ (exists m, previous_of metrics = Some m /\ null_or_zero (get field m)).
Proof.
  destruct (Nat.lt_ge_cases (List.length metrics) 2) as [Hlt|Hge].
  - split; [auto | intros _; now apply getChange_short].
  - destruct (ends_with_two _ _ Hge) as (pre & p & x & ->).
    rewrite getChange_delta, latest_of_app, previous_of_app.
    apply Forall_app in Hjson as [_ Hjson].
    inversion Hjson as [|? ? Hp Hjson']; subst.
    inversion Hjson' as [|? ? Hx _]; subst.
    assert (Hjx : json_value (get field x)) by (destruct field; apply Hx).
    assert (Hjp : json_value (get field p)) by (destruct field; apply Hp).
    split.
    + intros Hnone. right.
      destruct (delta_cases (get field x) (get field p))
        as [[[Hf|Hf] _]|(a & b & _ & _ & _ & Heq)].
      * left. exists x. split; [reflexivity|]. now apply falsy_null_or_zero.
      * right. exists p. split; [reflexivity|]. now apply falsy_null_or_zero.
      * rewrite Heq in Hnone. discriminate.
    + intros [Hlt|[(m & Hm & Hz)|(m & Hm & Hz)]].
      * lia.
      * injection Hm as <-. apply falsy_null_or_zero in Hz; [|assumption].
        unfold delta. now rewrite Hz.
      * injection Hm as <-. apply falsy_null_or_zero in Hz; [|assumption].
        unfold delta. rewrite Hz. now rewrite orb_true_r.
Qed.

Lemma getChange_null_iff_witness :
  getChange [jan_1] weight = Done None <->
  (List.length [jan_1] < 2)%nat
  \/ (exists m, latest_of [jan_1] = Some m /\ null_or_zero (get weight m))
  \/ (exists m, previous_of [jan_1] = Some m /\ null_or_zero (get weight m)).
Proof.
  apply (getChange_null_iff [jan_1] weight).
  repeat constructor.
Defined.

(** C4. A non-null result carries the difference of the two most recent
    values formatted by [toFixed(1)], the quotient of that difference by
    the previous value times 100 formatted by [toFixed(1)], and a flag that
    holds exactly when the difference is greater than zero (so a difference
    equal to zero gives [false]); 180 followed by 178 gives "-2.0", "-1.1"
    and [false]. *)
Theorem getChange_components :
  (forall metrics field r,
      getChange metrics field = Done (Some r) ->
      exists m_latest m_previous latestValue previousValue,
        latest_of metrics = Some m_latest
        /\ previous_of metrics = Some m_previous
        /\ get field m_latest = Some latestValue
        /\ get field m_previous = Some previousValue
        /\ value r = Js.toFixed (latestValue - previousValue)%float 1
        /\ percent r =
             Js.toFixed ((latestValue - previousValue) / previousValue * 100)%float 1
        /\ (isPositive r = true <-> (0 <? latestValue - previousValue)%float = true)
        /\ ((latestValue - previousValue =? 0)%float = true -> isPositive r = false))
  /\ getChange [jan_1; jan_8] weight =
       Done (Some {| value := "-2.0"; percent := "-1.1"; isPositive := false |}).
Proof.
  split; [|reflexivity].
  intros metrics field r Hr.
  destruct (Nat.lt_ge_cases (List.length metrics) 2) as [Hlt|Hge].
  { rewrite getChange_short in Hr by assumption. discriminate. }
  destruct (ends_with_two _ _ Hge) as (pre & p & x & ->).
  rewrite getChange_delta in Hr.
  destruct (delta_cases (get field x) (get field p))
    as [[_ Heq]|(a & b & Ha & Hb & _ & Heq)]; rewrite Heq in Hr.
  { discriminate. }
  injection Hr as <-.
  exists x, p, a, b. simpl.
  rewrite latest_of_app, previous_of_app.
  repeat split; try assumption; try (intros H; exact H).
  apply zero_not_positive.
Qed.

Lemma getChange_components_witness :
  exists m_latest m_previous latestValue previousValue,
    latest_of [jan_1; jan_8] = Some m_latest
    /\ previous_of [jan_1; jan_8] = Some m_previous
    /\ get weight m_latest = Some latestValue
    /\ get weight m_previous = Some previousValue
    /\ "-2.0" = Js.toFixed (latestValue - previousValue)%float 1
    /\ "-1.1" =
         Js.toFixed ((latestValue - previousValue) / previousValue * 100)%float 1
    /\ (false = true <-> (0 <? latestValue - previousValue)%float = true)
    /\ ((latestValue - previousValue =? 0)%float = true -> false = false).
Proof.
  exact (proj1 getChange_components [jan_1; jan_8] weight
           {| value := "-2.0"; percent := "-1.1"; isPositive := false |}
           eq_refl).
Defined.

(** C5. Two histories of at least two entries whose latest entries agree
    on the selected field, and whose entries before the latest agree on it,
    have the same delta. *)
Theorem getChange_last_two_only metrics1 metrics2 field
  (Hlen1 : (2 <= List.length metrics1)%nat)
  (Hlen2 : (2 <= List.length metrics2)%nat)
  (Hlatest : option_map (get field) (latest_of metrics1)
             = option_map (get field) (latest_of metrics2))
  (Hprevious : option_map (get field) (previous_of metrics1)
               = option_map (get field) (previous_of metrics2)) :
  getChange metrics1 field = getChange metrics2 field.
Proof.
  destruct (ends_with_two _ _ Hlen1) as (pre1 & p1 & x1 & ->).
  destruct (ends_with_two _ _ Hlen2) as (pre2 & p2 & x2 & ->).
  rewrite !latest_of_app in Hlatest. rewrite !previous_of_app in Hprevious.
  cbn [option_map] in *.
  injection Hlatest as Hlatest. injection Hprevious as Hprevious.
  rewrite !getChange_delta. now rewrite Hprevious, Hlatest.
Qed.

Lemma getChange_last_two_only_witness :
  getChange [jan_8; jan_8; jan_1; jan_1; jan_8] weight =
  getChange [entry "2023-12-25" (Some 180%float) (Some 20%float);
             entry "2024-01-02" (Some 178%float) (Some 19%float)] weight.
Proof.
  apply getChange_last_two_only; [cbn; lia | cbn; lia | reflexivity | reflexivity].
Defined.

(** C10. [getChange] finishes without a fault on every input: it never
    reads a property of an element outside the array (the two index reads
    happen only when the length is at least 2), and it never reaches its
    division with a zero divisor. *)
Theorem getChange_total metrics field :
  getChange metrics field <> Raise TypeError
  /\ getChange metrics field <> Raise DivisionByZero
  /\ exists r, getChange metrics field = Done r.
Proof.
  assert (H : exists r, getChange metrics field = Done r).
  { destruct (Nat.lt_ge_cases (List.length metrics) 2) as [Hlt|Hge].
    - exists None. now apply getChange_short.
    - destruct (ends_with_two _ _ Hge) as (pre & p & x & ->).
      rewrite getChange_delta.
      destruct (delta_cases (get field x) (get field p))
        as [[_ Heq]|(a & b & _ & _ & _ & Heq)]; rewrite Heq; eauto. }
  destruct H as [r Hr]. rewrite Hr.
  split; [discriminate|]. split; [discriminate|]. now exists r.
Qed.

Example single_entry_gives_null : getChange [jan_1] weight = Done None.
Proof. reflexivity. Qed.

Example zero_is_missing :
  getChange [jan_1; entry "2024-01-08" (Some 0%float) None] weight = Done None.
Proof. reflexivity. Qed.

Example null_is_missing : getChange [jan_1; jan_8] body_fat_percentage = Done None.
Proof. reflexivity. Qed.

Example unchanged_is_not_positive :
  getChange [jan_1; entry "2024-01-08" (Some 180%float) None] weight =
  Done (Some {| value := "0.0"; percent := "0.0"; isPositive := false |}).
Proof. reflexivity. Qed.

Example gain_is_positive :
  getChange [jan_8; jan_1] weight =
  Done (Some {| value := "2.0"; percent := "1.1"; isPositive := true |}).
Proof. reflexivity. Qed.

End ProgressFacts.

(** ** Properties of the dashboard statistics *)

Module HomeFacts.
Import Supabase JsDate JsDateFacts JsIntegerFacts Home.

Lemma or_zero_id n : or_zero (Some n) = n.
Proof. unfold or_zero. destruct (Z.eqb_spec n 0); congruence. Qed.

Lemma magnitude_nonneg rows : 0 <= magnitude rows.
Proof.
  induction rows as [|w rows IH]; cbn [magnitude]; [lia|].
  destruct (duration_minutes w); lia.
Qed.

Lemma sum_within_magnitude rows : Z.abs (sum_durations rows) <= magnitude rows.
Proof.
  induction rows as [|w rows IH]; cbn [sum_durations magnitude]; [lia|].
  pose proof (magnitude_nonneg rows).
  destruct (duration_minutes w); lia.
Qed.

(** The column [duration_minutes] is an [integer] of 32 bits: a table of at
    most 2^22 rows stays below 2^53 in total. *)
Lemma integer_column_within_bound rows :
  Forall (fun w => forall m, duration_minutes w = Js.present m -> Z.abs m <= 2 ^ 31) rows ->
  Z.of_nat (List.length rows) < 2 ^ 22 ->
  magnitude rows < 2 ^ 53.
Proof.
  intros H Hn.
  assert (Hm : magnitude rows <= 2 ^ 31 * Z.of_nat (List.length rows)).
  { induction H as [|w rows Hw _ IH]; cbn [magnitude List.length]; [lia|].
    specialize (IH ltac:(cbn [List.length] in Hn; lia)).
    destruct (duration_minutes w) as [m| |]; [specialize (Hw m eq_refl)| |]; lia. }
  change (2 ^ 53) with (2 ^ 31 * 2 ^ 22). change (2 ^ 31) with 2147483648 in *.
  change (2 ^ 22) with 4194304 in *. lia.
Qed.

(** While the durations stay below 2^53 in total, no addition of the
    [reduce] rounds. *)
Lemma reduce_sum rows acc :
  Forall defined_duration rows ->
  Z.abs acc + magnitude rows < 2 ^ 53 ->
  fold_left (fun sum w => plus sum (number_of (duration_minutes w))) rows
            (Js.of_integer acc)
  = Js.of_integer (acc + sum_durations rows).
Proof.
  intros H. revert acc.
  induction H as [|w rows Hw _ IH]; intros acc Hb;
    cbn [fold_left sum_durations magnitude] in *.
  - now rewrite Z.add_0_r.
  - pose proof (magnitude_nonneg rows). unfold defined_duration in Hw.
    destruct (duration_minutes w) as [m| |]; [| |congruence];
      cbn [number_of]; unfold plus.
    + rewrite of_integer_add by lia. rewrite IH by lia. f_equal. lia.
    + rewrite <- of_integer_zero, of_integer_add, Z.add_0_r by lia. now apply IH.
Qed.

Section Host.

Variable LocalTZA : Z -> bool -> Z.
Variable parse_other : string -> TimeValue.

Local Abbreviation stats_of := (Home.stats_of LocalTZA parse_other).
Local Abbreviation oneWeekAgo := (Home.oneWeekAgo LocalTZA).
Local Abbreviation countSince := (Home.countSince parse_other).
Local Abbreviation in_window := (Home.in_window parse_other).
Local Abbreviation count_on_or_after := (Home.count_on_or_after parse_other).

Lemma stats_of_rows (now : Z) (rows : list StatsRow) :
  let total :=
    Js.or_zero (fold_left (fun sum w => plus sum (number_of (duration_minutes w)))
                          rows 0%float) in
  stats_of now (Some rows) =
  {| totalWorkouts := Z.of_nat (List.length rows);
     thisWeekWorkouts := countSince (oneWeekAgo now) (Some rows);
     totalMinutes := total;
     avgDuration :=
       if 0 <? Z.of_nat (List.length rows)
       then Math_round (total / Js.of_integer (Z.of_nat (List.length rows)))%float
       else 0%float |}.
Proof.
  unfold Home.stats_of. cbn [option_map].
  rewrite !or_zero_id. reflexivity.
Qed.

Lemma total_of_numbers (now : Z) (rows : list StatsRow) :
  Forall defined_duration rows ->
  magnitude rows < 2 ^ 53 ->
  totalMinutes (stats_of now (Some rows)) = Js.of_integer (sum_durations rows).
Proof.
  intros Hdefined Hbound. rewrite stats_of_rows. cbn [totalMinutes].
  rewrite <- of_integer_zero, reduce_sum by (cbn [Z.abs]; lia || assumption).
  cbn [Z.add]. apply or_zero_of_integer.
  pose proof (sum_within_magnitude rows). lia.
Qed.

(** While the sum is not negative and below 2^52, the quotient that
    [Math.round] receives is so close to the exact one that the average is
    the integer nearest to the exact quotient. *)
Lemma average_of_numbers (now : Z) (rows : list StatsRow) :
  Forall defined_duration rows ->
  0 <= sum_durations rows ->
  magnitude rows < 2 ^ 52 ->
  0 < Z.of_nat (List.length rows) < 2 ^ 53 ->
  avgDuration (stats_of now (Some rows))
  = Js.of_integer ((2 * sum_durations rows + Z.of_nat (List.length rows))
                   / (2 * Z.of_nat (List.length rows))).
Proof.
  intros Hdefined Hsum Hbound Hlen.
  assert (Hbound' : magnitude rows < 2 ^ 53)
    by (change (2 ^ 53) with (2 * 2 ^ 52); lia).
  pose proof (total_of_numbers now rows Hdefined Hbound') as Htotal.
  pose proof (sum_within_magnitude rows) as Hmag.
  rewrite stats_of_rows in *. cbn [totalMinutes avgDuration] in *.
  destruct (Z.ltb_spec 0 (Z.of_nat (List.length rows))); [|lia].
  rewrite Htotal. apply Math_round_quotient; lia.
Qed.

(** C1. For rows that carry a duration, a number or [null], and whose
    durations stay below 2^53 in total, [totalMinutes] is the number equal
    to the sum of the durations with a [null] duration counted as 0;
    [avgDuration] is [Math.round(totalMinutes / totalWorkouts)] when there
    is a row and 0 when there is none.  While the sum is not negative and
    the durations stay below 2^52 in total, the average is the integer
    nearest to the exact quotient, the larger one on a tie. *)
Theorem stats_total_and_average (now : Z) (rows : list StatsRow)
    (Hdefined : Forall defined_duration rows)
    (Hbound : magnitude rows < 2 ^ 53) :
  let s := stats_of now (Some rows) in
  totalWorkouts s = Z.of_nat (List.length rows)
  /\ totalMinutes s = Js.of_integer (sum_durations rows)
  /\ Js.integer_value (totalMinutes s) = Some (sum_durations rows)
  /\ (rows <> [] ->
      avgDuration s
      = Math_round (totalMinutes s / Js.of_integer (totalWorkouts s))%float)
  /\ (rows = [] -> avgDuration s = 0%float)
  /\ (rows <> [] ->
      0 <= sum_durations rows ->
      magnitude rows < 2 ^ 52 ->
      totalWorkouts s < 2 ^ 53 ->
      exists n,
        avgDuration s = Js.of_integer n
        /\ Js.integer_value (avgDuration s) = Some n
        /\ 2 * totalWorkouts s * n
           <= 2 * sum_durations rows + totalWorkouts s
           < 2 * totalWorkouts s * (n + 1)).
Proof.
  intros s.
  pose proof (total_of_numbers now rows Hdefined Hbound) as Htotal. fold s in Htotal.
  pose proof (sum_within_magnitude rows) as Hsum.
  pose proof (average_of_numbers now rows Hdefined) as Havg. fold s in Havg.
  subst s. rewrite stats_of_rows in *.
  cbn [totalWorkouts totalMinutes avgDuration] in *.
  split; [reflexivity|]. split; [exact Htotal|]. split; [|split; [|split]].
  - rewrite Htotal. apply integer_value_of_integer. lia.
  - intros Hsome.
    destruct (Z.ltb_spec 0 (Z.of_nat (List.length rows))); [reflexivity|].
    destruct rows; [congruence | cbn [List.length] in *; lia].
  - intros ->. reflexivity.
  - intros Hsome Hpos Hsmall Hlen.
    assert (Hn : 0 < Z.of_nat (List.length rows))
      by (destruct rows; [congruence | cbn [List.length]; lia]).
    specialize (Havg Hpos Hsmall ltac:(lia)).
    set (n := Z.of_nat (List.length rows)) in *.
    set (S := sum_durations rows) in *.
    pose proof (Z.mul_div_le (2 * S + n) (2 * n) ltac:(lia)) as H1.
    pose proof (Z.mul_succ_div_gt (2 * S + n) (2 * n) ltac:(lia)) as H2.
    exists ((2 * S + n) / (2 * n)).
    split; [exact Havg|]. split; [|lia].
    rewrite Havg. apply integer_value_of_integer.
    assert (H0 : 0 <= (2 * S + n) / (2 * n)) by (apply Z.div_pos; lia).
    assert (H3 : (2 * S + n) / (2 * n) <= S + 1) by nia.
    change (2 ^ 53) with (2 * 2 ^ 52) in *. lia.
Qed.

Lemma countSince_rows (cutoff : TimeValue) (rows : list StatsRow) :
  countSince cutoff (Some rows) = count_on_or_after cutoff rows.
Proof.
  unfold Home.countSince. cbn [option_map]. rewrite or_zero_id.
  induction rows as [|w rows IH]; [reflexivity|].
  cbn [filter count_on_or_after]. unfold Home.in_window at 1, JsDate.ge.
  destruct (of_value parse_other (Supabase.date w)) as [t|]; [|exact IH].
  destruct cutoff as [c|]; [|exact IH].
  destruct (c <=? t); [|exact IH].
  cbn [List.length]. rewrite <- IH. lia.
Qed.

Lemma oneWeekAgo_value (now : Z) :
  oneWeekAgo now =
  TimeClip (UTC LocalTZA (LocalTime LocalTZA now - 7 * msPerDay)).
Proof.
  unfold Home.oneWeekAgo, setDate, getDate. cbn [option_map].
  now rewrite seven_days_back.
Qed.


(** C7. A later cutoff never counts more rows than an earlier one. *)
Theorem countSince_monotone (c1 c2 : Z) (rows : list StatsRow) (Hle : c1 <= c2) :
  countSince (Some c2) (Some rows) <= countSince (Some c1) (Some rows).
Proof.
  rewrite !countSince_rows.
  induction rows as [|w rows IH]; [reflexivity|].
  cbn [count_on_or_after].
  destruct (of_value parse_other (Supabase.date w)) as [t|]; [|exact IH].
  destruct (Z.leb_spec c2 t), (Z.leb_spec c1 t); lia.
Qed.

(** The state after a load whose two fetches succeed. *)
Lemma loadDashboardData_success (now : Z) (st : State) (w : World) :
  hd false (faults (remote w)) = false ->
  hd false (tl (faults (remote w))) = false ->
  fst (loadDashboardData LocalTZA parse_other now st w) =
  {| Home.workouts := recent_workouts 6 (db (remote w));
     stats := stats_of now (Some (workout_stats (db (remote w))));
     loading := false |}.
Proof.
  intros H1 H2.
  unfold loadDashboardData, fetch_recent_workouts, fetch_workout_stats, send,
    with_remote.
  cbn.
  destruct (faults (remote w)) as [|[|] [|[|] fs]]; cbn in *;
    try discriminate; reflexivity.
Qed.

Lemma cards_show_zero (st : State) :
  Forall (fun c => exerciseCount c = 0) (cards_of (recent st)).
Proof.
  unfold recent.
  destruct (loading st); [constructor|].
  destruct (List.length (Home.workouts st) =? 0)%nat; [constructor|].
  cbn [cards_of]. apply Forall_forall. intros c Hc.
  apply in_map_iff in Hc as (workout & <- & _). reflexivity.
Qed.

(** C9. After the dashboard has loaded, every card of the recent-workouts
    list is given the exercise count 0, whatever rows [workout_exercises]
    holds; loading sends the two [workouts] queries only, never the count
    query of [getExerciseCount]. *)
Theorem recent_cards_exerciseCount_zero (now : Z) (st : State) (w : World) :
  let out := loadDashboardData LocalTZA parse_other now st w in
  Forall (fun c => exerciseCount c = 0) (cards_of (recent (fst out)))
  /\ (forall rows,
        fst (loadDashboardData LocalTZA parse_other now st (with_workout_exercises rows w))
        = fst out)
  /\ (exists sent,
        log (remote (snd out)) = log (remote w) ++ sent
        /\ (sent = [select_recent_workouts 6]
            \/ sent = [select_recent_workouts 6; select_workout_stats])
        /\ forall workoutId, ~ In (select_exercise_ids workoutId) sent)
  /\ (forall workoutId,
        log (remote (snd (getExerciseCount workoutId w)))
        = log (remote w) ++ [select_exercise_ids workoutId]).
Proof.
  intros out. subst out.
  split; [apply cards_show_zero|].
  split; [|split].
  - intros rows.
    unfold loadDashboardData, fetch_recent_workouts, fetch_workout_stats, send,
      with_workout_exercises, with_remote.
    cbn.
    destruct (faults (remote w)) as [|[|] [|[|] fs]]; reflexivity.
  - unfold loadDashboardData, fetch_recent_workouts, fetch_workout_stats, send,
      with_remote.
    cbn.
    destruct (faults (remote w)) as [|[|] [|[|] fs]]; cbn.
    all: first
      [ exists [select_recent_workouts 6]; split;
        [reflexivity | split; [left; reflexivity|]]
      | exists [select_recent_workouts 6; select_workout_stats]; split;
        [now rewrite <- app_assoc | split; [right; reflexivity|]] ].
    all: intros workoutId Hin; cbn in Hin;
      repeat (destruct Hin as [Hin|Hin]; [discriminate|]); exact Hin.
  - intros workoutId. reflexivity.
Qed.

End Host.

Import Samples.

Example null_duration_counts_as_zero :
  totalMinutes
    (Home.stats_of utc dates_only monday
       (Some [stats_row (Js.present 30) "2024-01-05"; stats_row Js.null "2024-01-06";
              stats_row (Js.present 45) "2024-01-07"]))
  = 75%float.
Proof. reflexivity. Qed.

Example average_tie_goes_up :
  avgDuration
    (Home.stats_of utc dates_only monday
       (Some [stats_row (Js.present 1) "2024-01-05";
              stats_row (Js.present 2) "2024-01-06"]))
  = 2%float.
Proof. reflexivity. Qed.

(** The quotient is rounded to binary64 before [Math.round] sees it:
    5629499534213122 / 5 is 1125899906842624.4, the nearest number is
    1125899906842624.5, and the average shown is 1125899906842625. *)
Example average_of_the_binary64_quotient :
  avgDuration
    (Home.stats_of utc dates_only monday
       (Some [stats_row (Js.present 5629499534213122) "2024-01-05";
              stats_row (Js.present 0) "2024-01-06";
              stats_row (Js.present 0) "2024-01-06";
              stats_row (Js.present 0) "2024-01-06";
              stats_row (Js.present 0) "2024-01-06"]))
  = 1125899906842625%float.
Proof. reflexivity. Qed.

(** From 2^53 on the additions round: 9007199254740992 + 1 is
    9007199254740992. *)
Example total_beyond_2_53_is_rounded :
  totalMinutes
    (Home.stats_of utc dates_only monday
       (Some [stats_row (Js.present 9007199254740992) "2024-01-05";
              stats_row (Js.present 1) "2024-01-06"]))
  = 9007199254740992%float.
Proof. reflexivity. Qed.

Example no_rows_all_zero :
  Home.stats_of utc dates_only monday (Some []) =
  {| totalWorkouts := 0; thisWeekWorkouts := 0;
     totalMinutes := 0%float; avgDuration := 0%float |}.
Proof. reflexivity. Qed.

(** Every row that the statistics query returns carries a duration. *)
Lemma fetched_rows_carry_a_duration (d : Database) :
  Forall defined_duration (workout_stats d).
Proof.
  unfold workout_stats. apply Forall_forall. intros w Hw.
  apply in_map_iff in Hw as (x & <- & _). discriminate.
Qed.

Lemma stats_total_and_average_witness :
  let rows := [stats_row (Js.present 31) "2024-01-05"; stats_row Js.null "2024-01-06";
               stats_row (Js.present 45) "2024-01-07"] in
  let s := Home.stats_of utc dates_only monday (Some rows) in
  totalWorkouts s = 3
  /\ totalMinutes s = 76%float
  /\ Js.integer_value (totalMinutes s) = Some 76
  /\ (rows <> [] -> avgDuration s = Math_round (76 / 3)%float)
  /\ (rows = [] -> avgDuration s = 0%float)
  /\ (rows <> [] -> 0 <= sum_durations rows -> magnitude rows < 2 ^ 52 ->
      totalWorkouts s < 2 ^ 53 ->
      exists n,
        avgDuration s = Js.of_integer n
        /\ Js.integer_value (avgDuration s) = Some n
        /\ 2 * 3 * n <= 2 * 76 + 3 < 2 * 3 * (n + 1)).
Proof.
  apply (stats_total_and_average utc dates_only monday
           [stats_row (Js.present 31) "2024-01-05"; stats_row Js.null "2024-01-06";
            stats_row (Js.present 45) "2024-01-07"]).
  - repeat constructor; discriminate.
  - reflexivity.
Defined.

Example average_of_the_sample_rows :
  avgDuration
    (Home.stats_of utc dates_only monday
       (Some [stats_row (Js.present 31) "2024-01-05"; stats_row Js.null "2024-01-06";
              stats_row (Js.present 45) "2024-01-07"]))
  = 25%float.
Proof. reflexivity. Qed.

(** At midnight the row dated seven days earlier sits on the cutoff and is
    counted; one millisecond later it is not. *)
Example row_on_the_cutoff :
  Home.oneWeekAgo utc monday = Some 1704067200000
  /\ thisWeekWorkouts
       (Home.stats_of utc dates_only monday (Some [stats_row (Js.present 45) "2024-01-01"]))
     = 1.
Proof. split; reflexivity. Qed.

Example row_before_the_cutoff :
  Home.oneWeekAgo utc (monday + 1) = Some 1704067200001
  /\ thisWeekWorkouts
       (Home.stats_of utc dates_only (monday + 1)
          (Some [stats_row (Js.present 45) "2024-01-01"]))
     = 0.
Proof. split; reflexivity. Qed.



Lemma countSince_monotone_witness :
  Home.countSince dates_only (Some 1704153600000)
    (Some [stats_row Js.null "2024-01-01"; stats_row Js.null "2024-01-02";
           stats_row Js.null "2024-01-03"])
  <= Home.countSince dates_only (Some 1704067200000)
       (Some [stats_row Js.null "2024-01-01"; stats_row Js.null "2024-01-02";
              stats_row Js.null "2024-01-03"]).
Proof.
  apply countSince_monotone. lia.
Defined.

(** The store holds two exercises for the workout; its card shows 0. *)
Example card_of_push_day :
  cards_of (recent (fst (loadDashboardData utc dates_only monday Home.initial (online gym))))
  = [ {| name := "Push day"; Home.date := "2024-01-05"; duration := 45;
         exerciseCount := 0; onClick := "/workouts/w1" |} ]
  /\ fst (getExerciseCount "w1" (online gym)) = 2.
Proof. split; reflexivity. Qed.

End HomeFacts.

(** ** Properties of the workout page *)

Module WorkoutDetailFacts.
Import Supabase WorkoutDetail.

Lemma length_insert_sorted (A : Type) (le : A -> A -> bool) (x : A) (l : list A) :
  List.length (insert_sorted le x l) = S (List.length l).
Proof.
  induction l as [|y l IH]; simpl; [reflexivity|].
  destruct (le x y); simpl; congruence.
Qed.

Lemma length_order_by (A : Type) (le : A -> A -> bool) (l : list A) :
  List.length (order_by le l) = List.length l.
Proof.
  induction l as [|x l IH]; simpl; [reflexivity|].
  now rewrite length_insert_sorted, IH.
Qed.

Lemma length_exercises_of_workout (id : string) (d : Database) :
  List.length (exercises_of_workout id d) = List.length (rows_of_workout id d).
Proof.
  unfold exercises_of_workout. now rewrite length_map, length_order_by.
Qed.

(** The outcome of a load whose two fetches succeed. *)
Lemma loadWorkoutData_success (st : State) (w : World) (found : option Workout.t) :
  hd false (faults (remote w)) = false ->
  hd false (tl (faults (remote w))) = false ->
  maybeSingle (workouts_with_id (workoutId st) (db (remote w))) = Success found ->
  fst (loadWorkoutData st w) =
    setLoading false
      (setWorkoutExercises (exercises_of_workout (workoutId st) (db (remote w)))
         (setWorkout found (setLoading true st)))
  /\ toasts (snd (loadWorkoutData st w)) = toasts w
  /\ console (snd (loadWorkoutData st w)) = console w.
Proof.
  intros H1 H2 Hfound.
  unfold loadWorkoutData, fetch_workout, fetch_workout_exercises, send, with_remote.
  cbn.
  destruct (faults (remote w)) as [|[|] [|[|] fs]]; cbn in *;
    try discriminate; rewrite Hfound; cbn; auto.
Qed.

Lemma fetch_workout_success (id : string) (r : Remote) (found : option Workout.t) :
  fst (fetch_workout id r) = Success found ->
  hd false (faults r) = false
  /\ maybeSingle (workouts_with_id id (db r)) = Success found
  /\ db (snd (fetch_workout id r)) = db r
  /\ faults (snd (fetch_workout id r)) = tl (faults r).
Proof.
  unfold fetch_workout, send. cbn.
  destruct (faults r) as [|[|] fs]; cbn; intros H; try discriminate; auto.
Qed.

Lemma fetch_workout_exercises_success (id : string) (r : Remote) (rows : list Joined) :
  fst (fetch_workout_exercises id r) = Success rows ->
  hd false (faults r) = false /\ rows = exercises_of_workout id (db r).
Proof.
  unfold fetch_workout_exercises, send. cbn.
  destruct (faults r) as [|[|] fs]; cbn; intros H; try discriminate;
    injection H as <-; auto.
Qed.

(** The request that [handleAddExercise] sends first. *)
Lemma handleAddExercise_sends (exercise : Exercise.t) (details : Details)
    (st : State) (w : World) :
  exists more,
    log (remote (snd (handleAddExercise exercise details st w))) =
    log (remote w)
    ++ insert_workout_exercise
         {| new_workout_id := workoutId st;
            new_exercise_id := Exercise.id exercise;
            new_sets := sets details;
            new_reps := reps details;
            new_weight := weight details;
            new_order_index := Z.of_nat (List.length (workoutExercises st)) |}
       :: more.
Proof.
  unfold handleAddExercise, insert_exercise, loadWorkoutData, fetch_workout,
    fetch_workout_exercises, send, with_remote, caught, toast, console_error.
  cbn.
  destruct (faults (remote w)) as [|[|] fs]; cbn.
  2: { exists []. reflexivity. }
  all: match goal with
       | |- context [maybeSingle ?l] => destruct (maybeSingle l)
       end; cbn.
  all: try (destruct fs as [|[|] [|[|] fs']]; cbn).
  all: rewrite <- ?app_assoc; cbn; eexists; reflexivity.
Qed.

(** C6. The [order_index] of the row that an add-exercise action sends is
    the length of the displayed exercise list, which is the number of
    [workout_exercises] rows of the workout that the preceding fetch read. *)
Theorem order_index_is_fetched_count
    (st0 : State) (w1 : World) (found : option Workout.t) (fetched : list Joined)
    (Hworkout : fst (fetch_workout (workoutId st0) (remote w1)) = Success found)
    (Hexercises :
       fst (fetch_workout_exercises (workoutId st0)
              (snd (fetch_workout (workoutId st0) (remote w1))))
       = Success fetched)
    (exercise : Exercise.t) (details : Details) (w2 : World) :
  let st1 := fst (loadWorkoutData st0 w1) in
  exists sent more,
    log (remote (snd (handleAddExercise exercise details st1 w2)))
      = log (remote w2) ++ insert_workout_exercise sent :: more
    /\ new_workout_id sent = workoutId st0
    /\ new_order_index sent = Z.of_nat (List.length (workoutExercises st1))
    /\ workoutExercises st1 = fetched
    /\ List.length fetched
       = List.length (rows_of_workout (workoutId st0) (db (remote w1))).
Proof.
  intros st1.
  destruct (fetch_workout_success _ _ _ Hworkout) as (Hf1 & Hsingle & Hdb & Hfs).
  destruct (fetch_workout_exercises_success _ _ _ Hexercises) as (Hf2 & ->).
  rewrite Hfs in Hf2. rewrite Hdb.
  destruct (loadWorkoutData_success st0 w1 found Hf1 Hf2 Hsingle) as (Hst & _).
  destruct (handleAddExercise_sends exercise details st1 w2) as (more & Hlog).
  eexists. exists more. split; [exact Hlog|].
  subst st1. rewrite Hst. cbn.
  repeat split. apply length_exercises_of_workout.
Qed.

(** C8. When the fetch of the workout returns no row, the page shows
    "Workout not found"; the absence itself raises no notification and
    writes nothing to the console. *)
Theorem absent_workout_renders_not_found (st : State) (w : World)
    (Habsent : fst (fetch_workout (workoutId st) (remote w)) = Success None) :
  let out := loadWorkoutData st w in
  workout (fst out) = None
  /\ render (fst out) = Placeholder "Workout not found"
  /\ (hd false (tl (faults (remote w))) = false ->
      toasts (snd out) = toasts w /\ console (snd out) = console w).
Proof.
  intros out. subst out.
  destruct (fetch_workout_success _ _ _ Habsent) as (Hf1 & Hsingle & _ & _).
  assert (Hst : workout (fst (loadWorkoutData st w)) = None
                /\ loading (fst (loadWorkoutData st w)) = false).
  { unfold loadWorkoutData, fetch_workout, fetch_workout_exercises, send, with_remote.
    cbn.
    destruct (faults (remote w)) as [|[|] [|[|] fs]]; cbn in *;
      try discriminate; rewrite Hsingle; cbn; auto. }
  destruct Hst as [Hnone Hloaded].
  split; [exact Hnone|]. split.
  - unfold render. now rewrite Hloaded, Hnone.
  - intros Hf2. now apply (loadWorkoutData_success st w None).
Qed.

Import Samples.

Example add_to_push_day :
  log (remote (snd (handleAddExercise bench_press three_by_ten
                      (fst (loadWorkoutData (initial "w1") (online gym)))
                      (online gym))))
  = [ insert_workout_exercise
        {| new_workout_id := "w1"; new_exercise_id := "e1"; new_sets := 3;
           new_reps := 10; new_weight := 135%float; new_order_index := 2 |};
      select_workout "w1";
      select_workout_exercises "w1" ].
Proof. reflexivity. Qed.

Lemma order_index_is_fetched_count_witness :
  exists sent more,
    log (remote (snd (handleAddExercise bench_press three_by_ten
                        (fst (loadWorkoutData (initial "w1") (online gym)))
                        (online gym))))
      = log (remote (online gym)) ++ insert_workout_exercise sent :: more
    /\ new_workout_id sent = "w1"
    /\ new_order_index sent
       = Z.of_nat (List.length
                     (workoutExercises
                        (fst (loadWorkoutData (initial "w1") (online gym)))))
    /\ workoutExercises (fst (loadWorkoutData (initial "w1") (online gym)))
       = exercises_of_workout "w1" gym
    /\ List.length (exercises_of_workout "w1" gym)
       = List.length (rows_of_workout "w1" gym).
Proof.
  exact (order_index_is_fetched_count (initial "w1") (online gym)
           (Some push_day) (exercises_of_workout "w1" gym) eq_refl eq_refl
           bench_press three_by_ten (online gym)).
Defined.

Lemma absent_workout_renders_not_found_witness :
  workout (fst (loadWorkoutData (initial "w9") (online gym))) = None
  /\ render (fst (loadWorkoutData (initial "w9") (online gym)))
     = Placeholder "Workout not found"
  /\ (hd false (tl (faults (remote (online gym)))) = false ->
      toasts (snd (loadWorkoutData (initial "w9") (online gym))) = []
      /\ console (snd (loadWorkoutData (initial "w9") (online gym))) = []).
Proof.
  exact (absent_workout_renders_not_found (initial "w9") (online gym) eq_refl).
Defined.

End WorkoutDetailFacts.

(** ** The default of the date fields *)

Module JsDateStringFacts.
Import JsDate JsDateFacts JsDateString.


Lemma digit_range (d : Z) :
  0 <= d <= 9 ->
  d = 0 \/ d = 1 \/ d = 2 \/ d = 3 \/ d = 4 \/ d = 5 \/ d = 6 \/ d = 7 \/ d = 8 \/ d = 9.
Proof. lia. Qed.

Lemma digit_digit_char (d : Z) : 0 <= d <= 9 -> digit (digit_char d) = Some d.
Proof.
  intros H. apply digit_range in H.
  repeat (destruct H as [H|H]); subst d; reflexivity.
Qed.

Lemma digit_char_not_T (d : Z) : 0 <= d <= 9 -> Ascii.eqb (digit_char d) "T" = false.
Proof.
  intros H. apply digit_range in H.
  repeat (destruct H as [H|H]); subst d; reflexivity.
Qed.

Lemma last_digit (n : Z) : 0 <= n mod 10 <= 9.
Proof. pose proof (Z.mod_pos_bound n 10 ltac:(lia)). lia. Qed.

Lemma before_digit (d : Z) (s : string) :
  0 <= d <= 9 -> before "T" (String (digit_char d) s) = String (digit_char d) (before "T" s).
Proof. intros H. cbn [before]. now rewrite digit_char_not_T. Qed.

Lemma today_in_four_digit_years (t : Z) :
  0 <= YearFromTime t <= 9999 ->
  today t =
  (pad4 (YearFromTime t) ++ "-" ++ pad2 (MonthFromTime t + 1) ++ "-"
   ++ pad2 (DateFromTime t))%string.
Proof.
  intros Hy. unfold today, toISOString.
  destruct (Z.leb_spec 0 (YearFromTime t)); [|lia].
  destruct (Z.leb_spec (YearFromTime t) 9999); [|lia].
  cbn [andb]. unfold pad4, pad3, pad2. cbn [append].
  repeat (rewrite before_digit by apply last_digit;
          try (change (before "T" (String "-" ?s)) with (String "-" (before "T" s)))).
  reflexivity.
Qed.

Lemma leap_agrees (t : Z) :
  InLeapYear t = (if DaysInYear (YearFromTime t) =? 366 then 1 else 0).
Proof. reflexivity. Qed.

Lemma DayWithinYear_range (t : Z) :
  0 <= DayWithinYear t < 365 + InLeapYear t.
Proof.
  pose proof (YearFromTime_days t) as H. rewrite DayFromYear_next in H.
  pose proof (DaysInYear_range (YearFromTime t)) as Hy.
  unfold DayWithinYear, InLeapYear.
  destruct (Z.eqb_spec (DaysInYear (YearFromTime t)) 366); lia.
Qed.

(** The calendar fields of a time value name its day. *)
Lemma MakeDay_fields (t : Z) :
  MakeDay (YearFromTime t) (MonthFromTime t) (DateFromTime t) = Day t.
Proof.
  pose proof (MonthFromTime_range t) as Hm.
  unfold MakeDay.
  rewrite (Z.div_small (MonthFromTime t) 12), (Z.mod_small (MonthFromTime t) 12) by lia.
  rewrite Z.add_0_r.
  unfold DateFromTime, DayWithinYear, InLeapYear. lia.
Qed.

Lemma leap_bit (t : Z) : InLeapYear t = 0 \/ InLeapYear t = 1.
Proof. unfold InLeapYear. destruct (_ =? _); auto. Qed.

Lemma month_bracket (t : Z) :
  month_start (MonthFromTime t) (InLeapYear t) <= DayWithinYear t
  < month_end (MonthFromTime t) (InLeapYear t).
Proof.
  pose proof (DayWithinYear_range t) as Hd.
  pose proof (leap_bit t) as Hl.
  unfold MonthFromTime.
  set (d := DayWithinYear t) in *. set (leap := InLeapYear t) in *.
  clearbody d leap. unfold month_end.
  destruct Hl; subst leap; split_ifs; cbn; lia.
Qed.

Lemma DaysInMonth_value (y m : Z) :
  0 <= m <= 11 ->
  let leap := if DaysInYear y =? 366 then 1 else 0 in
  DaysInMonth y m = month_end m leap - month_start m leap.
Proof.
  intros Hm leap. pose proof (DaysInYear_range y) as Hy.
  assert (Hc : m = 0 \/ m = 1 \/ m = 2 \/ m = 3 \/ m = 4 \/ m = 5 \/ m = 6
               \/ m = 7 \/ m = 8 \/ m = 9 \/ m = 10 \/ m = 11) by lia.
  unfold DaysInMonth, MakeDay, month_end. subst leap.
  repeat (destruct Hc as [Hc|Hc]); subst m; cbn; rewrite ?Z.add_0_r;
    rewrite ?DayFromYear_next;
    destruct (Z.eqb_spec (DaysInYear y) 366); lia.
Qed.

Lemma DateFromTime_range (t : Z) :
  1 <= DateFromTime t <= DaysInMonth (YearFromTime t) (MonthFromTime t).
Proof.
  pose proof (month_bracket t) as Hb.
  rewrite (DaysInMonth_value _ _ (MonthFromTime_range t)).
  rewrite <- leap_agrees. unfold DateFromTime. lia.
Qed.

Lemma pad2_number (n : Z) : 0 <= n <= 99 ->
  number2 (digit_char (n / 10 mod 10)) (digit_char (n mod 10)) = Some n.
Proof.
  intros H. unfold number2.
  rewrite !digit_digit_char by apply last_digit.
  f_equal. Z.div_mod_to_equations. lia.
Qed.

Lemma pad4_number (n : Z) : 0 <= n <= 9999 ->
  number4 (digit_char (n / 1000 mod 10)) (digit_char (n / 100 mod 10))
          (digit_char (n / 10 mod 10)) (digit_char (n mod 10)) = Some n.
Proof.
  intros H. unfold number4, number2.
  rewrite !digit_digit_char by apply last_digit.
  f_equal. Z.div_mod_to_equations. lia.
Qed.

Lemma DaysInMonth_range (y m : Z) : 0 <= m <= 11 -> 28 <= DaysInMonth y m <= 31.
Proof.
  intros Hm. rewrite DaysInMonth_value by assumption.
  assert (Hc : m = 0 \/ m = 1 \/ m = 2 \/ m = 3 \/ m = 4 \/ m = 5 \/ m = 6
               \/ m = 7 \/ m = 8 \/ m = 9 \/ m = 10 \/ m = 11) by lia.
  unfold month_end.
  repeat (destruct Hc as [Hc|Hc]); subst m; cbn;
    destruct (DaysInYear y =? 366); lia.
Qed.

Lemma today_parse_date_only (now : Z) :
  0 <= YearFromTime now <= 9999 ->
  parse_date_only (today now) = Some (Day now * msPerDay).
Proof.
  intros Hy.
  pose proof (MonthFromTime_range now) as Hm.
  pose proof (DateFromTime_range now) as Hd.
  pose proof (DaysInMonth_range (YearFromTime now) (MonthFromTime now) Hm) as Hdm.
  rewrite today_in_four_digit_years by assumption.
  unfold pad4, pad3, pad2. cbn [append].
  cbv beta iota delta [parse_date_only].
  rewrite pad4_number by lia.
  rewrite !pad2_number by lia.
  replace (MonthFromTime now + 1 - 1) with (MonthFromTime now) by lia.
  destruct (Z.leb_spec 1 (MonthFromTime now + 1)); [|lia].
  destruct (Z.leb_spec (MonthFromTime now + 1) 12); [|lia].
  destruct (Z.leb_spec 1 (DateFromTime now)); [|lia].
  destruct (Z.leb_spec (DateFromTime now)
              (DaysInMonth (YearFromTime now) (MonthFromTime now))); [|lia].
  cbn [andb]. rewrite MakeDay_fields. unfold MakeDate. f_equal. lia.
Qed.

Lemma fields_by_day (a b : Z) :
  Day a = Day b ->
  YearFromTime a = YearFromTime b
  /\ MonthFromTime a = MonthFromTime b
  /\ DateFromTime a = DateFromTime b.
Proof.
  intros H.
  assert (Hy : YearFromTime a = YearFromTime b) by (unfold YearFromTime; now rewrite H).
  assert (Hl : InLeapYear a = InLeapYear b) by (unfold InLeapYear; now rewrite Hy).
  assert (Hd : DayWithinYear a = DayWithinYear b)
    by (unfold DayWithinYear; now rewrite H, Hy).
  assert (Hm : MonthFromTime a = MonthFromTime b)
    by (unfold MonthFromTime; now rewrite Hd, Hl).
  repeat split; try assumption.
  unfold DateFromTime. now rewrite Hd, Hm, Hl.
Qed.

Lemma four_digit_year_bounds (t : Z) :
  0 <= YearFromTime t <= 9999 ->
  -62167219200000 <= Day t * msPerDay
  /\ Day t * msPerDay <= t < Day t * msPerDay + msPerDay
  /\ t < 253402300800000.
Proof.
  intros Hy.
  pose proof (YearFromTime_days t) as Hd.
  pose proof (DayFromYear_mono 0 (YearFromTime t) ltac:(lia)) as H0.
  pose proof (DayFromYear_mono (YearFromTime t + 1) 10000 ltac:(lia)) as H1.
  change (DayFromYear 0) with (-719528) in H0.
  change (DayFromYear 10000) with 2932897 in H1.
  unfold Day, msPerDay in *. Z.div_mod_to_equations. lia.
Qed.

Lemma TimeClip_in_range (t : Z) :
  -8640000000000000 <= t <= 8640000000000000 -> TimeClip t = Some t.
Proof.
  intros H. unfold TimeClip.
  destruct (Z.ltb_spec 8640000000000000 (Z.abs t)); [lia | reflexivity].
Qed.

Section Host.

Variable parse_other : string -> TimeValue.

Lemma parse_today (now : Z) :
  0 <= YearFromTime now <= 9999 ->
  parse parse_other (today now) = Some (Day now * msPerDay).
Proof.
  intros Hy. unfold parse. rewrite today_parse_date_only by assumption.
  apply TimeClip_in_range.
  pose proof (four_digit_year_bounds now Hy). lia.
Qed.

(** X1. The default of the date fields,
    [new Date().toISOString().split('T')[0]], is ten characters long and
    [new Date] reads it back as midnight UTC at the start of the current
    UTC day, which is at most one day before the instant it was made from. *)
Theorem today_reads_back (now : Z) (Hyear : 0 <= YearFromTime now <= 9999) :
  String.length (today now) = 10%nat
  /\ parse parse_other (today now) = Some (Day now * msPerDay)
  /\ Day now * msPerDay <= now < Day now * msPerDay + msPerDay.
Proof.
  split; [|split].
  - rewrite today_in_four_digit_years by assumption. reflexivity.
  - now apply parse_today.
  - apply (four_digit_year_bounds now Hyear).
Qed.

End Host.

Import Samples.

Example today_on_monday : today monday = "2024-01-08".
Proof. reflexivity. Qed.

Example today_late_in_the_day : today (monday + 86399999) = "2024-01-08".
Proof. reflexivity. Qed.

Example iso_string_of_the_last_instant :
  toISOString 8640000000000000 = "+275760-09-13T00:00:00.000Z".
Proof. reflexivity. Qed.

Lemma today_reads_back_witness :
  String.length (today (monday + 3600000)) = 10%nat
  /\ parse dates_only (today (monday + 3600000)) = Some monday
  /\ monday <= monday + 3600000 < monday + msPerDay.
Proof.
  apply (today_reads_back dates_only (monday + 3600000)).
  vm_compute. split; discriminate.
Defined.

End JsDateStringFacts.

(** ** Properties of the progress charts *)

Module ProgressChartFacts.
Import JsDate JsDateFacts JsDateString JsDateStringFacts JsIntl Progress ProgressFacts ProgressChart.

Lemma or_zero_zero (v : Js.nullable) :
  (or_zero v =? 0)%float = negb (Js.truthy v).
Proof.
  unfold or_zero. destruct (Js.truthy v) eqn:Hv; [|reflexivity].
  destruct (truthy_nonzero _ Hv) as (x & -> & Hx). exact Hx.
Qed.

Lemma or_zero_not_nan (v : Js.nullable) : is_nan (or_zero v) = false.
Proof.
  unfold or_zero. destruct v as [x|]; simpl; [|reflexivity].
  unfold Js.ToBoolean. destruct (x =? 0)%float; simpl; [reflexivity|].
  destruct (is_nan x) eqn:E; simpl; [reflexivity | exact E].
Qed.

Section Host.

Variable LocalTZA : Z -> bool -> Z.
Variable parse_other : string -> TimeValue.

Local Abbreviation chartData := (ProgressChart.chartData LocalTZA parse_other).

Lemma plotted_point (field : Field) (m : ProgressMetric.t) (p : Point) :
  In p (chartData [m]) -> plotted field p = or_zero (get field m).
Proof.
  intros [<-|[]]. destruct field; reflexivity.
Qed.

(** X2. The chart has one point per entry, in the same order: the point of
    an entry is plotted at the value of the field when that value is truthy
    and at 0 when it is [null], 0 or [NaN], and it is labelled with the date
    of the entry.  No plotted value is [NaN]; and the trend of a field is
    hidden ([getChange] returns [null]) exactly when there are fewer than
    two points or one of the last two points is plotted at zero. *)
Theorem trend_hidden_iff_plotted_zero (metrics : list ProgressMetric.t) (field : Field) :
  Forall2 (fun m p =>
             (Js.truthy (get field m) = true -> Some (plotted field p) = get field m)
             /\ (Js.truthy (get field m) = false -> plotted field p = 0%float)
             /\ ProgressChart.date p
                = month_and_day LocalTZA (parse parse_other (ProgressMetric.date m)))
          metrics (chartData metrics)
  /\ Forall (fun p => is_nan (plotted field p) = false) (chartData metrics)
  /\ (getChange metrics field = Done None <->
      (List.length (chartData metrics) < 2)%nat
      \/ (exists p, nth_error (rev (chartData metrics)) 0 = Some p
                    /\ (plotted field p =? 0)%float = true)
      \/ (exists p, nth_error (rev (chartData metrics)) 1 = Some p
                    /\ (plotted field p =? 0)%float = true)).
Proof.
  split.
  { unfold ProgressChart.chartData.
    induction metrics as [|m metrics IH]; cbn [map]; constructor; [|exact IH].
    assert (Hp : plotted field
                   {| ProgressChart.date :=
                        month_and_day LocalTZA (parse parse_other (ProgressMetric.date m));
                      ProgressChart.weight := or_zero (ProgressMetric.weight m);
                      bodyFat := or_zero (ProgressMetric.body_fat_percentage m) |}
                 = or_zero (get field m)) by (destruct field; reflexivity).
    rewrite Hp. unfold or_zero. repeat split.
    - intros Ht. rewrite Ht. destruct (get field m); [reflexivity | discriminate].
    - intros Hf. now rewrite Hf. }
  split.
  { apply Forall_forall. intros p Hp. apply in_map_iff in Hp as (m & <- & _).
    destruct field; apply or_zero_not_nan. }
  unfold ProgressChart.chartData. rewrite length_map.
  destruct (Nat.lt_ge_cases (List.length metrics) 2) as [Hlt|Hge].
  { split; [auto | intros _; now apply getChange_short]. }
  destruct (ends_with_two _ _ Hge) as (pre & p & x & ->).
  rewrite getChange_delta, map_app, rev_app_distr. cbn [map rev app nth_error].
  assert (Hx : forall m : ProgressMetric.t,
             (or_zero (get field m) =? 0)%float = true <-> Js.truthy (get field m) = false).
  { intros m. rewrite or_zero_zero. apply negb_true_iff. }
  split.
  - intros Hnone. right.
    destruct (delta_cases (get field x) (get field p))
      as [[[Hf|Hf] _]|(a & b & _ & _ & _ & Heq)].
    + left. eexists. split; [reflexivity|]. destruct field; now apply Hx.
    + right. eexists. split; [reflexivity|]. destruct field; now apply Hx.
    + rewrite Heq in Hnone. discriminate.
  - intros [Hlt|[(q & Hq & Hz)|(q & Hq & Hz)]].
    + rewrite length_app in Hlt. simpl in Hlt. lia.
    + injection Hq as <-. unfold delta.
      assert (Hf : Js.truthy (get field x) = false) by (destruct field; now apply Hx).
      now rewrite Hf.
    + injection Hq as <-. unfold delta.
      assert (Hf : Js.truthy (get field p) = false) by (destruct field; now apply Hx).
      rewrite Hf. now rewrite orb_true_r.
Qed.

End Host.

(** X3. [getLatestMetric] returns [null] for no entries and the last entry
    otherwise. *)
Theorem getLatestMetric_is_last (metrics : list ProgressMetric.t) :
  (metrics = [] -> getLatestMetric metrics = None)
  /\ (forall pre x, metrics = pre ++ [x] -> getLatestMetric metrics = Some x).
Proof.
  split.
  - intros ->. reflexivity.
  - intros pre x ->. unfold getLatestMetric, index.
    rewrite length_app. cbn [List.length].
    destruct (Nat.eqb_spec (List.length pre + 1) 0); [lia|].
    replace (Z.of_nat (List.length pre + 1) - 1) with (Z.of_nat (List.length pre)) by lia.
    destruct (Z.ltb_spec (Z.of_nat (List.length pre)) 0); [lia|].
    rewrite Nat2Z.id, nth_error_app2 by lia.
    now rewrite Nat.sub_diag.
Qed.

End ProgressChartFacts.

(** ** A workout saved today and the "This Week" card *)

Module DefaultDateFacts.
Import JsDate JsDateFacts JsDateString JsDateStringFacts JsIntl Supabase Home HomeFacts.

Section Host.

Variable LocalTZA : Z -> bool -> Z.
Variable parse_other : string -> TimeValue.

Lemma counted_row (cutoff : TimeValue) (w : StatsRow) (rows : list StatsRow) :
  In w rows ->
  in_window parse_other cutoff w = true ->
  1 <= countSince parse_other cutoff (Some rows).
Proof.
  intros Hin Hw. unfold countSince. cbn [option_map]. rewrite or_zero_id.
  assert (Hf : In w (filter (in_window parse_other cutoff) rows))
    by (apply filter_In; auto).
  destruct (filter (in_window parse_other cutoff) rows); [contradiction|].
  cbn [List.length]. lia.
Qed.

(** X4. A workout saved with the default date of the dialog is counted in
    "This Week" by a dashboard that loads within the next four days. *)
Theorem default_date_counts_this_week
    (saved loaded : Z) (w : StatsRow) (rows : list StatsRow)
    (Hyear : 0 <= YearFromTime saved <= 9999)
    (Hzone : forall t isUTC, - msPerDay <= LocalTZA t isUTC <= msPerDay)
    (Hlater : saved <= loaded <= saved + 4 * msPerDay)
    (Hrow : In w rows)
    (Hdate : Supabase.date w = Js.present (today saved)) :
  in_window parse_other (oneWeekAgo LocalTZA loaded) w = true
  /\ 1 <= thisWeekWorkouts (stats_of LocalTZA parse_other loaded (Some rows)).
Proof.
  pose proof (four_digit_year_bounds saved Hyear) as Hb.
  assert (Hw : in_window parse_other (oneWeekAgo LocalTZA loaded) w = true).
  { unfold in_window. rewrite Hdate. cbn [of_value].
    rewrite parse_today by assumption.
    rewrite oneWeekAgo_value.
    unfold UTC, LocalTime.
    pose proof (Hzone loaded true) as H1.
    pose proof (Hzone (loaded + LocalTZA loaded true - 7 * msPerDay) false) as H2.
    rewrite TimeClip_in_range by (unfold msPerDay in *; lia).
    cbn [JsDate.ge]. apply Z.leb_le. unfold msPerDay in *. lia. }
  split; [exact Hw|].
  rewrite stats_of_rows. cbn [thisWeekWorkouts].
  now apply counted_row with (w := w).
Qed.

End Host.

Import Samples.

Lemma default_date_counts_this_week_witness :
  Home.in_window dates_only (Home.oneWeekAgo utc (monday + 3 * msPerDay))
    (stats_row (Js.present 60) "2024-01-08") = true
  /\ 1 <= thisWeekWorkouts
            (Home.stats_of utc dates_only (monday + 3 * msPerDay)
               (Some [stats_row (Js.present 60) "2024-01-08"])).
Proof.
  apply (default_date_counts_this_week utc dates_only monday (monday + 3 * msPerDay)
           (stats_row (Js.present 60) "2024-01-08")
           [stats_row (Js.present 60) "2024-01-08"]).
  - vm_compute. split; discriminate.
  - intros t isUTC. vm_compute. split; discriminate.
  - vm_compute. split; discriminate.
  - left. reflexivity.
  - reflexivity.
Defined.

End DefaultDateFacts.

(** ** The date labels of the charts *)

Module ChartLabelFacts.
Import JsDate JsDateFacts JsDateString JsDateStringFacts JsIntl Progress ProgressChart.

Lemma Day_of_midnight (day off : Z) :
  0 <= off < msPerDay -> Day (day * msPerDay + off) = day.
Proof. intros H. unfold Day, msPerDay in *. Z.div_mod_to_equations. lia. Qed.

Lemma Day_before_midnight (day off : Z) :
  - msPerDay <= off < 0 -> Day (day * msPerDay + off) = day - 1.
Proof. intros H. unfold Day, msPerDay in *. Z.div_mod_to_equations. lia. Qed.

Lemma label_by_day (LocalTZA : Z -> bool -> Z) (t day : Z) :
  Day (LocalTime LocalTZA t) = day ->
  month_and_day LocalTZA (Some t) = day_label day.
Proof.
  intros H. unfold month_and_day, day_label.
  assert (Hd : Day (LocalTime LocalTZA t) = Day (day * msPerDay)).
  { rewrite H. symmetry. replace (day * msPerDay) with (day * msPerDay + 0) by lia.
    apply Day_of_midnight. unfold msPerDay. lia. }
  destruct (fields_by_day _ _ Hd) as (_ & -> & ->). reflexivity.
Qed.

Section Host.

Variable LocalTZA : Z -> bool -> Z.
Variable parse_other : string -> TimeValue.

(** X5. The chart labels an entry with the local day of the UTC midnight of
    its date: the same day on a host at or east of UTC, the day before on a
    host west of UTC. *)
Theorem chart_label_is_local_day (t0 : Z) (m : ProgressMetric.t)
    (Hyear : 0 <= YearFromTime t0 <= 9999)
    (Hdate : ProgressMetric.date m = today t0) :
  let offset := LocalTZA (Day t0 * msPerDay) true in
  (0 <= offset < msPerDay ->
   map ProgressChart.date (chartData LocalTZA parse_other [m]) = [day_label (Day t0)])
  /\ (- msPerDay <= offset < 0 ->
      map ProgressChart.date (chartData LocalTZA parse_other [m])
      = [day_label (Day t0 - 1)]).
Proof.
  intros offset. unfold chartData. cbn [map ProgressChart.date].
  rewrite Hdate, parse_today by assumption.
  split; intros Hoff; f_equal; apply label_by_day; unfold LocalTime; fold offset.
  - now apply Day_of_midnight.
  - now apply Day_before_midnight.
Qed.

End Host.

Import Samples.

Example january_first_in_new_york :
  map ProgressChart.date
      (chartData new_york_winter dates_only
                 [entry "2024-01-01" (Some 180%float) None])
  = ["Dec 31"].
Proof. reflexivity. Qed.

Lemma chart_label_is_local_day_witness :
  map ProgressChart.date
      (chartData new_york_winter dates_only
                 [entry "2024-01-01" (Some 180%float) None])
  = ["Dec 31"].
Proof.
  assert (Hyear : 0 <= YearFromTime 1704067200000 <= 9999)
    by (vm_compute; split; discriminate).
  destruct (chart_label_is_local_day new_york_winter dates_only 1704067200000
              (entry "2024-01-01" (Some 180%float) None) Hyear eq_refl) as [_ H].
  apply H. vm_compute. split; [discriminate | reflexivity].
Defined.

End ChartLabelFacts.

(** ** Properties of the statistics cards *)

Module HomeCardsFacts.
Import JsDate Supabase Home HomeFacts HomeCards JsIntegerFacts.

Lemma sum_between (lo hi : Z) (rows : list StatsRow) :
  Forall (duration_between lo hi) rows ->
  Forall defined_duration rows
  /\ Z.of_nat (List.length rows) * lo <= sum_durations rows
     <= Z.of_nat (List.length rows) * hi.
Proof.
  induction 1 as [|w rows (n & Hn & Hr) _ [IHd IHs]].
  - split; [constructor | simpl; lia].
  - split.
    + constructor; [|assumption]. unfold defined_duration. rewrite Hn. discriminate.
    + cbn [sum_durations List.length]. rewrite Hn. lia.
Qed.

Section Host.

Variable LocalTZA : Z -> bool -> Z.
Variable parse_other : string -> TimeValue.

Local Abbreviation stats_of := (Home.stats_of LocalTZA parse_other).

(** X6. With durations that are numbers, not negative and below 2^53 in
    total, the hours and the minutes of the "Total Time" card are integers
    that add up to the total: 60 h + m is the sum of the durations,
    0 <= m < 60 and 0 <= h. *)
Theorem total_time_adds_up (now : Z) (rows : list StatsRow) (hi : Z)
    (Hrows : Forall (duration_between 0 hi) rows)
    (Hbound : magnitude rows < 2 ^ 53) :
  let s := stats_of now (Some rows) in
  exists h m,
    Js.integer_value (hours s) = Some h
    /\ Js.integer_value (minutes s) = Some m
    /\ 60 * h + m = sum_durations rows
    /\ 0 <= m < 60
    /\ 0 <= h.
Proof.
  intros s.
  destruct (sum_between 0 hi rows Hrows) as [Hd Hs].
  pose proof (total_of_numbers LocalTZA parse_other now rows Hd Hbound) as Htotal.
  fold s in Htotal.
  pose proof (sum_within_magnitude rows) as Hmag.
  set (S := sum_durations rows) in *.
  assert (HS : 0 <= S < 2 ^ 53) by lia.
  pose proof (Z.div_mod S 60 ltac:(lia)) as Hdm.
  pose proof (Z.mod_pos_bound S 60 ltac:(lia)) as Hmod.
  assert (Hh : 0 <= S / 60) by (apply Z.div_pos; lia).
  exists (S / 60), (S mod 60). unfold hours, minutes. rewrite Htotal.
  change 60%float with (Js.of_integer 60).
  rewrite Math_floor_sixtieth by exact HS.
  rewrite remainder_of_integers
    by (try exact HS; change (2 ^ 53) with 9007199254740992; lia).
  split; [apply integer_value_of_integer; lia|].
  split; [apply integer_value_of_integer; lia|].
  repeat split; lia.
Qed.

(** X7. For every fetched list, on every host and at every time:
    0 <= thisWeekWorkouts <= totalWorkouts. *)
Theorem this_week_at_most_total (now : Z) (allWorkouts : option (list StatsRow)) :
  let s := stats_of now allWorkouts in
  0 <= thisWeekWorkouts s <= totalWorkouts s.
Proof.
  destruct allWorkouts as [rows|]; [|cbn; lia].
  cbn zeta. rewrite stats_of_rows. cbn [thisWeekWorkouts totalWorkouts].
  unfold countSince. cbn [option_map]. rewrite or_zero_id.
  pose proof (filter_length_le (in_window parse_other (oneWeekAgo LocalTZA now)) rows).
  lia.
Qed.

(** X8. When there is at least one row, every duration is a number between
    [lo] and [hi] with [lo] not negative, and the durations stay below 2^52
    in total, the average shown is an integer between [lo] and [hi]. *)
Theorem average_within_range (now : Z) (rows : list StatsRow) (lo hi : Z)
    (Hsome : rows <> [])
    (Hlo : 0 <= lo)
    (Hrows : Forall (duration_between lo hi) rows)
    (Hbound : magnitude rows < 2 ^ 52)
    (Hlength : Z.of_nat (List.length rows) < 2 ^ 53) :
  exists n,
    avgDuration (stats_of now (Some rows)) = Js.of_integer n
    /\ Js.integer_value (avgDuration (stats_of now (Some rows))) = Some n
    /\ lo <= n <= hi.
Proof.
  destruct (sum_between lo hi rows Hrows) as [Hd Hs].
  assert (Hn : 0 < Z.of_nat (List.length rows))
    by (destruct rows; [congruence | cbn [List.length]; lia]).
  assert (Hpos : 0 <= sum_durations rows) by nia.
  pose proof (average_of_numbers LocalTZA parse_other now rows Hd Hpos Hbound
                ltac:(lia)) as Havg.
  pose proof (sum_within_magnitude rows) as Hmag.
  set (n := Z.of_nat (List.length rows)) in *.
  set (S := sum_durations rows) in *.
  pose proof (Z.mul_div_le (2 * S + n) (2 * n) ltac:(lia)) as H1.
  pose proof (Z.mul_succ_div_gt (2 * S + n) (2 * n) ltac:(lia)) as H2.
  exists ((2 * S + n) / (2 * n)).
  assert (Hrange : lo <= (2 * S + n) / (2 * n) <= hi) by nia.
  split; [exact Havg|]. split; [|exact Hrange].
  rewrite Havg. apply integer_value_of_integer.
  assert (H3 : (2 * S + n) / (2 * n) <= S + 1) by nia.
  change (2 ^ 53) with (2 * 2 ^ 52) in *. lia.
Qed.

End Host.

Import Samples.

Example total_time_of_sample_rows :
  let s := Home.stats_of utc dates_only monday
             (Some [stats_row (Js.present 45) "2024-01-05";
                    stats_row (Js.present 60) "2024-01-06"]) in
  hours s = 1%float /\ minutes s = 45%float /\ avgDuration s = 53%float.
Proof. repeat split. Qed.

Lemma total_time_adds_up_witness :
  let rows := [stats_row (Js.present 45) "2024-01-05";
               stats_row (Js.present 60) "2024-01-06"] in
  let s := Home.stats_of utc dates_only monday (Some rows) in
  exists h m,
    Js.integer_value (hours s) = Some h
    /\ Js.integer_value (minutes s) = Some m
    /\ 60 * h + m = 105
    /\ 0 <= m < 60
    /\ 0 <= h.
Proof.
  apply (total_time_adds_up utc dates_only monday
           [stats_row (Js.present 45) "2024-01-05";
            stats_row (Js.present 60) "2024-01-06"] 60).
  - apply Forall_cons; [exists 45; split; [reflexivity | lia]|].
    apply Forall_cons; [exists 60; split; [reflexivity | lia]|].
    apply Forall_nil.
  - reflexivity.
Defined.

Lemma average_within_range_witness :
  exists n,
    avgDuration
      (Home.stats_of utc dates_only monday
         (Some [stats_row (Js.present 45) "2024-01-05";
                stats_row (Js.present 60) "2024-01-06"])) = Js.of_integer n
    /\ Js.integer_value
         (avgDuration
            (Home.stats_of utc dates_only monday
               (Some [stats_row (Js.present 45) "2024-01-05";
                      stats_row (Js.present 60) "2024-01-06"]))) = Some n
    /\ 45 <= n <= 60.
Proof.
  apply (average_within_range utc dates_only monday
           [stats_row (Js.present 45) "2024-01-05";
            stats_row (Js.present 60) "2024-01-06"] 45 60).
  - discriminate.
  - lia.
  - apply Forall_cons; [exists 45; split; [reflexivity | lia]|].
    apply Forall_cons; [exists 60; split; [reflexivity | lia]|].
    apply Forall_nil.
  - reflexivity.
  - reflexivity.
Defined.

End HomeCardsFacts.

(** ** Loading the dashboard *)

Module HomeLoadFacts.
Import JsDate Supabase Home HomeFacts WorkoutTotals WorkoutDetailFacts.

Lemma stats_rows_defined (d : Database) :
  Forall defined_duration (workout_stats d)
  /\ sum_durations (workout_stats d) = stored_minutes (Supabase.workouts d)
  /\ magnitude (workout_stats d) = stored_magnitude (Supabase.workouts d).
Proof.
  unfold workout_stats.
  induction (Supabase.workouts d) as [|w ws (IH1 & IH2 & IH3)]; cbn.
  - split; [constructor | split; reflexivity].
  - split; [constructor; [discriminate | exact IH1] | now rewrite IH2, IH3].
Qed.

Section Host.

Variable LocalTZA : Z -> bool -> Z.
Variable parse_other : string -> TimeValue.

Local Abbreviation loadDashboardData := (Home.loadDashboardData LocalTZA parse_other).

(** X9. A load of the dashboard always ends with [loading] false and never
    shows a notification.  When the first query fails, the list and the
    statistics stay as they were; when only the statistics query fails, the
    list is replaced and the statistics stay as they were; each failure
    writes one line to the console. *)
Theorem dashboard_load_failures (now : Z) (st : State) (w : World) :
  let out := loadDashboardData now st w in
  loading (fst out) = false
  /\ toasts (snd out) = toasts w
  /\ (hd false (faults (remote w)) = true ->
      Home.workouts (fst out) = Home.workouts st
      /\ stats (fst out) = stats st
      /\ List.length (console (snd out)) = S (List.length (console w))
      /\ log (remote (snd out)) = log (remote w) ++ [select_recent_workouts 6])
  /\ (hd false (faults (remote w)) = false ->
      hd false (tl (faults (remote w))) = true ->
      Home.workouts (fst out) = recent_workouts 6 (db (remote w))
      /\ stats (fst out) = stats st
      /\ List.length (console (snd out)) = S (List.length (console w))).
Proof.
  intros out. subst out.
  unfold Home.loadDashboardData, fetch_recent_workouts, fetch_workout_stats, send,
    with_remote, console_error.
  cbn.
  destruct (faults (remote w)) as [|[|] [|[|] fs]]; cbn;
    repeat split; try discriminate; try reflexivity;
    intros; try discriminate; repeat split; try reflexivity;
    rewrite ?length_app; cbn; lia.
Qed.

(** X10. When both queries succeed and the stored durations stay below 2^53
    in total, the dashboard shows the number of stored workouts, the number
    equal to the sum of their stored minutes, and one card for each of at
    most six of them; the store is left as it was. *)
Theorem dashboard_reflects_store (now : Z) (st : State) (w : World)
    (Hfirst : hd false (faults (remote w)) = false)
    (Hsecond : hd false (tl (faults (remote w))) = false)
    (Hbound : stored_magnitude (Supabase.workouts (db (remote w))) < 2 ^ 53) :
  let st' := fst (loadDashboardData now st w) in
  let stored := Supabase.workouts (db (remote w)) in
  totalWorkouts (stats st') = Z.of_nat (List.length stored)
  /\ Js.integer_value (totalMinutes (stats st')) = Some (stored_minutes stored)
  /\ List.length (cards_of (recent st')) = Nat.min 6 (List.length stored)
  /\ db (remote (snd (loadDashboardData now st w))) = db (remote w).
Proof.
  intros st' stored. subst st'.
  rewrite (loadDashboardData_success LocalTZA parse_other now st w Hfirst Hsecond).
  cbn [stats Home.workouts].
  destruct (stats_rows_defined (db (remote w))) as (Hd & Hs & Hm).
  split; [|split; [|split]].
  - rewrite stats_of_rows. cbn [totalWorkouts]. unfold workout_stats.
    now rewrite length_map.
  - rewrite total_of_numbers by (rewrite ?Hm; assumption).
    rewrite Hs. apply JsIntegerFacts.integer_value_of_integer.
    pose proof (sum_within_magnitude (workout_stats (db (remote w)))) as Hb.
    rewrite Hs, Hm in Hb. subst stored. lia.
  - unfold recent. cbn [loading Home.workouts].
    assert (Hlen : List.length (recent_workouts 6 (db (remote w)))
                   = Nat.min 6 (List.length stored)).
    { unfold recent_workouts. now rewrite length_firstn, length_order_by. }
    destruct (Nat.eqb_spec (List.length (recent_workouts 6 (db (remote w)))) 0) as [E|E].
    + cbn [cards_of List.length]. lia.
    + cbn [cards_of]. now rewrite length_map.
  - unfold Home.loadDashboardData, fetch_recent_workouts, fetch_workout_stats, send,
      with_remote.
    cbn. destruct (faults (remote w)) as [|[|] [|[|] fs]]; cbn in *;
      try discriminate; reflexivity.
Qed.

End Host.

(** X11. [getExerciseCount] returns the number of exercises stored for the
    workout when its query succeeds and 0 when it fails, without a
    notification, and leaves the store as it was. *)
Theorem getExerciseCount_counts_or_zero (workoutId : string) (w : World) :
  let out := getExerciseCount workoutId w in
  (hd false (faults (remote w)) = false ->
   fst out = Z.of_nat (List.length (rows_of_workout workoutId (db (remote w)))))
  /\ (hd false (faults (remote w)) = true -> fst out = 0)
  /\ db (remote (snd out)) = db (remote w)
  /\ toasts (snd out) = toasts w
  /\ console (snd out) = console w.
Proof.
  intros out. subst out.
  unfold getExerciseCount, fetch_exercise_ids, send, with_remote. cbn.
  destruct (faults (remote w)) as [|[|] fs]; cbn [hd fst snd remote db toasts console];
    repeat split; intros; try discriminate; try reflexivity;
    cbn [option_map]; rewrite or_zero_id, length_map; reflexivity.
Qed.

Import Samples.

Example dashboard_while_offline :
  let out := Home.loadDashboardData utc dates_only monday Home.initial (offline gym) in
  recent (fst out) = NoWorkoutsYet
  /\ stats (fst out) = stats Home.initial
  /\ toasts (snd out) = [].
Proof. repeat split. Qed.

(** Seven stored workouts: seven counted, 285 minutes, six cards. *)
Lemma dashboard_reflects_store_witness :
  let out :=
    Home.loadDashboardData utc dates_only monday Home.initial (online seven_workouts) in
  totalWorkouts (stats (fst out)) = 7
  /\ Js.integer_value (totalMinutes (stats (fst out))) = Some 285
  /\ List.length (cards_of (recent (fst out))) = 6%nat
  /\ db (remote (snd out)) = seven_workouts.
Proof.
  exact (dashboard_reflects_store utc dates_only monday Home.initial
           (online seven_workouts) eq_refl eq_refl eq_refl).
Defined.

End HomeLoadFacts.

(** ** Loading and changing a workout *)

Module WorkoutPageFacts.
Import Supabase WorkoutDetail WorkoutDetailFacts WorkoutRows.

Lemma loadWorkoutData_failures (st : State) (w : World) :
  let out := loadWorkoutData st w in
  loading (fst out) = false
  /\ workoutId (fst out) = workoutId st
  /\ (forall e,
        fst (fetch_workout (workoutId st) (remote w)) = Failure e ->
        workout (fst out) = workout st
        /\ workoutExercises (fst out) = workoutExercises st
        /\ toasts (snd out) = toasts w ++ [toast_error "Failed to load workout"])
  /\ (forall found,
        fst (fetch_workout (workoutId st) (remote w)) = Success found ->
        hd false (tl (faults (remote w))) = true ->
        workout (fst out) = found
        /\ workoutExercises (fst out) = workoutExercises st
        /\ toasts (snd out) = toasts w ++ [toast_error "Failed to load workout"]).
Proof.
  intros out. subst out.
  unfold loadWorkoutData, fetch_workout, fetch_workout_exercises, send, with_remote,
    caught, toast, console_error.
  cbn.
  destruct (faults (remote w)) as [|[|] [|[|] fs]]; cbn;
    destruct (maybeSingle (workouts_with_id (workoutId st) (db (remote w)))) eqn:E;
    cbn; repeat split; intros; try discriminate; try congruence; auto.
Qed.

(** X12. A load of the workout page always ends with [loading] false.  When
    the workout query fails (or finds several rows), the workout and the
    exercises shown stay as they were, so a first load that fails shows
    "Workout not found"; when only the exercises query fails, the workout
    is replaced and the exercises stay as they were; each failure shows the
    notification "Failed to load workout". *)
Theorem workout_load_failures (st : State) (w : World) :
  let out := loadWorkoutData st w in
  loading (fst out) = false
  /\ workoutId (fst out) = workoutId st
  /\ (forall e,
        fst (fetch_workout (workoutId st) (remote w)) = Failure e ->
        workout (fst out) = workout st
        /\ workoutExercises (fst out) = workoutExercises st
        /\ toasts (snd out) = toasts w ++ [toast_error "Failed to load workout"]
        /\ (workout st = None -> render (fst out) = Placeholder "Workout not found"))
  /\ (forall found,
        fst (fetch_workout (workoutId st) (remote w)) = Success found ->
        hd false (tl (faults (remote w))) = true ->
        workout (fst out) = found
        /\ workoutExercises (fst out) = workoutExercises st
        /\ toasts (snd out) = toasts w ++ [toast_error "Failed to load workout"]).
Proof.
  intros out.
  destruct (loadWorkoutData_failures st w) as (Hl & Hid & Hfail & Hpart).
  fold out in Hl, Hid, Hfail, Hpart.
  split; [exact Hl|]. split; [exact Hid|]. split; [|exact Hpart].
  intros e He. destruct (Hfail e He) as (Hw & Hx & Ht).
  repeat split; try assumption.
  intros Hnone. unfold render. now rewrite Hl, Hw, Hnone.
Qed.

(** X13. When the insert fails, [handleAddExercise] leaves the page and the
    store as they were, shows "Failed to add exercise" and does not reload. *)
Theorem failed_add_changes_nothing (exercise : Exercise.t) (details : Details)
    (st : State) (w : World)
    (Hfail : hd false (faults (remote w)) = true) :
  let out := handleAddExercise exercise details st w in
  fst out = st
  /\ db (remote (snd out)) = db (remote w)
  /\ toasts (snd out) = toasts w ++ [toast_error "Failed to add exercise"]
  /\ log (remote (snd out))
     = log (remote w) ++ [insert_workout_exercise (new_row exercise details st)].
Proof.
  intros out. subst out.
  unfold handleAddExercise, insert_exercise, send, with_remote, caught, toast,
    console_error.
  cbn. destruct (faults (remote w)) as [|[|] fs]; cbn in *; try discriminate.
  repeat split.
Qed.

Lemma workouts_with_id_new_row (id : string) (n : NewWorkoutExercise) (r : Remote) :
  workouts_with_id id (with_new_row n r) = workouts_with_id id (db r).
Proof. reflexivity. Qed.

Lemma rows_after_insert (n : NewWorkoutExercise) (r : Remote) :
  rows_of_workout (new_workout_id n) (with_new_row n r)
  = rows_of_workout (new_workout_id n) (db r) ++ [stored (uuid r (issued r)) n].
Proof.
  unfold rows_of_workout, with_new_row. cbn [workout_exercises].
  rewrite filter_app. cbn [filter stored WorkoutExercise.workout_id].
  now rewrite String.eqb_refl.
Qed.

(** A successful add: the row is stored, the page reloads and shows the
    stored rows of the workout. *)
Lemma handleAddExercise_success (exercise : Exercise.t) (details : Details)
    (st : State) (w : World) (found : option Workout.t) :
  faults (remote w) = [] ->
  maybeSingle (workouts_with_id (workoutId st) (db (remote w))) = Success found ->
  let n := new_row exercise details st in
  let d' := with_new_row n (remote w) in
  handleAddExercise exercise details st w =
  (setLoading false
     (setWorkoutExercises (exercises_of_workout (workoutId st) d')
        (setWorkout found (setLoading true st))),
   {| remote := {| db := d';
                   faults := [];
                   uuid := uuid (remote w);
                   issued := S (issued (remote w));
                   log := log (remote w)
                          ++ [insert_workout_exercise n;
                              select_workout (workoutId st);
                              select_workout_exercises (workoutId st)] |};
      toasts := toasts w ++ [toast_success "Exercise added!"];
      console := console w |}).
Proof.
  intros Hf Hfound n d'.
  unfold handleAddExercise, insert_exercise, loadWorkoutData, fetch_workout,
    fetch_workout_exercises, send, with_remote, toast.
  fold (new_row exercise details st). fold n.
  rewrite Hf. cbn.
  fold (with_new_row n (remote w)). fold d'.
  unfold workouts_with_id in Hfound. rewrite Hfound.
  rewrite <- !app_assoc. reflexivity.
Qed.

(** A successful delete: the row leaves the store, the page reloads. *)
Lemma handleDeleteExercise_success (exerciseId : string)
    (st : State) (w : World) (found : option Workout.t) :
  faults (remote w) = [] ->
  maybeSingle (workouts_with_id (workoutId st) (db (remote w))) = Success found ->
  let d' := without_row exerciseId (db (remote w)) in
  handleDeleteExercise exerciseId st w =
  (setLoading false
     (setWorkoutExercises (exercises_of_workout (workoutId st) d')
        (setWorkout found (setLoading true st))),
   {| remote := {| db := d';
                   faults := [];
                   uuid := uuid (remote w);
                   issued := issued (remote w);
                   log := log (remote w)
                          ++ [delete_workout_exercise exerciseId;
                              select_workout (workoutId st);
                              select_workout_exercises (workoutId st)] |};
      toasts := toasts w ++ [toast_success "Exercise removed"];
      console := console w |}).
Proof.
  intros Hf Hfound d'.
  unfold handleDeleteExercise, delete_exercise, loadWorkoutData, fetch_workout,
    fetch_workout_exercises, send, with_remote, toast.
  rewrite Hf. cbn.
  fold (without_row exerciseId (db (remote w))). fold d'.
  unfold workouts_with_id in Hfound. rewrite Hfound.
  rewrite <- !app_assoc. reflexivity.
Qed.

(** X14. Two adds in a row, with no failure and no other writer, store two
    rows whose [order_index] are the number of exercises before and that
    number plus one; the list shown grows by one each time and stays the
    list of the store. *)
Theorem consecutive_adds_number_consecutively
    (exercise1 exercise2 : Exercise.t) (details1 details2 : Details)
    (st : State) (w : World) (found : option Workout.t)
    (Hfaults : faults (remote w) = [])
    (Hfound : maybeSingle (workouts_with_id (workoutId st) (db (remote w)))
              = Success found)
    (Hsync : in_sync st w) :
  let out1 := handleAddExercise exercise1 details1 st w in
  let out2 := handleAddExercise exercise2 details2 (fst out1) (snd out1) in
  let n := List.length (rows_of_workout (workoutId st) (db (remote w))) in
  exists row1 row2 id1 id2,
    workout_exercises (db (remote (snd out2)))
      = workout_exercises (db (remote w)) ++ [stored id1 row1; stored id2 row2]
    /\ new_order_index row1 = Z.of_nat n
    /\ new_order_index row2 = Z.of_nat n + 1
    /\ List.length (workoutExercises (fst out1)) = S n
    /\ List.length (workoutExercises (fst out2)) = S (S n)
    /\ in_sync (fst out2) (snd out2).
Proof.
  intros out1 out2 n.
  pose proof (handleAddExercise_success exercise1 details1 st w found Hfaults Hfound)
    as H1. cbn zeta in H1.
  set (r1 := new_row exercise1 details1 st) in *.
  set (d1 := with_new_row r1 (remote w)) in *.
  assert (Hrows1 : List.length (rows_of_workout (workoutId st) d1) = S n).
  { subst d1. change (workoutId st) with (new_workout_id r1) at 1.
    rewrite rows_after_insert, length_app. cbn. subst n. lia. }
  subst out2 out1. rewrite H1. cbn [fst snd].
  match goal with
  | |- context [handleAddExercise exercise2 details2 ?s ?v] =>
      set (st1 := s) in *; set (w1 := v) in *
  end.
  pose proof (handleAddExercise_success exercise2 details2 st1 w1 found
                eq_refl Hfound) as H2.
  cbn zeta in H2. rewrite H2. cbn [fst snd].
  set (r2 := new_row exercise2 details2 st1) in *.
  set (d2 := with_new_row r2 (remote w1)) in *.
  assert (Hrows2 : List.length (rows_of_workout (workoutId st) d2) = S (S n)).
  { subst d2. change (workoutId st) with (new_workout_id r2) at 1.
    rewrite rows_after_insert, length_app.
    change (db (remote w1)) with d1. change (new_workout_id r2) with (workoutId st).
    rewrite Hrows1. cbn. lia. }
  exists r1, r2, (uuid (remote w) (issued (remote w))),
    (uuid (remote w1) (issued (remote w1))).
  cbn [remote db workoutExercises setLoading setWorkoutExercises setWorkout].
  split.
  { subst d2 d1 w1. unfold with_new_row. cbn [workout_exercises db remote].
    now rewrite <- app_assoc. }
  split.
  { subst r1. cbn [new_row new_order_index]. rewrite Hsync.
    now rewrite length_exercises_of_workout. }
  split.
  { subst r2 st1. cbn [new_row new_order_index workoutExercises setLoading
      setWorkoutExercises].
    rewrite length_exercises_of_workout, Hrows1. lia. }
  split.
  { subst st1. cbn [workoutExercises setLoading setWorkoutExercises].
    now rewrite length_exercises_of_workout. }
  split.
  { change (workoutId st1) with (workoutId st).
    now rewrite length_exercises_of_workout. }
  unfold in_sync. reflexivity.
Qed.

Lemma rows_after_delete (id workout_id : string) (d : Database) :
  rows_of_workout workout_id (without_row id d)
  = filter (fun we => negb (String.eqb (WorkoutExercise.id we) id))
           (rows_of_workout workout_id d).
Proof.
  unfold rows_of_workout, without_row. cbn [workout_exercises].
  induction (workout_exercises d) as [|a l IH]; [reflexivity|].
  cbn [filter].
  destruct (negb (WorkoutExercise.id a =? id)%string) eqn:Ea;
    destruct (WorkoutExercise.workout_id a =? workout_id)%string eqn:Eb;
    cbn [filter]; rewrite ?Ea, ?Eb, IH; reflexivity.
Qed.

Lemma NoDup_map_filter (A B : Type) (f : A -> B) (p : A -> bool) (l : list A) :
  NoDup (map f l) -> NoDup (map f (filter p l)).
Proof.
  induction l as [|a l IH]; cbn; intros H; [constructor|].
  inversion H as [|? ? Hn Hd]; subst.
  destruct (p a); cbn; [constructor|]; auto.
  intros Hin. apply Hn. apply in_map_iff in Hin. destruct Hin as [x [Hx Hin]].
  apply filter_In in Hin. apply in_map_iff. exists x. tauto.
Qed.

Lemma length_without (id : string) (l : list WorkoutExercise.t) (x : WorkoutExercise.t) :
  NoDup (map WorkoutExercise.id l) -> In x l -> WorkoutExercise.id x = id ->
  S (List.length (filter (fun we => negb (String.eqb (WorkoutExercise.id we) id)) l))
  = List.length l.
Proof.
  intros Hnd Hin Hid. induction l as [|a l IH]; [destruct Hin|].
  cbn [map] in Hnd. inversion Hnd as [|? ? Hn Hd]; subst.
  cbn [filter]. destruct Hin as [->|Hin].
  - rewrite String.eqb_refl. cbn [negb List.length]. f_equal.
    f_equal. rewrite forallb_filter_id; [reflexivity|].
    apply forallb_forall. intros y Hy.
    destruct (String.eqb_spec (WorkoutExercise.id y) (WorkoutExercise.id x)) as [E|E];
      [|reflexivity].
    exfalso. apply Hn. rewrite <- E. now apply in_map.
  - destruct (String.eqb_spec (WorkoutExercise.id a) (WorkoutExercise.id x)) as [E|E].
    + exfalso. apply Hn. rewrite E. now apply in_map.
    + cbn [negb List.length]. f_equal. now apply IH.
Qed.

(** X15. Deleting one exercise of the workout and then adding one, with no
    failure and no other writer: the new row gets the number of exercises
    left as its [order_index], rows that stay keep theirs, so a row that
    stays with the highest position shares it with the new row. *)
Theorem add_after_delete_reuses_order_index
    (target : WorkoutExercise.t) (exercise : Exercise.t) (details : Details)
    (st : State) (w : World) (found : option Workout.t)
    (Hfaults : faults (remote w) = [])
    (Hfound : maybeSingle (workouts_with_id (workoutId st) (db (remote w)))
              = Success found)
    (Hsync : in_sync st w)
    (Hids : NoDup (map WorkoutExercise.id (workout_exercises (db (remote w)))))
    (Htarget : In target (rows_of_workout (workoutId st) (db (remote w)))) :
  let out1 := handleDeleteExercise (WorkoutExercise.id target) st w in
  let out2 := handleAddExercise exercise details (fst out1) (snd out1) in
  let n := List.length (rows_of_workout (workoutId st) (db (remote w))) in
  exists new,
    WorkoutExercise.order_index new = Z.of_nat n - 1
    /\ rows_of_workout (workoutId st) (db (remote (snd out2)))
       = filter (fun we => negb (String.eqb (WorkoutExercise.id we)
                                            (WorkoutExercise.id target)))
                (rows_of_workout (workoutId st) (db (remote w))) ++ [new]
    /\ List.length (workoutExercises (fst out2)) = n
    /\ (forall we, In we (rows_of_workout (workoutId st) (db (remote w))) ->
          WorkoutExercise.id we <> WorkoutExercise.id target ->
          WorkoutExercise.order_index we = Z.of_nat n - 1 ->
          In we (rows_of_workout (workoutId st) (db (remote (snd out2))))
          /\ WorkoutExercise.order_index we = WorkoutExercise.order_index new).
Proof.
  intros out1 out2 n.
  pose proof (handleDeleteExercise_success (WorkoutExercise.id target) st w found
                Hfaults Hfound) as H1. cbn zeta in H1.
  set (d1 := without_row (WorkoutExercise.id target) (db (remote w))) in *.
  assert (Hlen : S (List.length (rows_of_workout (workoutId st) d1)) = n).
  { subst d1 n. rewrite rows_after_delete.
    apply (length_without _ _ target); [|exact Htarget|reflexivity].
    now apply NoDup_map_filter. }
  subst out2 out1. rewrite H1. cbn [fst snd].
  match goal with
  | |- context [handleAddExercise exercise details ?s ?v] =>
      set (st1 := s) in *; set (w1 := v) in *
  end.
  pose proof (handleAddExercise_success exercise details st1 w1 found
                eq_refl Hfound) as H2.
  cbn zeta in H2. rewrite H2. cbn [fst snd].
  set (r2 := new_row exercise details st1) in *.
  assert (Hr2 : new_order_index r2 = Z.of_nat n - 1).
  { subst r2 st1. cbn [new_row new_order_index workoutExercises setLoading
      setWorkoutExercises].
    rewrite length_exercises_of_workout. lia. }
  assert (Hrows : rows_of_workout (workoutId st) (with_new_row r2 (remote w1))
                  = filter (fun we => negb (String.eqb (WorkoutExercise.id we)
                                                       (WorkoutExercise.id target)))
                           (rows_of_workout (workoutId st) (db (remote w)))
                    ++ [stored (uuid (remote w1) (issued (remote w1))) r2]).
  { change (workoutId st) with (new_workout_id r2) at 1.
    rewrite rows_after_insert. change (db (remote w1)) with d1.
    change (new_workout_id r2) with (workoutId st). subst d1.
    now rewrite rows_after_delete. }
  exists (stored (uuid (remote w1) (issued (remote w1))) r2).
  cbn [remote db workoutExercises setLoading setWorkoutExercises setWorkout].
  split; [exact Hr2|].
  split; [exact Hrows|].
  split.
  { change (workoutId st1) with (workoutId st).
    rewrite length_exercises_of_workout, Hrows, length_app.
    rewrite <- rows_after_delete. fold d1. cbn [List.length]. lia. }
  intros we Hin Hne Hidx. split.
  - rewrite Hrows. apply in_or_app. left. apply filter_In. split; [exact Hin|].
    now destruct (String.eqb_spec (WorkoutExercise.id we) (WorkoutExercise.id target)).
  - cbn [stored WorkoutExercise.order_index]. congruence.
Qed.

Import Samples.

Example load_while_offline :
  let out := loadWorkoutData (initial "w1") (offline gym) in
  render (fst out) = Placeholder "Workout not found"
  /\ toasts (snd out) = [toast_error "Failed to load workout"].
Proof. split; reflexivity. Qed.

Lemma failed_add_changes_nothing_witness :
  let st := fst (loadWorkoutData (initial "w1") (online gym)) in
  let out := handleAddExercise bench_press three_by_ten st (offline gym) in
  fst out = st
  /\ db (remote (snd out)) = gym
  /\ toasts (snd out) = [toast_error "Failed to add exercise"]
  /\ log (remote (snd out))
     = [insert_workout_exercise (new_row bench_press three_by_ten st)].
Proof.
  exact (failed_add_changes_nothing bench_press three_by_ten
           (fst (loadWorkoutData (initial "w1") (online gym))) (offline gym) eq_refl).
Defined.

Lemma consecutive_adds_number_consecutively_witness :
  let st := fst (loadWorkoutData (initial "w1") (online gym)) in
  let out1 := handleAddExercise bench_press three_by_ten st (online gym) in
  let out2 := handleAddExercise bench_press three_by_ten (fst out1) (snd out1) in
  exists row1 row2 id1 id2,
    workout_exercises (db (remote (snd out2)))
      = workout_exercises gym ++ [stored id1 row1; stored id2 row2]
    /\ new_order_index row1 = 2
    /\ new_order_index row2 = 3
    /\ List.length (workoutExercises (fst out1)) = 3%nat
    /\ List.length (workoutExercises (fst out2)) = 4%nat
    /\ in_sync (fst out2) (snd out2).
Proof.
  exact (consecutive_adds_number_consecutively bench_press bench_press
           three_by_ten three_by_ten
           (fst (loadWorkoutData (initial "w1") (online gym))) (online gym)
           (Some push_day) eq_refl eq_refl eq_refl).
Defined.

(** After "x1" is deleted and an exercise is added, both rows of the
    workout have position 1. *)
Example positions_after_delete_and_add :
  let st := fst (loadWorkoutData (initial "w1") (online gym)) in
  let out1 := handleDeleteExercise "x1" st (online gym) in
  let out2 := handleAddExercise bench_press three_by_ten (fst out1) (snd out1) in
  map WorkoutExercise.order_index (rows_of_workout "w1" (db (remote (snd out2))))
  = [1; 1].
Proof. reflexivity. Qed.

Lemma add_after_delete_reuses_order_index_witness :
  let st := fst (loadWorkoutData (initial "w1") (online gym)) in
  let out1 := handleDeleteExercise "x1" st (online gym) in
  let out2 := handleAddExercise bench_press three_by_ten (fst out1) (snd out1) in
  exists new,
    WorkoutExercise.order_index new = 1
    /\ rows_of_workout "w1" (db (remote (snd out2))) = [logged "x2" 1; new]
    /\ List.length (workoutExercises (fst out2)) = 2%nat
    /\ (forall we, In we (rows_of_workout "w1" gym) ->
          WorkoutExercise.id we <> "x1" ->
          WorkoutExercise.order_index we = 1 ->
          In we (rows_of_workout "w1" (db (remote (snd out2))))
          /\ WorkoutExercise.order_index we = WorkoutExercise.order_index new).
Proof.
  assert (Hids : NoDup (map WorkoutExercise.id (workout_exercises gym))).
  { apply NoDup_cons; [intros [H|[]]; discriminate|].
    apply NoDup_cons; [intros []|]. apply NoDup_nil. }
  exact (add_after_delete_reuses_order_index (logged "x1" 0) bench_press three_by_ten
           (fst (loadWorkoutData (initial "w1") (online gym))) (online gym)
           (Some push_day) eq_refl eq_refl eq_refl Hids (or_introl eq_refl)).
Defined.


End WorkoutPageFacts.

(** ** Properties of the exercise selector *)

Module SelectorFacts.
Import Supabase WorkoutDetail WorkoutRows.

(** X16. A click on "Add Exercise" with no exercise selected does nothing.
    With one selected it sends the insert of that exercise with the details
    typed, and whether the insert succeeds or fails the selection is
    cleared, the details go back to 3 sets of 10 at weight 0 and the dialog
    is closed; so a second click sends nothing more. *)
Theorem selector_add_once (sel : ExerciseSelector.State) (st : State) (w : World) :
  let out1 := ExerciseSelector.handleAddExercise sel st w in
  let out2 := ExerciseSelector.handleAddExercise
                (fst (fst out1)) (snd (fst out1)) (snd out1) in
  out2 = out1
  /\ (ExerciseSelector.selectedExercise sel = None -> out1 = (sel, st, w))
  /\ (forall exercise,
        ExerciseSelector.selectedExercise sel = Some exercise ->
        fst (fst out1) = ExerciseSelector.initial
        /\ showExerciseSelector (snd (fst out1)) = false
        /\ exists rest,
             log (remote (snd out1))
             = log (remote w)
               ++ insert_workout_exercise
                    (new_row exercise (ExerciseSelector.details sel) st) :: rest).
Proof.
  intros out1 out2. subst out2 out1. unfold ExerciseSelector.handleAddExercise.
  destruct (ExerciseSelector.selectedExercise sel) as [exercise|] eqn:Esel.
  - destruct (handleAddExercise exercise (ExerciseSelector.details sel) st w)
      as [st' w'] eqn:Eadd.
    cbn [fst snd ExerciseSelector.selectedExercise ExerciseSelector.initial].
    split; [reflexivity|]. split; [discriminate|].
    intros e He. injection He as <-.
    split; [reflexivity|]. split; [reflexivity|].
    revert Eadd.
    unfold handleAddExercise, insert_exercise, loadWorkoutData, fetch_workout,
      fetch_workout_exercises, send, with_remote, caught, toast, console_error.
    fold (new_row exercise (ExerciseSelector.details sel) st).
    cbn.
    destruct (faults (remote w)) as [|[|] [|[|] [|[|] fs]]]; cbn;
      try destruct (maybeSingle _); cbn;
      intros E; injection E as <- <-; cbn;
      rewrite <- ?app_assoc; cbn; eexists; reflexivity.
  - cbn [fst snd]. rewrite Esel. split; [reflexivity|]. split; [reflexivity|]. discriminate.
Qed.

Import Samples.

Example selector_add_while_offline :
  let sel := {| ExerciseSelector.selectedExercise := Some bench_press;
                ExerciseSelector.details := three_by_ten |} in
  let out := ExerciseSelector.handleAddExercise sel (initial "w1") (offline gym) in
  fst (fst out) = ExerciseSelector.initial
  /\ showExerciseSelector (snd (fst out)) = false
  /\ workout_exercises (db (remote (snd out))) = workout_exercises gym
  /\ toasts (snd out) = [toast_error "Failed to add exercise"].
Proof. repeat split. Qed.

End SelectorFacts.

(** ** Properties of the exercise library *)

Module LibraryFacts.
Import ExerciseLibrary.

(** X17. The exercise library shows, in the order loaded, every exercise when
    no category or the empty identifier is selected, and otherwise exactly
    the exercises whose [category_id] is the selected one; an exercise with
    no category is shown only in the first case. *)
Theorem filteredExercises_shows (selectedCategory : option string)
    (exercises more : list Exercise.t) (ex : Exercise.t) :
  (In ex (filteredExercises selectedCategory exercises)
   <-> In ex exercises
       /\ (selectedCategory = None \/ selectedCategory = Some ""
           \/ Exercise.category_id ex = selectedCategory))
  /\ filteredExercises selectedCategory (exercises ++ more)
     = filteredExercises selectedCategory exercises
       ++ filteredExercises selectedCategory more.
Proof.
  unfold filteredExercises. destruct selectedCategory as [c|].
  - destruct (String.eqb_spec c "") as [->|Hc].
    + split; [tauto|reflexivity].
    + split; [|apply filter_app].
      rewrite filter_In. split.
      * intros [Hin Hk]. split; [exact Hin|]. right. right.
        destruct (Exercise.category_id ex) as [k|]; [|discriminate].
        apply String.eqb_eq in Hk. now subst.
      * intros [Hin [H|[H|H]]]; try discriminate.
        { injection H as ->. now destruct Hc. }
        split; [exact Hin|]. rewrite H. apply String.eqb_refl.
  - split; [tauto|reflexivity].
Qed.

End LibraryFacts.

(** ** The order of the rows that the queries return *)

Module OrderFacts.
Import Supabase WorkoutDetailFacts HomeFacts.

Section Order.

Variable A : Type.
Variable le : A -> A -> bool.
Hypothesis le_total : forall a b, le a b = true \/ le b a = true.
Hypothesis le_trans : forall a b c, le a b = true -> le b c = true -> le a c = true.

Lemma insert_sorted_Permutation (x : A) (l : list A) :
  Permutation (insert_sorted le x l) (x :: l).
Proof.
  induction l as [|y l IH]; cbn; [reflexivity|].
  destruct (le x y); [reflexivity|].
  rewrite IH. apply perm_swap.
Qed.

Lemma order_by_Permutation (l : list A) : Permutation (order_by le l) l.
Proof.
  induction l as [|x l IH]; cbn; [reflexivity|].
  fold (order_by le l). rewrite insert_sorted_Permutation. now constructor.
Qed.

Lemma insert_sorted_sorted (x : A) (l : list A) :
  StronglySorted (fun a b => le a b = true) l ->
  StronglySorted (fun a b => le a b = true) (insert_sorted le x l).
Proof.
  induction 1 as [|y l Hs IH Hy]; cbn.
  - repeat constructor.
  - destruct (le x y) eqn:E.
    + constructor; [now constructor|]. constructor; [exact E|].
      rewrite Forall_forall in *. intros z Hz. apply le_trans with y; auto.
    + constructor; [exact IH|].
      assert (Hyx : le y x = true) by (destruct (le_total x y); congruence).
      rewrite Forall_forall in *. intros z Hz.
      apply (Permutation_in _ (insert_sorted_Permutation x l)) in Hz.
      destruct Hz as [<-|Hz]; auto.
Qed.

Lemma order_by_sorted (l : list A) :
  StronglySorted (fun a b => le a b = true) (order_by le l).
Proof.
  induction l as [|x l IH]; cbn; [constructor|].
  now apply insert_sorted_sorted.
Qed.

End Order.

Lemma sorted_app (A : Type) (R : A -> A -> Prop) (l1 l2 : list A) :
  StronglySorted R (l1 ++ l2) ->
  StronglySorted R l1
  /\ forall a b, In a l1 -> In b l2 -> R a b.
Proof.
  induction l1 as [|x l1 IH]; cbn; intros H.
  - split; [constructor | intros a b []].
  - inversion H as [|? ? Hs Hx]; subst. destruct (IH Hs) as [IH1 IH2].
    rewrite Forall_forall in Hx. split.
    + constructor; [exact IH1|]. apply Forall_forall. intros z Hz.
      apply Hx. apply in_or_app. now left.
    + intros a b [<-|Ha] Hb; [|now apply IH2].
      apply Hx. apply in_or_app. now right.
Qed.

Lemma sorted_impl (A : Type) (R R' : A -> A -> Prop) (l : list A) :
  (forall a b, R a b -> R' a b) -> StronglySorted R l -> StronglySorted R' l.
Proof.
  intros HR. induction 1 as [|a l _ IH Ha]; constructor; [exact IH|].
  eapply Forall_impl; [|exact Ha]. intros b. apply HR.
Qed.

Lemma exercises_by_order_index (id : string) (d : Database) :
  let shown := map row (exercises_of_workout id d) in
  Permutation shown (rows_of_workout id d)
  /\ StronglySorted
       (fun a b => WorkoutExercise.order_index a <= WorkoutExercise.order_index b)
       shown.
Proof.
  intros shown. subst shown. unfold exercises_of_workout.
  rewrite map_map. cbn [row join_exercise]. rewrite map_id.
  split; [apply order_by_Permutation|].
  eapply StronglySorted_ind with
    (P := fun l => StronglySorted
                     (fun a b => WorkoutExercise.order_index a
                                 <= WorkoutExercise.order_index b) l);
    [constructor | | apply order_by_sorted].
  - intros a l _ IH Ha. constructor; [exact IH|].
    eapply Forall_impl; [|exact Ha]. intros b Hb. now apply Z.leb_le.
  - intros a b. rewrite !Z.leb_le. lia.
  - intros a b c. rewrite !Z.leb_le. lia.
Qed.

Lemma recent_workouts_sorted (limit : nat) (d : Database) :
  let shown := recent_workouts limit d in
  exists rest,
    Permutation (shown ++ rest) (Supabase.workouts d)
    /\ List.length shown = Nat.min limit (List.length (Supabase.workouts d))
    /\ StronglySorted
         (fun a b => date_number (Workout.date b) <= date_number (Workout.date a)) shown
    /\ (forall a b, In a shown -> In b rest ->
          date_number (Workout.date b) <= date_number (Workout.date a)).
Proof.
  intros shown. subst shown. unfold recent_workouts.
  set (le := fun a b => date_number (Workout.date b) <=? date_number (Workout.date a)).
  set (sorted := order_by le (Supabase.workouts d)).
  exists (skipn limit sorted).
  assert (Hs : StronglySorted
                 (fun a b => date_number (Workout.date b) <= date_number (Workout.date a))
                 sorted).
  { apply sorted_impl with (R := fun a b => le a b = true).
    - intros a b. unfold le. apply Z.leb_le.
    - apply order_by_sorted.
      + intros a b. unfold le. rewrite !Z.leb_le. lia.
      + intros a b c. unfold le. rewrite !Z.leb_le. lia. }
  rewrite <- (firstn_skipn limit sorted) in Hs.
  apply sorted_app in Hs. destruct Hs as [Hs1 Hs2].
  split; [rewrite firstn_skipn; apply order_by_Permutation|].
  split; [subst sorted; now rewrite length_firstn, length_order_by|].
  split; [exact Hs1 | exact Hs2].
Qed.

(** The text of a date of four digits of year or more, and of a date before
    year 1, is read as its place in the calendar. *)
Example date_number_by_calendar :
  date_number "2024-01-05" = 20240105
  /\ date_number "10000-01-01" = 100000101
  /\ date_number "0001-01-01" = 10101
  /\ date_number "0001-12-31 BC" = 1231
  /\ date_number "0044-03-15 BC" = -429685.
Proof. repeat split. Qed.

(** X18. After a load of the workout page whose two queries succeed, the
    exercises shown are the stored rows of the workout, each once, in
    ascending [order_index]. *)
Theorem loaded_exercises_in_order
    (st : WorkoutDetail.State) (w : World) (found : option Workout.t)
    (Hfirst : hd false (faults (remote w)) = false)
    (Hsecond : hd false (tl (faults (remote w))) = false)
    (Hfound : maybeSingle (workouts_with_id (WorkoutDetail.workoutId st) (db (remote w)))
              = Success found) :
  let shown :=
    map row (WorkoutDetail.workoutExercises (fst (WorkoutDetail.loadWorkoutData st w))) in
  Permutation shown (rows_of_workout (WorkoutDetail.workoutId st) (db (remote w)))
  /\ StronglySorted
       (fun a b => WorkoutExercise.order_index a <= WorkoutExercise.order_index b)
       shown.
Proof.
  intros shown. subst shown.
  destruct (loadWorkoutData_success st w found Hfirst Hsecond Hfound) as [-> _].
  apply exercises_by_order_index.
Qed.

Section Host.

Variable LocalTZA : Z -> bool -> Z.
Variable parse_other : string -> JsDate.TimeValue.

(** X19. When the first query of the dashboard succeeds, the workouts listed
    are at most six of the stored ones, latest calendar date first, and
    every stored workout left out is dated no later than each one listed. *)
Theorem dashboard_lists_latest_six (now : Z) (st : Home.State) (w : World)
    (Hfirst : hd false (faults (remote w)) = false) :
  let shown :=
    Home.workouts (fst (Home.loadDashboardData LocalTZA parse_other now st w)) in
  exists rest,
    Permutation (shown ++ rest) (Supabase.workouts (db (remote w)))
    /\ List.length shown = Nat.min 6 (List.length (Supabase.workouts (db (remote w))))
    /\ StronglySorted
         (fun a b => date_number (Workout.date b) <= date_number (Workout.date a)) shown
    /\ (forall a b, In a shown -> In b rest ->
          date_number (Workout.date b) <= date_number (Workout.date a)).
Proof.
  intros shown.
  assert (Hshown : shown = recent_workouts 6 (db (remote w))).
  { subst shown.
    unfold Home.loadDashboardData, fetch_recent_workouts, fetch_workout_stats, send,
      with_remote, console_error.
    cbn. destruct (faults (remote w)) as [|[|] [|[|] fs]]; cbn in *;
      try discriminate; reflexivity. }
  rewrite Hshown. apply recent_workouts_sorted.
Qed.

End Host.

Import Samples.

Lemma loaded_exercises_in_order_witness :
  let shown :=
    map row (WorkoutDetail.workoutExercises
               (fst (WorkoutDetail.loadWorkoutData (WorkoutDetail.initial "w1")
                       (online gym)))) in
  Permutation shown (rows_of_workout "w1" gym)
  /\ StronglySorted
       (fun a b => WorkoutExercise.order_index a <= WorkoutExercise.order_index b)
       shown.
Proof.
  exact (loaded_exercises_in_order (WorkoutDetail.initial "w1") (online gym)
           (Some push_day) eq_refl eq_refl eq_refl).
Defined.

(** Of seven stored workouts the six latest are listed, the one dated in
    the year 10000 first; the one of 2023-12-31 is left out. *)
Example latest_six_of_seven :
  map Workout.id
      (Home.workouts
         (fst (Home.loadDashboardData utc dates_only monday Home.initial
                 (online seven_workouts))))
  = ["w3"; "w4"; "w6"; "w1"; "w7"; "w2"]%string.
Proof. reflexivity. Qed.

Lemma dashboard_lists_latest_six_witness :
  let shown :=
    Home.workouts
      (fst (Home.loadDashboardData utc dates_only monday Home.initial
              (online seven_workouts))) in
  exists rest,
    Permutation (shown ++ rest) (Supabase.workouts seven_workouts)
    /\ List.length shown = 6%nat
    /\ StronglySorted
         (fun a b => date_number (Workout.date b) <= date_number (Workout.date a)) shown
    /\ (forall a b, In a shown -> In b rest ->
          date_number (Workout.date b) <= date_number (Workout.date a)).
Proof.
  exact (dashboard_lists_latest_six utc dates_only monday Home.initial
           (online seven_workouts) eq_refl).
Defined.

End OrderFacts.
